(** * Barcode shopping cart: a shallow embedding of [app.py]

    The Flask application keeps one shared cart in a SQLite table, reads its
    catalogue from a flat text file on every request, and commits an order
    after the payment gateway's signature has been verified.  This file
    embeds the catalogue loader, the cart statements, the amount computation
    and the handlers of the application (cart page and scan, gallery,
    product image, quantity updates, checkout, order creation and the two
    payment callbacks), and proves the properties the specification states
    about them, then further properties of the handlers.

    Conventions of the embedding:
    - a Python [str] is a [string] whose characters are code points below 256;
    - a Python [int] is a [Z]; SQLite's INTEGER storage class is the signed
      64-bit range, checked where Python binds a parameter;
    - a Python [float] is a binary64 number of the standard library's
      specification of IEEE 754 arithmetic;
    - a Python [dict] is a [gmap]; a SQLite table is the list of its rows in
      insertion order;
    - the file system, the clock, the random generator, the payment gateway,
      the image search and storage faults are inputs of the handlers;
    - Python [bytes] are a list of bytes; a rendered template is the page
      with its arguments;
    - [print] calls (operator log) are left out. *)

From Stdlib Require Import ZArith Lia Bool Ascii.
From Stdlib Require Import Floats.SpecFloat Zpower.
From Stdlib.Strings Require Import Byte.
From stdpp Require Import base option list gmap strings pretty.

Local Open Scope Z_scope.

(** ** Python built-ins used by the application *)

Module Py.

(** [str.isspace] on code points below 256: the characters [str.strip]
    removes. *)
Definition isspace (c : ascii) : bool :=
  let n := N_of_ascii c in
  ((9 <=? n) && (n <=? 13) || (28 <=? n) && (n <=? 32)
   || (n =? 133) || (n =? 160))%N.

Fixpoint lstrip (s : string) : string :=
  match s with
  | EmptyString => EmptyString
  | String c s' => if isspace c then lstrip s' else s
  end.

Definition rstrip (s : string) : string :=
  String.rev (lstrip (String.rev s)).

(** [s.strip()] *)
Definition strip (s : string) : string := rstrip (lstrip s).

(** [s.split(sep)] for a one-character separator: every occurrence cuts,
    empty fields are kept, the result is never empty. [cur] is the field
    being read, reversed. *)
Fixpoint split_go (sep : ascii) (cur : string) (s : string) : list string :=
  match s with
  | EmptyString => [String.rev cur]
  | String c s' =>
      if Ascii.eqb c sep then String.rev cur :: split_go sep EmptyString s'
      else split_go sep (String c cur) s'
  end.

Definition split (sep : ascii) (s : string) : list string :=
  split_go sep EmptyString s.

(** Text-mode reading with universal newlines: a carriage return, alone or
    followed by a line feed, reads as one line feed. *)
Fixpoint universal_newlines (s : string) : string :=
  match s with
  | EmptyString => EmptyString
  | String c s' =>
      if Ascii.eqb c "013" then
        match s' with
        | String c' _ =>
            if Ascii.eqb c' "010" then universal_newlines s'
            else String "010" (universal_newlines s')
        | EmptyString => String "010" EmptyString
        end
      else String c (universal_newlines s')
  end.

(** Iterating over a text file yields its lines, each with its line feed. *)
Fixpoint lines_go (cur : string) (s : string) : list string :=
  match s with
  | EmptyString =>
      match cur with
      | EmptyString => []
      | _ => [String.rev cur]
      end
  | String c s' =>
      if Ascii.eqb c "010" then String.rev (String c cur) :: lines_go EmptyString s'
      else lines_go (String c cur) s'
  end.

Definition readlines (text : string) : list string :=
  lines_go EmptyString (universal_newlines text).

(** *** [int(s)] in base 10 *)

(** The white space [int] skips around the literal: the C-locale blanks and
    the two non-ASCII spaces below 256; unlike [strip], not 28..31. *)
Definition int_space (c : ascii) : bool :=
  let n := N_of_ascii c in
  ((9 <=? n) && (n <=? 13) || (n =? 32) || (n =? 133) || (n =? 160))%N.

Fixpoint skip_spaces (s : string) : string :=
  match s with
  | EmptyString => EmptyString
  | String c s' => if int_space c then skip_spaces s' else s
  end.

Definition digit_value (c : ascii) : option Z :=
  let n := N_of_ascii c in
  if ((48 <=? n) && (n <=? 57))%N then Some (Z.of_N n - 48) else None.

(** The interpreter's default bound on the number of digits of a decimal
    literal ([sys.int_max_str_digits]). *)
Definition int_max_str_digits : nat := 4300.

(** Reads digits with single underscores between them. [acc] is the value
    so far, [n] the number of digits read, [prev_us] tells that the previous
    character was an underscore. Returns the value, the digit count and the
    unread rest. *)
Fixpoint digits_go (acc : Z) (n : nat) (prev_us : bool) (s : string)
  : option (Z * nat * string) :=
  match s with
  | EmptyString => if prev_us then None else Some (acc, n, s)
  | String c s' =>
      match digit_value c with
      | Some d => digits_go (10 * acc + d) (S n) false s'
      | None =>
          if Ascii.eqb c "_" then
            if prev_us then None else digits_go acc n true s'
          else if prev_us then None else Some (acc, n, s)
      end
  end.

(** [int(s)]: [None] stands for [ValueError]. *)
Definition int (s : string) : option Z :=
  let s1 := skip_spaces s in
  let '(neg, s2) :=
    match s1 with
    | String "+" r => (false, r)
    | String "-" r => (true, r)
    | _ => (false, s1)
    end in
  match s2 with
  | String c _ =>
      match digit_value c with
      | None => None
      | Some _ =>
          match digits_go 0 0 false s2 with
          | Some (v, n, rest) =>
              match skip_spaces rest with
              | EmptyString =>
                  if (int_max_str_digits <? n)%nat then None
                  else Some (if neg then - v else v)
              | _ => None
              end
          | None => None
          end
      end
  | EmptyString => None
  end.

(** [str(n)] and the [{n}] field of an f-string, for an integer. *)
Definition str (n : Z) : string := pretty n.

End Py.

(** ** Catalogue loader *)

(** A value of the [products] dictionary: [{"name": ..., "price": ...}]. *)
Module Product.
Record t := { name : string; price : Z }.
End Product.

(** What [products.txt] can be when a request arrives: missing, failing while
    it is opened or read, or a text. *)
Inductive catalog_file :=
| FileAbsent
| FileUnreadable
| FileText (text : string).

(** The body of the loop of [load_products] for one line: the entry the line
    adds to the dictionary, [None] when a [continue] skips it. *)
Definition parse_line (line : string) : option (string * Product.t) :=
  let line := Py.strip line in
  if decide (line = EmptyString) then None
  else
    match Py.split "," line with
    | [barcode; nm; price_str] =>
        if decide (Py.strip barcode = EmptyString) then None
        else
          match Py.int (Py.strip price_str) with
          | Some p =>
              let p := if p <? 0 then Z.abs p else p in
              Some (Py.strip barcode,
                    {| Product.name := Py.strip nm; Product.price := p |})
          | None => None
          end
    | _ => None
    end.

Definition add_line (products : gmap string Product.t) (line : string)
  : gmap string Product.t :=
  match parse_line line with
  | Some (barcode, p) => <[barcode := p]> products
  | None => products
  end.

Definition load_products (f : catalog_file) : gmap string Product.t :=
  match f with
  | FileAbsent => ∅
  | FileUnreadable => ∅
  | FileText text => foldl add_line ∅ (Py.readlines text)
  end.


(** ** Exceptions and results *)

(** The exception classes the handlers tell apart. [Sqlite3Error] stands for
    [sqlite3.Error] and its subclasses (a failing connection or statement, a
    violated constraint); [OverflowError] is the built-in one, which is not
    an [sqlite3.Error]; [OtherException] is any other [Exception]. *)
Inductive exn :=
| Sqlite3Error (msg : string)
| OverflowError (msg : string)
| ValueError (msg : string)
| SignatureVerificationError (msg : string)
| OtherException (msg : string).

Definition is_sqlite3_error (e : exn) : bool :=
  match e with
  | Sqlite3Error _ => true
  | _ => false
  end.

(** [str(e)] *)
Definition exn_message (e : exn) : string :=
  match e with
  | Sqlite3Error m | OverflowError m | ValueError m
  | SignatureVerificationError m | OtherException m => m
  end.

Inductive result (A : Type) :=
| Ok (a : A)
| Raise (e : exn).
Arguments Ok {A} a.
Arguments Raise {A} e.

(** ** The database *)

Module Cart.
(** A row of [cart (barcode TEXT PRIMARY KEY, name TEXT, price INTEGER,
    qty INTEGER)]. *)
Record row := { barcode : string; name : string; price : Z; qty : Z }.
End Cart.

Module Orders.
(** A row of [orders (id INTEGER PRIMARY KEY AUTOINCREMENT, order_number
    TEXT UNIQUE, total INTEGER, created_at TIMESTAMP DEFAULT
    CURRENT_TIMESTAMP, status TEXT DEFAULT 'active')]; [created_at] is the
    clock reading, in seconds. *)
Record row := {
  id : Z;
  order_number : string;
  total : Z;
  created_at : Z;
  status : string
}.
End Orders.

(** The content of [cart.db]; [orders_seq] is the largest [id] handed out so
    far (the AUTOINCREMENT counter). *)
Record db := {
  cart : list Cart.row;
  orders : list Orders.row;
  orders_seq : Z
}.

Definition set_cart (c : list Cart.row) (d : db) : db :=
  {| cart := c; orders := orders d; orders_seq := orders_seq d |}.

(** *** Binding a Python integer to a statement *)

Definition sqlite_int_min : Z := - 2 ^ 63.
Definition sqlite_int_max : Z := 2 ^ 63 - 1.

Definition fits_sqlite_int (z : Z) : bool :=
  (sqlite_int_min <=? z) && (z <=? sqlite_int_max).

(** The [sqlite3] module refuses an integer parameter outside the 64-bit
    range before the statement runs. *)
Definition bind_int (z : Z) : result Z :=
  if fits_sqlite_int z then Ok z
  else Raise (OverflowError "Python int too large to convert to SQLite INTEGER").

(** *** The statements of the application

    Each is a function of the tables. The quantities of the embedding are
    integers and their arithmetic is exact: SQLite turns a quantity that
    grows past 2^63 - 1 into a REAL, and a cart holding such a quantity is
    outside the embedding. *)

(** [SELECT qty FROM cart WHERE barcode=?] followed by [fetchone()] *)
Definition select_qty (b : string) (d : db) : option Z :=
  Cart.qty <$> head (filter (λ r, Cart.barcode r = b) (cart d)).

(** [SELECT * FROM cart] followed by [fetchall()] *)
Definition select_cart (d : db) : list Cart.row := cart d.

Definition add_qty (b : string) (q : Z) (r : Cart.row) : Cart.row :=
  if decide (Cart.barcode r = b)
  then {| Cart.barcode := Cart.barcode r; Cart.name := Cart.name r;
          Cart.price := Cart.price r; Cart.qty := Cart.qty r + q |}
  else r.

(** [UPDATE cart SET qty = qty + ? WHERE barcode=?] *)
Definition update_qty_add (q : Z) (b : string) (d : db) : result db :=
  match bind_int q with
  | Ok q => Ok (set_cart (add_qty b q <$> cart d) d)
  | Raise e => Raise e
  end.

(** [UPDATE cart SET qty = qty + 1 WHERE barcode=?] *)
Definition update_qty_inc (b : string) (d : db) : result db :=
  Ok (set_cart (add_qty b 1 <$> cart d) d).

(** [UPDATE cart SET qty = qty - 1 WHERE barcode=?] *)
Definition update_qty_dec (b : string) (d : db) : result db :=
  Ok (set_cart (add_qty b (-1) <$> cart d) d).

(** [INSERT INTO cart VALUES (?, ?, ?, ?)]: the primary key rejects a
    barcode that is already there. *)
Definition insert_cart (b nm : string) (p q : Z) (d : db) : result db :=
  match bind_int p with
  | Raise e => Raise e
  | Ok p =>
      match bind_int q with
      | Raise e => Raise e
      | Ok q =>
          if decide (b ∈ Cart.barcode <$> cart d)
          then Raise (Sqlite3Error "UNIQUE constraint failed: cart.barcode")
          else Ok (set_cart (cart d ++ [ {| Cart.barcode := b; Cart.name := nm;
                                            Cart.price := p; Cart.qty := q |} ]) d)
      end
  end.

(** [DELETE FROM cart WHERE qty <= 0] *)
Definition delete_nonpositive (d : db) : result db :=
  Ok (set_cart (filter (λ r, ¬ (Cart.qty r <= 0)) (cart d)) d).

(** [DELETE FROM cart WHERE barcode=?] *)
Definition delete_barcode (b : string) (d : db) : result db :=
  Ok (set_cart (filter (λ r, Cart.barcode r ≠ b) (cart d)) d).

(** [DELETE FROM cart] *)
Definition delete_cart (d : db) : result db := Ok (set_cart [] d).

(** [INSERT INTO orders (order_number, total, status) VALUES (?, ?, ?)]:
    [order_number] is UNIQUE, [id] is the next AUTOINCREMENT value and
    [created_at] the current time. *)
Definition insert_order (number : string) (amount : Z) (st : string)
    (now : Z) (d : db) : result db :=
  match bind_int amount with
  | Raise e => Raise e
  | Ok amount =>
      if decide (number ∈ Orders.order_number <$> orders d)
      then Raise (Sqlite3Error "UNIQUE constraint failed: orders.order_number")
      else
        let i := orders_seq d + 1 in
        Ok {| cart := cart d;
              orders := orders d ++ [ {| Orders.id := i;
                                         Orders.order_number := number;
                                         Orders.total := amount;
                                         Orders.created_at := now;
                                         Orders.status := st |} ];
              orders_seq := i |}
  end.

(** The [data] argument of [razorpay_client.order.create]. *)
Record order_data := {
  od_amount : Z;
  od_currency : string;
  od_receipt : string;
  od_customer_name : string;
  od_customer_phone : string;
  od_order_notes : string;
  od_items : nat
}.

(** *** A connection: statements, faults and transactions

    A [with get_db() as con:] block runs its statements on the pending state
    [work]; [con.commit()] makes it the stored state; leaving the block by an
    exception rolls it back. Storage itself may fail: [fuse] is the number of
    storage operations (connecting, a statement, a commit) that still succeed
    before one raises [sqlite3.Error], [None] when none fails. [log] collects,
    in order, what the block does besides: the requests it sends to the
    payment gateway and the messages it flashes. *)
Inductive effect :=
| GatewayRequest (rq : order_data)
| Flash (category message : string).

Definition requests_of (log : list effect) : list order_data :=
  omap (fun x => match x with GatewayRequest rq => Some rq | Flash _ _ => None end) log.

Definition flashes_of (log : list effect) : list (string * string) :=
  omap (fun x => match x with Flash c m => Some (c, m) | GatewayRequest _ => None end) log.

Record conn := {
  committed : db;
  work : db;
  fuse : option nat;
  log : list effect
}.

Definition Sql (A : Type) : Type := conn -> result A * conn.

Definition ret {A} (a : A) : Sql A := fun c => (Ok a, c).

Definition bind {A B} (m : Sql A) (k : A -> Sql B) : Sql B :=
  fun c =>
    match m c with
    | (Ok a, c') => k a c'
    | (Raise e, c') => (Raise e, c')
    end.

Notation "x <- m ;; k" := (bind m (fun x => k))
  (at level 100, m at next level, right associativity).
Notation "m ;; k" := (bind m (fun _ => k))
  (at level 100, right associativity).

(** What a failing storage operation raises. *)
Definition storage_failure : exn := Sqlite3Error "disk I/O error".

Definition storage_op : Sql unit :=
  fun c =>
    match fuse c with
    | Some O =>
        (Raise storage_failure,
         {| committed := committed c; work := work c; fuse := None; log := log c |})
    | Some (S n) =>
        (Ok tt, {| committed := committed c; work := work c; fuse := Some n;
                   log := log c |})
    | None => (Ok tt, c)
    end.

(** [sqlite3.connect(DB)] inside [get_db] *)
Definition connect : Sql unit := storage_op.

(** [con.execute(...)] for a statement that reads *)
Definition query {A} (q : db -> A) : Sql A :=
  storage_op ;; (fun c => (Ok (q (work c)), c)).

(** [con.execute(...)] for a statement that writes *)
Definition execute (stmt : db -> result db) : Sql unit :=
  storage_op ;;
  (fun c =>
     match stmt (work c) with
     | Ok d => (Ok tt, {| committed := committed c; work := d; fuse := fuse c;
                          log := log c |})
     | Raise e => (Raise e, c)
     end).

(** [con.commit()] *)
Definition commit : Sql unit :=
  storage_op ;;
  (fun c => (Ok tt, {| committed := work c; work := work c; fuse := fuse c;
                       log := log c |})).

(** An exception raised by Python code between two statements *)
Definition raise {A} (e : exn) : Sql A := fun c => (Raise e, c).

Definition lift {A} (r : result A) : Sql A :=
  match r with
  | Ok a => ret a
  | Raise e => raise e
  end.

(** A call of the payment gateway: the request is sent, then the gateway's
    answer [r] comes back. *)
Definition gateway_call {A} (rq : order_data) (r : result A) : Sql A :=
  fun c =>
    lift r {| committed := committed c; work := work c; fuse := fuse c;
              log := log c ++ [GatewayRequest rq] |}.

(** [flash(message, category)] *)
Definition flash (category message : string) : Sql unit :=
  fun c =>
    (Ok tt, {| committed := committed c; work := work c; fuse := fuse c;
               log := log c ++ [Flash category message] |}).

(** [with get_db() as con: body]: the result of the block, the stored state
    it leaves and what else it did. *)
Definition with_db {A} (body : Sql A) (d : db) (fault : option nat)
  : result A * db * list effect :=
  match (connect ;; body)
          {| committed := d; work := d; fuse := fault; log := [] |} with
  | (Ok a, c) => (Ok a, work c, log c)
  | (Raise e, c) => (Raise e, committed c, log c)
  end.

(** ** Requests and responses *)

Inductive endpoint := EpHome | EpShop | EpCheckout.

Definition url_for (e : endpoint) : string :=
  match e with
  | EpHome => "/"
  | EpShop => "/shop"
  | EpCheckout => "/checkout"
  end.

Inductive json :=
| JStr (s : string)
| JInt (z : Z)
| JBool (b : bool).

Inductive response :=
| Redirect (target : endpoint)
| RenderCheckout (items : list Cart.row) (total final_amount : Z) (key_id : string)
| Jsonify (status : Z) (body : list (string * json))
| Unhandled (e : exn).

(** The HTTP status of a response; an exception that leaves the handler is
    answered by the framework with 500. *)
Definition status_code (r : response) : Z :=
  match r with
  | Redirect _ => 302
  | RenderCheckout _ _ _ _ => 200
  | Jsonify s _ => s
  | Unhandled _ => 500
  end.

(** What a handler does: its response, the messages it flashes (category and
    text), the requests it sends to the payment gateway and the stored state
    it leaves. *)
Record outcome := {
  response_of : response;
  flashed : list (string * string);
  gateway_requests : list order_data;
  db_after : db
}.

Definition respond (r : response) (fl : list (string * string)) (d : db) : outcome :=
  {| response_of := r; flashed := fl; gateway_requests := []; db_after := d |}.

(** What the world supplies to one request: the catalogue file as it is
    then, the clock ([int(time.time())]), the output of the random generator,
    and the storage fault, if any. *)
Record env := {
  products_file : catalog_file;
  time_time : Z;
  random_source : Z;
  storage_fault : option nat
}.

(** ** Order numbers *)

(** [random.randint(a, b)], drawn from the generator's output [src]. *)
Definition randint (a b src : Z) : Z := a + src mod (b - a + 1).

Definition generate_order_number (e : env) : string :=
  let timestamp_suffix := time_time e mod 1000 in
  let random_suffix := randint 100 999 (random_source e) in
  Py.str timestamp_suffix +:+ Py.str random_suffix.

(** ** Scanning and editing the cart *)

(** The fields of the form posted to [/]. *)
Record scan_form := { form_barcode : option string; form_qty : option string }.

(** The quantity read from the form: 1 when absent, unreadable or below 1. *)
Definition requested_qty (f : scan_form) : Z :=
  match Py.int (default "1" (form_qty f)) with
  | Some q => if q <? 1 then 1 else q
  | None => 1
  end.

(** The block of [home] that adds a scanned product. *)
Definition scan_block (barcode : string) (p : Product.t) (qty : Z) : Sql unit :=
  row <- query (select_qty barcode) ;;
  match row with
  | Some _ => execute (update_qty_add qty barcode)
  | None => execute (insert_cart barcode (Product.name p) (Product.price p) qty)
  end ;;
  commit.

(** [home] for a POST request *)
Definition home (e : env) (f : scan_form) (d : db) : outcome :=
  let products := load_products (products_file e) in
  let barcode := Py.strip (default "" (form_barcode f)) in
  let qty := requested_qty f in
  if decide (barcode = "") then respond (Redirect EpHome) [] d
  else
    match products !! barcode with
    | Some p =>
        match with_db (scan_block barcode p qty) d (storage_fault e) with
        | (Ok _, d', _) => respond (Redirect EpHome) [] d'
        | (Raise x, d', _) =>
            if is_sqlite3_error x
            then respond (Redirect EpHome)
                   [("error", "Error adding item to cart. Please try again.")] d'
            else respond (Unhandled x) [] d'
        end
    | None =>
        respond (Redirect EpHome)
          [("warning", "Product not found: " +:+ barcode)] d
    end.

(** The block of [add_to_cart]; the success message is flashed before the
    commit. *)
Definition add_block (barcode : string) (p : Product.t) : Sql unit :=
  existing <- query (select_qty barcode) ;;
  match existing with
  | Some _ =>
      execute (update_qty_inc barcode) ;;
      flash "success" ("Added another " +:+ Product.name p +:+ " to cart!")
  | None =>
      execute (insert_cart barcode (Product.name p) (Product.price p) 1) ;;
      flash "success" ("Added " +:+ Product.name p +:+ " to cart!")
  end ;;
  commit.

Definition add_to_cart (e : env) (barcode : string) (d : db) : outcome :=
  let products := load_products (products_file e) in
  match products !! barcode with
  | None => respond (Redirect EpShop) [("error", "Product not found: " +:+ barcode)] d
  | Some p =>
      match with_db (add_block barcode p) d (storage_fault e) with
      | (Ok _, d', fx) => respond (Redirect EpShop) (flashes_of fx) d'
      | (Raise x, d', fx) =>
          if is_sqlite3_error x
          then respond (Redirect EpShop)
                 (flashes_of fx ++ [("error", "Error adding to cart. Please try again.")])
                 d'
          else respond (Unhandled x) (flashes_of fx) d'
      end
  end.

(** The block of [update] *)
Definition update_block (barcode action : string) : Sql unit :=
  (if decide (action = "inc") then execute (update_qty_inc barcode)
   else if decide (action = "dec") then
     execute (update_qty_dec barcode) ;; execute delete_nonpositive
   else ret tt) ;;
  commit.

Definition update (e : env) (barcode action : string) (d : db) : outcome :=
  if decide (action ∉ ["inc"; "dec"]) then
    respond (Redirect EpHome) [("error", "Invalid action: " +:+ action)] d
  else
    match with_db (update_block barcode action) d (storage_fault e) with
    | (Ok _, d', _) => respond (Redirect EpHome) [] d'
    | (Raise x, d', _) =>
        if is_sqlite3_error x
        then respond (Redirect EpHome)
               [("error", "Error updating cart. Please try again.")] d'
        else respond (Unhandled x) [] d'
    end.

(** The block of [delete] *)
Definition delete_block (barcode : string) : Sql unit :=
  execute (delete_barcode barcode) ;; commit.

Definition delete (e : env) (barcode : string) (d : db) : outcome :=
  match with_db (delete_block barcode) d (storage_fault e) with
  | (Ok _, d', _) => respond (Redirect EpHome) [] d'
  | (Raise x, d', _) =>
      if is_sqlite3_error x
      then respond (Redirect EpHome) [("error", "Error removing item from cart.")] d'
      else respond (Unhandled x) [] d'
  end.

(** ** Amounts *)

(** Python floats are IEEE 754 binary64 numbers, taken from the standard
    library's specification of floating-point arithmetic. *)
Module Float.

Definition prec : Z := 53.
Definition emax : Z := 1024.

(** The conversion of an integer operand of a mixed product: rounded to
    nearest, ties to even; an integer beyond the range raises. *)
Definition of_int (n : Z) : result spec_float :=
  match binary_normalize prec emax n 0 false with
  | S754_infinity _ => Raise (OverflowError "int too large to convert to float")
  | x => Ok x
  end.

Definition mul (x y : spec_float) : spec_float := SFmul prec emax x y.

(** [int(x)]: truncation towards zero. *)
Definition to_int (x : spec_float) : result Z :=
  match x with
  | S754_zero _ => Ok 0
  | S754_finite s m e =>
      let v := if 0 <=? e then Z.pos m * 2 ^ e else Z.pos m / 2 ^ (- e) in
      Ok (if s then - v else v)
  | S754_infinity _ =>
      Raise (OverflowError "cannot convert float infinity to integer")
  | S754_nan => Raise (ValueError "cannot convert float NaN to integer")
  end.

(** The literal [1.05]: the double nearest to 21/20, which is
    4728779608739021 / 2^52. *)
Definition lit_1_05 : spec_float := S754_finite false 4728779608739021 (-52).

End Float.

(** [int(total * 1.05)] *)
Definition final_amount (total : Z) : result Z :=
  match Float.of_int total with
  | Ok x => Float.to_int (Float.mul x Float.lit_1_05)
  | Raise e => Raise e
  end.

(** [sum(i[2] * i[3] for i in cart)] *)
Definition cart_sum (items : list Cart.row) : Z :=
  foldl (fun acc i => acc + Cart.price i * Cart.qty i) 0 items.

(** [sum(i[2] * i[3] for i in cart) if cart else 0] *)
Definition cart_total (items : list Cart.row) : Z :=
  match items with
  | [] => 0
  | _ => cart_sum items
  end.

(** ** Payment gateway *)

(** The environment variables read when the module is loaded. *)
Record config := { RAZORPAY_KEY_ID : string; RAZORPAY_KEY_SECRET : string }.

(** The module-level [razorpay_client]: a client holding the credentials
    when both are non-empty, [None] otherwise. *)
Definition razorpay_client (cfg : config) : option (string * string) :=
  if decide (RAZORPAY_KEY_ID cfg ≠ "" ∧ RAZORPAY_KEY_SECRET cfg ≠ "")
  then Some (RAZORPAY_KEY_ID cfg, RAZORPAY_KEY_SECRET cfg)
  else None.

(** The body of a POST to [/payment-success]; a key that is missing reads as
    [None]. *)
Record payment_data := {
  razorpay_payment_id : option string;
  razorpay_order_id : option string;
  razorpay_signature : option string
}.

(** The body of a POST to [/create-order]; a key that is missing reads as
    [None] and takes the default of its [.get]. *)
Record order_request := {
  customer_name : option string;
  customer_phone : option string;
  order_notes : option string
}.

(** The gateway library, outside the repository: what creating an order
    answers (the new order's id) and what verifying a signature answers. *)
Record gateway := {
  order_create : order_data -> result string;
  verify_payment_signature : payment_data -> result unit
}.

Definition is_signature_error (e : exn) : bool :=
  match e with
  | SignatureVerificationError _ => true
  | _ => false
  end.

(** [request.json] followed by the first [.get]: a body that is not a JSON
    object makes one of them raise. *)
Definition request_json {A} (body : option A) : result A :=
  match body with
  | Some b => Ok b
  | None => Raise (OtherException "request body is not a JSON object")
  end.

(** ** Checkout *)

Definition checkout (cfg : config) (e : env) (d : db) : outcome :=
  match with_db (query select_cart) d (storage_fault e) with
  | (Raise x, d', _) =>
      if is_sqlite3_error x
      then respond (Redirect EpHome)
             [("error", "Error loading checkout. Please try again.")] d'
      else respond (Unhandled x) [] d'
  | (Ok items, d', _) =>
      let total := cart_total items in
      match items with
      | [] =>
          respond (Redirect EpHome)
            [("info", "Your cart is empty. Please add items before checkout.")] d'
      | _ =>
          match final_amount total with
          | Ok amount =>
              respond (RenderCheckout items total amount (RAZORPAY_KEY_ID cfg)) [] d'
          | Raise x => respond (Unhandled x) [] d'
          end
      end
  end.

(** The [order_data] dictionary of [create_order]. *)
Definition make_order_data (e : env) (rq : order_request) (order_amount : Z)
    (items : list Cart.row) : order_data :=
  {| od_amount := order_amount;
     od_currency := "INR";
     od_receipt := "order_" +:+ generate_order_number e;
     od_customer_name := default "Customer" (customer_name rq);
     od_customer_phone := default "" (customer_phone rq);
     od_order_notes := default "" (order_notes rq);
     od_items := length items |}.

(** The response of [create_order] once the gateway has created the order. *)
Definition order_created (cfg : config) (order_id : string) (order_amount : Z)
  : response :=
  Jsonify 200 [("order_id", JStr order_id);
               ("amount", JInt order_amount);
               ("currency", JStr "INR");
               ("key_id", JStr (RAZORPAY_KEY_ID cfg))].

(** The block of [create_order]; it returns the response of the handler. *)
Definition create_order_block (cfg : config) (gw : gateway) (e : env)
    (body : option order_request) : Sql response :=
  items <- query select_cart ;;
  match items with
  | [] => ret (Jsonify 400 [("error", JStr "Cart is empty")])
  | _ =>
      let total := cart_sum items in
      amount <- lift (final_amount total) ;;
      rq <- lift (request_json body) ;;
      let order_amount := amount * 100 in
      let data := make_order_data e rq order_amount items in
      order_id <- gateway_call data (order_create gw data) ;;
      ret (order_created cfg order_id order_amount)
  end.

Definition create_order (cfg : config) (gw : gateway) (e : env)
    (body : option order_request) (d : db) : outcome :=
  match razorpay_client cfg with
  | None => respond (Jsonify 500 [("error", JStr "Razorpay not configured")]) [] d
  | Some _ =>
      match with_db (create_order_block cfg gw e body) d (storage_fault e) with
      | (Ok r, d', fx) =>
          {| response_of := r; flashed := []; gateway_requests := requests_of fx;
             db_after := d' |}
      | (Raise x, d', fx) =>
          {| response_of := Jsonify 500 [("error", JStr (exn_message x))];
             flashed := []; gateway_requests := requests_of fx; db_after := d' |}
      end
  end.

(** The block of [payment_success] that saves the order and clears the cart;
    it returns the order number and the amount. *)
Definition commit_order_block (e : env) : Sql (string * Z) :=
  items <- query select_cart ;;
  let total := cart_total items in
  amount <- lift (final_amount total) ;;
  let order_number := generate_order_number e in
  execute (insert_order order_number amount "completed" (time_time e)) ;;
  execute delete_cart ;;
  commit ;;
  ret (order_number, amount).

Definition payment_error (msg : string) (target : endpoint) : list (string * json) :=
  [("success", JBool false); ("error", JStr msg); ("redirect", JStr (url_for target))].

Definition payment_success (cfg : config) (gw : gateway) (e : env)
    (body : option payment_data) (d : db) : outcome :=
  let failed d' :=
    respond
      (Jsonify 500 (payment_error "Error processing payment. Please contact support."
                                  EpCheckout))
      [("error", "Error processing payment. Please contact support.")] d' in
  match request_json body with
  | Raise _ => failed d
  | Ok params =>
      match razorpay_client cfg with
      | None =>
          respond (Jsonify 500 (payment_error "Payment gateway not configured." EpHome))
            [] d
      | Some _ =>
          let attempt :=
            match verify_payment_signature gw params with
            | Raise x => (Raise x, d, [])
            | Ok _ => with_db (commit_order_block e) d (storage_fault e)
            end in
          match attempt with
          | (Ok (order_number, amount), d', _) =>
              respond
                (Jsonify 200 [("success", JBool true);
                              ("message", JStr ("Payment successful! Order #" +:+ order_number));
                              ("redirect", JStr (url_for EpHome))])
                [("success", "Payment successful! Order #" +:+ order_number
                             +:+ ". Amount: ₹" +:+ Py.str amount)] d'
          | (Raise x, d', _) =>
              if is_signature_error x
              then respond
                     (Jsonify 400 (payment_error
                        "Payment verification failed. Please contact support." EpCheckout))
                     [("error", "Payment verification failed. Please contact support.")] d'
              else failed d'
          end
      end
  end.

(** ** The cart page and the gallery *)

(** A product of the gallery: [{"barcode": ..., "name": ..., "price": ...}]. *)
Record shop_item := { item_barcode : string; item_name : string; item_price : Z }.

(** The pages rendered besides the checkout page: [cart.html] and
    [shop.html] with their template arguments. *)
Inductive page :=
| CartPage (items : list Cart.row) (total : Z) (order_number : string)
| ShopPage (products : list shop_item)
    (unsplash_key current_date current_time : string)
| PageUnhandled (x : exn).

(** What a handler that renders a page does: the page, the messages it
    flashes and the stored state it leaves. *)
Record view := {
  page_of : page;
  view_flashed : list (string * string);
  view_db : db
}.

(** [home] for a GET request *)
Definition home_get (e : env) (d : db) : view :=
  let products := load_products (products_file e) in
  match with_db (query select_cart) d (storage_fault e) with
  | (Ok items, d', _) =>
      {| page_of := CartPage items (cart_total items) (generate_order_number e);
         view_flashed := []; view_db := d' |}
  | (Raise x, d', _) =>
      if is_sqlite3_error x
      then {| page_of := CartPage [] 0 (generate_order_number e);
              view_flashed := [("error", "Error loading cart. Please refresh.")];
              view_db := d' |}
      else {| page_of := PageUnhandled x; view_flashed := []; view_db := d' |}
  end.

(** *** The catalogue in the order of the dictionary

    [products.items()] lists the dictionary in the order in which its keys
    were first inserted; assigning to a key that is there keeps its place. *)

(** [products[k] = v] on the items of the dictionary. *)
Definition dict_set (k : string) (v : Product.t) (items : list (string * Product.t))
  : list (string * Product.t) :=
  if decide (k ∈ items.*1)
  then (fun kv => if decide (kv.1 = k) then (k, v) else kv) <$> items
  else items ++ [(k, v)].

(** The body of the loop of [load_products] on the items. *)
Definition add_line_items (items : list (string * Product.t)) (line : string)
  : list (string * Product.t) :=
  match parse_line line with
  | Some (barcode, p) => dict_set barcode p items
  | None => items
  end.

(** [load_products().items()] *)
Definition products_items (f : catalog_file) : list (string * Product.t) :=
  match f with
  | FileAbsent => []
  | FileUnreadable => []
  | FileText text => foldl add_line_items [] (Py.readlines text)
  end.

(** The local time as [shop] shows it: [now.strftime("%a, %d %b %Y")] and
    [now.strftime("%I:%M %p")]. *)
Record clock := { current_date : string; current_time : string }.

(** [shop]. [unsplash_key] is the module's [UNSPLASH_ACCESS_KEY]: a literal
    of the source that a deployment is told to replace by its own key, or by
    the empty string to do without the image search. *)
Definition shop (unsplash_key : string) (e : env) (now : clock) : page :=
  let products := products_items (products_file e) in
  let product_list :=
    (fun kv => {| item_barcode := kv.1; item_name := Product.name kv.2;
                  item_price := Product.price kv.2 |}) <$> products in
  ShopPage product_list unsplash_key (current_date now) (current_time now).

(** ** The image placeholder *)

(** [s.replace(old, new)] for a one-character [old]. *)
Fixpoint str_replace (old : ascii) (new : string) (s : string) : string :=
  match s with
  | EmptyString => EmptyString
  | String c s' =>
      if Ascii.eqb c old then new +:+ str_replace old new s'
      else String c (str_replace old new s')
  end.

(** The UTF-8 encoding of a code point below 256: itself below 128, two
    bytes from there on. *)
Definition encode_char (c : ascii) : list byte :=
  let n := N_of_ascii c in
  if (n <? 128)%N then [byte_of_ascii c]
  else [byte_of_ascii (ascii_of_N (192 + n / 64));
        byte_of_ascii (ascii_of_N (128 + n mod 64))].

(** [s.encode("utf-8")] *)
Fixpoint str_encode_utf8 (s : string) : list byte :=
  match s with
  | EmptyString => []
  | String c s' => encode_char c ++ str_encode_utf8 s'
  end.

(** The two literal parts of the f-string of [_svg_placeholder], before and
    after [{safe_text}]. *)
Definition svg_head : string := "
    <svg xmlns='http://www.w3.org/2000/svg' width='400' height='300'>
      <defs>
        <linearGradient id='g' x1='0' x2='1' y1='0' y2='1'>
          <stop offset='0%' stop-color='#667eea'/>
          <stop offset='100%' stop-color='#764ba2'/>
        </linearGradient>
      </defs>
      <rect width='100%' height='100%' fill='url(#g)'/>
      <text x='50%' y='50%' dominant-baseline='middle' text-anchor='middle'
            font-family='Arial, Helvetica, sans-serif' font-size='24' fill='#ffffff'>
        ".

Definition svg_tail : string := "
      </text>
    </svg>
    ".

(** [(text or "").replace("<", "&lt;").replace(">", "&gt;")]; [text] is a
    string, so [text or ""] is [text]. *)
Definition safe_text (text : string) : string :=
  str_replace ">" "&gt;" (str_replace "<" "&lt;" text).

(** [_svg_placeholder] *)
Definition _svg_placeholder (text : string) : list byte :=
  let svg := Py.strip (svg_head +:+ safe_text text +:+ svg_tail) in
  str_encode_utf8 svg.

(** ** Decoded JSON *)

(** A value decoded from JSON ([request.json], [r.json()]): [None], a
    [bool], an [int], a [float], a [str], a [list] or a [dict]. *)
#[warnings="-register-all"]
Inductive jvalue :=
| JNull
| JBoolean (b : bool)
| JInteger (z : Z)
| JFloat (x : spec_float)
| JString (s : string)
| JArray (l : list jvalue)
| JObject (m : gmap string jvalue).

(** [v.get(key, dflt)]: only a [dict] has [get]. *)
Definition py_get (key : string) (dflt : jvalue) (v : jvalue) : result jvalue :=
  match v with
  | JObject m => Ok (default dflt (m !! key))
  | _ => Raise (OtherException "object has no attribute 'get'")
  end.

(** [v[0]] *)
Definition py_index0 (v : jvalue) : result jvalue :=
  match v with
  | JArray (x :: _) => Ok x
  | JArray [] => Raise (OtherException "list index out of range")
  | JString (String c _) => Ok (JString (String c ""))
  | JString EmptyString => Raise (OtherException "string index out of range")
  | JObject _ => Raise (OtherException "KeyError: 0")
  | _ => Raise (OtherException "object is not subscriptable")
  end.

(** The truth value of [v] in [if v:] and [v or ...]. *)
Definition truthy (v : jvalue) : bool :=
  match v with
  | JNull => false
  | JBoolean b => b
  | JInteger z => negb (z =? 0)
  | JFloat (S754_zero _) => false
  | JFloat _ => true
  | JString s => negb (String.eqb s "")
  | JArray l => negb (bool_decide (l = []))
  | JObject m => negb (bool_decide (m = ∅))
  end.

(** What is left of a result when every exception is caught. *)
Definition attempt {A} (r : result A) : option A :=
  match r with
  | Ok a => Some a
  | Raise _ => None
  end.

(** ** The payment-failure callback *)

(** The text of a flashed message: a literal, or an f-string that ends with
    a decoded JSON value. *)
Inductive message :=
| Text (s : string)
| Formatted (prefix : string) (v : jvalue).

(** A [jsonify] response with its status and the messages flashed. *)
Record reply := {
  reply_status : Z;
  reply_body : list (string * jvalue);
  reply_flashed : list (string * message)
}.

(** [payment_failure]; [body] is the decoded body of the request, [None]
    when [request.json] raises. *)
Definition payment_failure (body : option jvalue) : reply :=
  let described :=
    error_data ← attempt (request_json body);
    error ← attempt (py_get "error" (JObject ∅) error_data);
    error_code ← attempt (py_get "code" (JString "UNKNOWN") error);
    error' ← attempt (py_get "error" (JObject ∅) error_data);
    attempt (py_get "description" (JString "Payment failed") error') in
  match described with
  | Some error_description =>
      {| reply_status := 200;
         reply_body := [("success", JBoolean false);
                        ("error", error_description);
                        ("redirect", JString (url_for EpCheckout))];
         reply_flashed := [("error", Formatted "Payment failed: " error_description)] |}
  | None =>
      {| reply_status := 500;
         reply_body := [("success", JBoolean false);
                        ("error", JString "Payment failed. Please try again.");
                        ("redirect", JString (url_for EpCheckout))];
         reply_flashed := [("error", Text "Payment failed. Please try again.")] |}
  end.

(** ** Product images *)

(** The characters [quote] leaves as they are. *)
Definition url_unreserved (c : ascii) : bool :=
  let n := N_of_ascii c in
  ((65 <=? n) && (n <=? 90) || (97 <=? n) && (n <=? 122) || (48 <=? n) && (n <=? 57)
   || (n =? 95) || (n =? 46) || (n =? 45) || (n =? 126))%N.

(** The digit of a ["%02X"] field. *)
Definition hex_digit (n : N) : ascii :=
  ascii_of_N (if (n <? 10)%N then 48 + n else 55 + n).

(** What [quote_plus] writes for one byte of the UTF-8 encoding. *)
Definition quote_byte (b : byte) : string :=
  let c := ascii_of_byte b in
  if url_unreserved c then String c ""
  else if Ascii.eqb c " " then "+"
  else
    let n := N_of_ascii c in
    String "%" (String (hex_digit (n / 16)) (String (hex_digit (n mod 16)) "")).

(** [urllib.parse.quote_plus(s)] *)
Definition quote_plus (s : string) : string :=
  foldr (fun b acc => quote_byte b +:+ acc) "" (str_encode_utf8 s).

(** The URL of the search request. *)
Definition search_url (key name : string) : string :=
  "https://api.unsplash.com/search/photos?query=" +:+ quote_plus name
  +:+ "&per_page=1&content_filter=high"
  +:+ "&orientation=landscape&client_id=" +:+ key.

(** What [requests.get] returns: the status, the decoded body ([r.json()],
    which may raise) and the raw body. *)
Record http_reply := {
  status_code_of : Z;
  json_of : result jvalue;
  content_of : list byte
}.

(** What the file system and the network do during one [product_image]
    request, call by call: [os.makedirs(cache_dir, exist_ok=True)];
    [os.path.exists(cache_path)]; [send_file(cache_path, ...)] on the file
    found there (its content, or an exception); whether [import requests]
    succeeds; [requests.get] on the search URL and on the image URL the search
    gave; writing the downloaded body to the cache path; and [send_file] on
    the file just written. *)
Record image_world := {
  makedirs : result unit;
  cache_exists : bool;
  send_cached : result (list byte);
  requests_importable : bool;
  search : string -> result http_reply;
  download : jvalue -> result http_reply;
  write_cache : list byte -> result unit;
  send_written : list byte -> result (list byte)
}.

(** What a request does to the world, in order: the two HTTP requests and
    the attempt to write the cache file. *)
Inductive image_effect :=
| SearchRequest (url : string)
| DownloadRequest (url : jvalue)
| CacheWrite (path : list string) (content : list byte).

(** The response: [send_file(path, mimetype=...)] with the content sent,
    [make_response(body)] with its Content-Type header, or an exception that
    leaves the handler. *)
Inductive image_response :=
| SendFile (path : list string) (mimetype : string) (content : list byte)
| MakeResponse (body : list byte) (content_type : string)
| ImageUnhandled (x : exn).

(** [os.path.join("static", "cache_images", f"{barcode}.jpg")], by its
    components. *)
Definition cache_path (barcode : string) : list string :=
  ["static"; "cache_images"; barcode +:+ ".jpg"].

(** The image URL the handler reads from a search reply, when it gets that
    far. *)
Definition found_image_url (r : http_reply) : option jvalue :=
  if negb (status_code_of r =? 200) then None
  else
    data ← attempt (json_of r);
    results ← attempt (py_get "results" (JArray []) data);
    if negb (truthy results) then None
    else
      first ← attempt (py_index0 results);
      urls ← attempt (py_get "urls" (JObject ∅) first);
      small ← attempt (py_get "small" JNull urls);
      image_url ←
        (if truthy small then Some small
         else urls' ← attempt (py_get "urls" (JObject ∅) first);
              attempt (py_get "regular" JNull urls'));
      if truthy image_url then Some image_url else None.

(** Step 2 of [product_image]: the response it returns, if any, and what it
    did. *)
Definition fetch_image (key : string) (w : image_world) (barcode name : string)
  : option image_response * list image_effect :=
  if negb (requests_importable w) then (None, [])
  else
    let api_url := search_url key name in
    match search w api_url with
    | Raise _ => (None, [SearchRequest api_url])
    | Ok r =>
        match found_image_url r with
        | None => (None, [SearchRequest api_url])
        | Some image_url =>
            let asked := [SearchRequest api_url; DownloadRequest image_url] in
            match download w image_url with
            | Raise _ => (None, asked)
            | Ok img =>
                if negb (status_code_of img =? 200) then (None, asked)
                else
                  let done :=
                    asked ++ [CacheWrite (cache_path barcode) (content_of img)] in
                  match write_cache w (content_of img) with
                  | Raise _ => (None, done)
                  | Ok _ =>
                      match send_written w (content_of img) with
                      | Raise _ => (None, done)
                      | Ok sent =>
                          (Some (SendFile (cache_path barcode) "image/jpeg" sent), done)
                      end
                  end
            end
        end
    end.

(** [product_image]; [key] is the module's [UNSPLASH_ACCESS_KEY]. *)
Definition product_image (key : string) (e : env) (w : image_world)
    (barcode : string) : image_response * list image_effect :=
  let products := load_products (products_file e) in
  let name :=
    match products !! barcode with
    | Some details => Product.name details
    | None => "Product"
    end in
  match makedirs w with
  | Raise x => (ImageUnhandled x, [])
  | Ok _ =>
      let cached := if cache_exists w then attempt (send_cached w) else None in
      match cached with
      | Some sent => (SendFile (cache_path barcode) "image/jpeg" sent, [])
      | None =>
          let '(fetched, did) :=
            if decide (key = "") then (None, [])
            else fetch_image key w barcode name in
          match fetched with
          | Some r => (r, did)
          | None => (MakeResponse (_svg_placeholder name) "image/svg+xml", did)
          end
      end
  end.

(** ** Notions used by the statements *)

(** The invariant of the cart table: a barcode heads at most one line and
    every quantity is at least 1. *)
Definition cart_inv (items : list Cart.row) : Prop :=
  NoDup (Cart.barcode <$> items) /\ Forall (fun r => 1 <= Cart.qty r) items.

(** The quantity the cart holds of a barcode, 0 when it has no line. *)
Definition quantity_of (b : string) (d : db) : Z := default 0 (select_qty b d).

(** A sequence of scans, each a POST to [/] in its own environment. *)
Definition run_scans (calls : list (env * scan_form)) (d : db) : db :=
  foldl (fun d' call => db_after (home call.1 call.2 d')) d calls.

Definition requested_sum (calls : list (env * scan_form)) : Z :=
  foldr (fun call acc => requested_qty call.2 + acc) 0 calls.

(** A scan of barcode [b], known to the catalogue, on healthy storage. *)
Definition scan_of (b : string) (call : env * scan_form) : Prop :=
  storage_fault call.1 = None
  /\ Py.strip (default "" (form_barcode call.2)) = b
  /\ b <> ""
  /\ is_Some (load_products (products_file call.1) !! b).

(** The same, with a price that SQLite can store. *)
Definition storable_scan_of (b : string) (call : env * scan_form) : Prop :=
  storage_fault call.1 = None
  /\ Py.strip (default "" (form_barcode call.2)) = b
  /\ b <> ""
  /\ exists p, load_products (products_file call.1) !! b = Some p
              /\ fits_sqlite_int (Product.price p) = true.

(** The accepted entries of a catalogue text, in the order of its lines. *)
Definition catalog_entries (text : string) : list (string * Product.t) :=
  omap parse_line (Py.readlines text).

(** The fields of a catalogue line as the loader cuts them. *)
Definition line_fields (line : string) : list string :=
  Py.split "," (Py.strip line).

Definition field (n : nat) (line : string) : string :=
  nth n (line_fields line) "".

(** The order row a verified payment writes. *)
Definition completed_order (d : db) (e : env) (amount : Z) : Orders.row :=
  {| Orders.id := orders_seq d + 1;
     Orders.order_number := generate_order_number e;
     Orders.total := amount;
     Orders.created_at := time_time e;
     Orders.status := "completed" |}.

(** The stored state after a committed payment of [amount]. *)
Definition committed_db (d : db) (e : env) (amount : Z) : db :=
  {| cart := [];
     orders := orders d ++ [completed_order d e amount];
     orders_seq := orders_seq d + 1 |}.

(** The response to a committed payment. *)
Definition success_response (e : env) : response :=
  Jsonify 200 [("success", JBool true);
               ("message", JStr ("Payment successful! Order #" +:+ generate_order_number e));
               ("redirect", JStr (url_for EpHome))].

(** The handler reached the signature check and the gateway accepted, or
    rejected, the signature. *)
Definition signature_verifies (cfg : config) (gw : gateway)
    (body : option payment_data) : Prop :=
  is_Some (razorpay_client cfg)
  /\ exists params, body = Some params /\ verify_payment_signature gw params = Ok tt.

Definition signature_mismatch (cfg : config) (gw : gateway)
    (body : option payment_data) : Prop :=
  is_Some (razorpay_client cfg)
  /\ exists params msg, body = Some params
       /\ verify_payment_signature gw params = Raise (SignatureVerificationError msg).

(** A connection with no storage fault pending. *)
Definition defuse (c : conn) : conn :=
  {| committed := committed c; work := work c; fuse := None; log := log c |}.

(** A computation that never commits. *)
Definition quiet {A} (m : Sql A) : Prop :=
  forall c, committed (m c).2 = committed c.

(** A computation that, with a storage fault pending, either raises the
    storage failure without having committed anything, or ends as it does on
    healthy storage. *)
Definition fault_safe {A} (m : Sql A) : Prop :=
  forall c,
    ((m c).1 = Raise storage_failure /\ committed (m c).2 = committed c)
    \/ m (defuse c) = ((m c).1, defuse (m c).2).

(** Whether a storage fault strikes within the first [n] storage
    operations of a request. *)
Definition fails_within (n : nat) (fault : option nat) : bool :=
  match fault with
  | Some k => (k <? n)%nat
  | None => false
  end.

(** The same request on healthy storage. *)
Definition healthy (e : env) : env :=
  {| products_file := products_file e; time_time := time_time e;
     random_source := random_source e; storage_fault := None |}.

(** The ledger of orders is the same in both states. *)
Definition same_ledger (d d' : db) : Prop :=
  orders d' = orders d /\ orders_seq d' = orders_seq d.

(** What identifies a cart line to the customer: barcode, name and price. *)
Definition line_label (r : Cart.row) : string * string * Z :=
  (Cart.barcode r, Cart.name r, Cart.price r).

(** The lines of the cart other than those of barcode [b]. *)
Definition other_lines (b : string) (items : list Cart.row) : list Cart.row :=
  filter (fun r => Cart.barcode r <> b) items.

(** What a scan or an addition does to the lines of the cart. *)
Definition grows_line (b : string) (before after : list Cart.row) : Prop :=
  other_lines b after = other_lines b before
  /\ exists extra, line_label <$> after = (line_label <$> before) ++ extra
                   /\ (length extra <= 1)%nat.

(** Every price of the cart is non-negative. *)
Definition prices_nonneg (items : list Cart.row) : Prop :=
  Forall (fun r => 0 <= Cart.price r) items.

(** The invariant of the orders table: order numbers and ids are unique, and
    no id is beyond the AUTOINCREMENT counter. *)
Definition ledger_inv (d : db) : Prop :=
  NoDup (Orders.order_number <$> orders d)
  /\ NoDup (Orders.id <$> orders d)
  /\ Forall (fun o => Orders.id o <= orders_seq d) (orders d).

(** The price at which the cart counts a unit of [b]: that of its line, or
    the catalogue's when it has none yet. *)
Definition unit_price (b : string) (p : Product.t) (d : db) : Z :=
  default (Product.price p)
    (Cart.price <$> head (filter (fun r => Cart.barcode r = b) (cart d))).

(** Whether a string is made of decimal digits only. *)
Fixpoint all_digits (s : string) : bool :=
  match s with
  | EmptyString => true
  | String c s' => bool_decide (is_Some (Py.digit_value c)) && all_digits s'
  end.

(** The check that [str(z)] has between [lo] and [hi] characters, all of them
    digits. *)
Definition str_check (lo hi : nat) (z : Z) : bool :=
  let s := Py.str z in
  (lo <=? String.length s)%nat && (String.length s <=? hi)%nat && all_digits s.

(** Whether a character occurs in a string. *)
Fixpoint contains (c : ascii) (s : string) : bool :=
  match s with
  | EmptyString => false
  | String c' s' => Ascii.eqb c' c || contains c s'
  end.

(** A string that does not start, or end, with white space. *)
Definition starts_clean (s : string) : Prop :=
  match s with
  | EmptyString => True
  | String c _ => Py.isspace c = false
  end.

Definition ends_clean (s : string) : Prop := starts_clean (String.rev s).

(** The barcodes of the accepted lines of the catalogue, in the order of the
    file. *)
Definition catalog_barcodes (f : catalog_file) : list string :=
  match f with
  | FileText text => (catalog_entries text).*1
  | _ => []
  end.

(** The name [product_image] shows for a barcode. *)
Definition image_name (e : env) (barcode : string) : string :=
  match load_products (products_file e) !! barcode with
  | Some details => Product.name details
  | None => "Product"
  end.

(** The characters a quoted string is made of. *)
Definition quoted_char (c : ascii) : bool :=
  url_unreserved c || Ascii.eqb c "+" || Ascii.eqb c "%".

(** Whether every character of a string satisfies [P]. *)
Fixpoint all_chars (P : ascii -> bool) (s : string) : bool :=
  match s with
  | EmptyString => true
  | String c s' => P c && all_chars P s'
  end.

(** The shapes the effects of one [product_image] request can take. *)
Definition image_effects_shape (key : string) (e : env) (w : image_world)
    (barcode : string) (did : list image_effect) : Prop :=
  let asked := SearchRequest (search_url key (image_name e barcode)) in
  did = []
  \/ did = [asked]
  \/ (exists url, did = [asked; DownloadRequest url])
  \/ (exists url img,
        download w url = Ok img /\ status_code_of img = 200
        /\ did = [asked; DownloadRequest url;
                  CacheWrite (cache_path barcode) (content_of img)]).

(** The conditions under which [create_order] gets an order from the
    gateway: the client is configured, the cart can be read and is not
    empty, the amount can be computed, the body is a JSON object and the
    gateway answers with an order id. *)
Definition order_accepted (cfg : config) (gw : gateway) (e : env)
    (body : option order_request) (d : db) (amount : Z) (rq : order_request)
    (order_id : string) : Prop :=
  is_Some (razorpay_client cfg)
  /\ fails_within 2 (storage_fault e) = false
  /\ cart d <> []
  /\ final_amount (cart_sum (cart d)) = Ok amount
  /\ body = Some rq
  /\ order_create gw (make_order_data e rq (amount * 100) (cart d)) = Ok order_id.

(** ** The statements of the specification that the code does not meet as
    worded, each at given inputs *)

(** A verified payment empties the cart, appends one completed order whose
    total is the cart's total, and returns a non-empty order number. *)
Definition verified_commit_claim (cfg : config) (gw : gateway) (e : env)
    (body : option payment_data) (d : db) : Prop :=
  storage_fault e = None -> signature_verifies cfg gw body ->
  let o := payment_success cfg gw e body d in
  cart (db_after o) = []
  /\ (exists row, orders (db_after o) = orders d ++ [row]
                  /\ Orders.status row = "completed"
                  /\ Orders.total row = cart_total (cart d))
  /\ (exists number, number <> ""
        /\ response_of o
           = Jsonify 200 [("success", JBool true);
                          ("message", JStr ("Payment successful! Order #" +:+ number));
                          ("redirect", JStr (url_for EpHome))]).

(** A verified payment on an empty cart succeeds with an order of total 0. *)
Definition empty_cart_commit_claim (cfg : config) (gw : gateway) (e : env)
    (body : option payment_data) (d : db) : Prop :=
  storage_fault e = None -> signature_verifies cfg gw body -> cart d = [] ->
  let o := payment_success cfg gw e body d in
  response_of o = success_response e
  /\ exists row, orders (db_after o) = orders d ++ [row]
                 /\ Orders.total row = 0
                 /\ Orders.status row = "completed".

(** The final amount of a cart is the floor of 1.05 times its total. *)
Definition amount_floor_claim (items : list Cart.row) : Prop :=
  cart_inv items -> Forall (fun r => 0 <= Cart.price r) items ->
  final_amount (cart_total items) = Ok (21 * cart_total items / 20).

(** With an empty cart, checkout redirects and order creation fails with a
    client error; neither reaches the gateway or writes an order. *)
Definition empty_checkout_claim (cfg : config) (gw : gateway) (e : env)
    (body : option order_request) (d : db) : Prop :=
  storage_fault e = None -> cart d = [] ->
  (response_of (checkout cfg e d) = Redirect EpHome
   /\ gateway_requests (checkout cfg e d) = []
   /\ db_after (checkout cfg e d) = d)
  /\ (400 <= status_code (response_of (create_order cfg gw e body d)) < 500
      /\ gateway_requests (create_order cfg gw e body d) = []
      /\ db_after (create_order cfg gw e body d) = d).

(** Without a configured gateway client, both calls answer 503 (service
    unavailable) and change nothing. *)
Definition unconfigured_claim (cfg : config) (gw : gateway) (e : env)
    (order_body : option order_request) (payment_body : option payment_data)
    (d : db) : Prop :=
  razorpay_client cfg = None ->
  (status_code (response_of (create_order cfg gw e order_body d)) = 503
   /\ db_after (create_order cfg gw e order_body d) = d)
  /\ (status_code (response_of (payment_success cfg gw e payment_body d)) = 503
      /\ db_after (payment_success cfg gw e payment_body d) = d).

(** Scans of one known barcode, from a cart without it, add up. *)
Definition scans_sum_claim (b : string) (calls : list (env * scan_form))
    (d : db) : Prop :=
  Forall (scan_of b) calls -> b ∉ Cart.barcode <$> cart d ->
  quantity_of b (run_scans calls d) = requested_sum calls.

(** ** Inputs of the examples *)

Definition empty_db : db := {| cart := []; orders := []; orders_seq := 0 |}.

(** The catalogue of the specification's scenario. *)
Definition apple_catalog : catalog_file := FileText "A1,Apple,50".

(** A request on healthy storage, at a time ending in 001, with the random
    generator at its lowest draw: the order number is "1100". *)
Definition calm_env : env :=
  {| products_file := apple_catalog; time_time := 1700000001;
     random_source := 0; storage_fault := None |}.

Definition keys_present : config :=
  {| RAZORPAY_KEY_ID := "rzp_test_key"; RAZORPAY_KEY_SECRET := "secret" |}.

Definition keys_missing : config :=
  {| RAZORPAY_KEY_ID := ""; RAZORPAY_KEY_SECRET := "" |}.

(** A gateway that accepts every signature, and one that rejects them all. *)
Definition accepting_gateway : gateway :=
  {| order_create := fun _ => Ok "order_test";
     verify_payment_signature := fun _ => Ok tt |}.

Definition rejecting_gateway : gateway :=
  {| order_create := fun _ => Ok "order_test";
     verify_payment_signature :=
       fun _ => Raise (SignatureVerificationError "Razorpay Signature Verification Failed") |}.

Definition callback : payment_data :=
  {| razorpay_payment_id := Some "pay_1"; razorpay_order_id := Some "order_test";
     razorpay_signature := Some "5f2c" |}.

Definition anonymous_order : order_request :=
  {| customer_name := None; customer_phone := None; order_notes := None |}.

Definition scan (barcode qty : string) : scan_form :=
  {| form_barcode := Some barcode; form_qty := Some qty |}.

(** Two apples in the cart. *)
Definition two_apples : db :=
  {| cart := [ {| Cart.barcode := "A1"; Cart.name := "Apple";
                  Cart.price := 50; Cart.qty := 2 |} ];
     orders := []; orders_seq := 0 |}.

(** A ledger that already holds order number "1100". *)
Definition ledger_1100 (items : list Cart.row) : db :=
  {| cart := items;
     orders := [ {| Orders.id := 1; Orders.order_number := "1100";
                    Orders.total := 105; Orders.created_at := 1699999001;
                    Orders.status := "completed" |} ];
     orders_seq := 1 |}.

(** A cart whose total is beyond the range where the product by 1.05 is
    exact enough. *)
Definition bullion : list Cart.row :=
  [ {| Cart.barcode := "AU"; Cart.name := "Bullion";
       Cart.price := 428382165980539; Cart.qty := 1 |} ].

(** A request whose commit fails: connecting, reading and writing succeed,
    the fourth storage operation does not. *)
Definition commit_fails : env :=
  {| products_file := apple_catalog; time_time := 1700000001;
     random_source := 0; storage_fault := Some 3%nat |}.

(** A catalogue with a malformed line, a negative price, a price that is not
    an integer, an empty barcode and a repeated barcode. *)
Definition mixed_catalog : catalog_file := FileText "B2 , Pear , -70
A1,Apple,50
broken line
C3,Plum,1.5
,Nameless,5
B2,Williams pear,80
".

(** A reading of the clock. *)
Definition noon : clock :=
  {| current_date := "Wed, 04 Nov 2026"; current_time := "12:00 PM" |}.

(** A world without cache and without network. *)
Definition offline : image_world :=
  {| makedirs := Ok tt;
     cache_exists := false;
     send_cached := Raise (OtherException "No such file or directory");
     requests_importable := true;
     search := fun _ => Raise (OtherException "Connection refused");
     download := fun _ => Raise (OtherException "Connection refused");
     write_cache := fun _ => Ok tt;
     send_written := fun content => Ok content |}.

(** The reply of the image search with one result. *)
Definition one_result : jvalue :=
  JObject {[ "results" :=
    JArray [ JObject {[ "urls" :=
      JObject {[ "regular" := JString "https://images.example/apple" ]} ]} ] ]}.

(** A world where the search and the download succeed. *)
Definition online : image_world :=
  {| makedirs := Ok tt;
     cache_exists := false;
     send_cached := Raise (OtherException "No such file or directory");
     requests_importable := true;
     search := fun _ =>
       Ok {| status_code_of := 200; json_of := Ok one_result; content_of := [] |};
     download := fun _ =>
       Ok {| status_code_of := 200; json_of := Raise (ValueError "not JSON");
             content_of := [Byte.xff; Byte.xd8] |};
     write_cache := fun _ => Ok tt;
     send_written := fun content => Ok content |}.

(** * Properties *)

(** ** The catalogue loader *)

Section Catalogue.

Implicit Types (line text b : string) (p : Product.t).

Lemma split_empty : Py.split "," "" = [""].
Proof. reflexivity. Qed.

(** What an accepted line stores. *)
Lemma parse_line_Some line b p :
  parse_line line = Some (b, p) ->
  length (line_fields line) = 3%nat
  /\ b = Py.strip (field 0 line) /\ b <> ""
  /\ Product.name p = Py.strip (field 1 line)
  /\ exists z, Py.int (Py.strip (field 2 line)) = Some z
               /\ Product.price p = Z.abs z.
Proof.
  unfold parse_line, field, line_fields.
  destruct (decide (Py.strip line = "")) as [|_]; [discriminate|].
  destruct (Py.split "," (Py.strip line)) as [|f0 [|f1 [|f2 [|f3 fs]]]];
    try discriminate.
  simpl. destruct (decide (Py.strip f0 = "")) as [|Hb]; [discriminate|].
  destruct (Py.int (Py.strip f2)) as [z|] eqn:Hz; [|discriminate].
  intros [= <- <-]. simpl. repeat split; auto.
  exists z. split; [reflexivity|].
  destruct (Z.ltb_spec z 0); lia.
Qed.

(** When a line is skipped. *)
Lemma parse_line_None line :
  parse_line line = None <->
  length (line_fields line) <> 3%nat
  \/ Py.strip (field 0 line) = ""
  \/ Py.int (Py.strip (field 2 line)) = None.
Proof.
  unfold parse_line, field, line_fields.
  destruct (decide (Py.strip line = "")) as [->|_].
  { rewrite split_empty. simpl. split; auto. }
  destruct (Py.split "," (Py.strip line)) as [|f0 [|f1 [|f2 [|f3 fs]]]];
    simpl; try (split; [intros _; left; lia | reflexivity]).
  destruct (decide (Py.strip f0 = "")) as [Hb|Hb].
  { split; auto. }
  destruct (Py.int (Py.strip f2)) as [z|] eqn:Hz.
  - split; [discriminate|]. intros [H|[H|H]]; [lia | contradiction | discriminate].
  - split; auto.
Qed.

Lemma foldl_add_line_lookup (lines : list string) b :
  foldl add_line ∅ lines !! b
  = snd <$> last (filter (fun kv => kv.1 = b) (omap parse_line lines)).
Proof.
  induction lines as [|line lines IH] using rev_ind; [reflexivity|].
  rewrite foldl_app, omap_app, filter_app. simpl.
  unfold add_line at 1.
  destruct (parse_line line) as [[b' p]|] eqn:Hl; simpl.
  - rewrite filter_cons, filter_nil. simpl.
    destruct (decide (b' = b)) as [->|Hne].
    + rewrite lookup_insert_eq, last_snoc. reflexivity.
    + rewrite lookup_insert_ne by done. rewrite app_nil_r. exact IH.
  - rewrite filter_nil, app_nil_r. exact IH.
Qed.

End Catalogue.

(** C9. [load_products] skips a line exactly when the stripped line does not
    split into three comma-separated fields, or its barcode field is empty
    once stripped, or its price field does not read as an integer; an
    accepted line stores the stripped barcode and name and the absolute value
    of the price read; a missing file gives the empty dictionary; and the
    dictionary holds, for each barcode, the entry of the last accepted line
    that carries it. *)
Theorem load_products_spec :
  (forall line,
      parse_line line = None <->
      length (line_fields line) <> 3%nat
      \/ Py.strip (field 0 line) = ""
      \/ Py.int (Py.strip (field 2 line)) = None)
  /\ (forall line,
        match parse_line line with
        | Some (b, p) =>
            b = Py.strip (field 0 line)
            /\ Product.name p = Py.strip (field 1 line)
            /\ exists z, Py.int (Py.strip (field 2 line)) = Some z
                         /\ Product.price p = Z.abs z
        | None => True
        end)
  /\ load_products FileAbsent = ∅
  /\ (forall text b,
        load_products (FileText text) !! b
        = snd <$> last (filter (fun kv => kv.1 = b) (catalog_entries text))).
Proof.
  split; [exact parse_line_None|].
  split.
  { intros line. destruct (parse_line line) as [[b p]|] eqn:H; [|exact I].
    apply parse_line_Some in H. tauto. }
  split; [reflexivity|].
  intros text b. apply foldl_add_line_lookup.
Qed.

(** A catalogue with a malformed line, a negative price, a price that is not
    an integer, an empty barcode and a repeated barcode. *)
Example load_products_example :
  let products := load_products (FileText "A1,Apple,50
 B2 , Pear , -70
broken line
C3,Plum,1.5
,Nameless,5
A1,Apricot,60
") in
  products !! "A1" = Some {| Product.name := "Apricot"; Product.price := 60 |}
  /\ products !! "B2" = Some {| Product.name := "Pear"; Product.price := 70 |}
  /\ products !! "C3" = None
  /\ size products = 2%nat.
Proof. vm_compute. repeat split; reflexivity. Qed.

(** ** Transactions *)

Section Transactions.

Context {A B : Type}.

Lemma quiet_ret (a : A) : quiet (ret a).
Proof. intros c. reflexivity. Qed.

Lemma quiet_raise e : quiet (@raise A e).
Proof. intros c. reflexivity. Qed.

Lemma quiet_lift (r : result A) : quiet (lift r).
Proof. destruct r; intros c; reflexivity. Qed.

Lemma quiet_storage_op : quiet storage_op.
Proof. intros c. unfold storage_op. destruct (fuse c) as [[|n]|]; reflexivity. Qed.

Lemma quiet_bind (m : Sql A) (k : A -> Sql B) :
  quiet m -> (forall a, quiet (k a)) -> quiet (bind m k).
Proof.
  intros Hm Hk c. unfold bind. specialize (Hm c).
  destruct (m c) as [[a|e] c']; simpl in *; [|exact Hm].
  rewrite (Hk a c'). exact Hm.
Qed.

Lemma quiet_gateway_call rq (r : result A) : quiet (gateway_call rq r).
Proof. intros c. unfold gateway_call. destruct r; reflexivity. Qed.

Lemma quiet_flash category message : quiet (flash category message).
Proof. intros c. reflexivity. Qed.

Lemma fault_safe_flash category message : fault_safe (flash category message).
Proof. intros c. right. reflexivity. Qed.

Lemma fault_safe_ret (a : A) : fault_safe (ret a).
Proof. intros c. right. reflexivity. Qed.

Lemma fault_safe_raise e : fault_safe (@raise A e).
Proof. intros c. right. reflexivity. Qed.

Lemma fault_safe_lift (r : result A) : fault_safe (lift r).
Proof. destruct r; intros c; right; reflexivity. Qed.

Lemma fault_safe_storage_op : fault_safe storage_op.
Proof.
  intros c. unfold storage_op.
  destruct (fuse c) as [[|n]|]; simpl; auto.
Qed.

Lemma fault_safe_gateway_call rq (r : result A) : fault_safe (gateway_call rq r).
Proof. intros c. right. unfold gateway_call. destruct r; reflexivity. Qed.

(** Sequencing: what comes first must not commit. *)
Lemma fault_safe_bind (m : Sql A) (k : A -> Sql B) :
  fault_safe m -> quiet m -> (forall a, fault_safe (k a)) ->
  fault_safe (bind m k).
Proof.
  intros Hm Hq Hk c. unfold bind.
  specialize (Hm c). specialize (Hq c).
  destruct (m c) as [[a|e] c'] eqn:Em; simpl in *.
  - destruct Hm as [[Hm _]|Hm]; [discriminate|]. rewrite Hm.
    destruct (Hk a c') as [[Hr Hc]|Hr]; [left|right].
    + split; [exact Hr|]. rewrite Hc. exact Hq.
    + exact Hr.
  - destruct Hm as [[[= ->] Hc]|Hm]; [left; split; [reflexivity|exact Hc]|right].
    rewrite Hm. reflexivity.
Qed.

(** A computation may commit when only a value follows. *)
Lemma fault_safe_bind_ret (m : Sql A) (f : A -> B) :
  fault_safe m -> fault_safe (bind m (fun a => ret (f a))).
Proof.
  intros Hm c. unfold bind, ret. specialize (Hm c).
  destruct (m c) as [[a|e] c'] eqn:Em; simpl in *.
  - destruct Hm as [[Hm _]|Hm]; [discriminate|]. right. rewrite Hm. reflexivity.
  - destruct Hm as [[[= ->] Hc]|Hm]; [left; split; [reflexivity|exact Hc]|right].
    rewrite Hm. reflexivity.
Qed.

End Transactions.

Lemma quiet_query {A} (q : db -> A) : quiet (query q).
Proof.
  apply quiet_bind; [apply quiet_storage_op|]. intros _ c. reflexivity.
Qed.

Lemma quiet_execute stmt : quiet (execute stmt).
Proof.
  apply quiet_bind; [apply quiet_storage_op|]. intros _ c. simpl.
  destruct (stmt (work c)); reflexivity.
Qed.

Lemma fault_safe_query {A} (q : db -> A) : fault_safe (query q).
Proof.
  apply fault_safe_bind;
    [apply fault_safe_storage_op | apply quiet_storage_op |].
  intros _ c. right. reflexivity.
Qed.

Lemma fault_safe_execute stmt : fault_safe (execute stmt).
Proof.
  apply fault_safe_bind;
    [apply fault_safe_storage_op | apply quiet_storage_op |].
  intros _ c. right. simpl. destruct (stmt (work c)); reflexivity.
Qed.

Lemma fault_safe_commit : fault_safe commit.
Proof.
  intros c. unfold commit, bind, storage_op.
  destruct (fuse c) as [[|n]|]; simpl; auto.
Qed.

Create HintDb sql discriminated.
#[export] Hint Resolve quiet_ret quiet_raise quiet_lift quiet_storage_op
  quiet_gateway_call quiet_flash fault_safe_flash quiet_query quiet_execute
  fault_safe_ret fault_safe_raise fault_safe_lift fault_safe_storage_op
  fault_safe_gateway_call fault_safe_query fault_safe_execute
  fault_safe_commit : sql.

(** Closes [quiet] and [fault_safe] goals over the blocks of the handlers. *)
Ltac sql_safe :=
  repeat match goal with
    | |- fault_safe (bind _ (fun _ => ret _)) => apply fault_safe_bind_ret
    | |- fault_safe (bind _ _) => apply fault_safe_bind
    | |- quiet (bind _ _) => apply quiet_bind
    | |- forall a, @fault_safe _ (@?m a) => intro
    | |- forall a, @quiet _ (@?m a) => intro
    | |- fault_safe (match ?x with _ => _ end) => destruct x
    | |- quiet (match ?x with _ => _ end) => destruct x
    | |- fault_safe _ => solve [auto with sql]
    | |- quiet _ => solve [auto with sql]
    end.

(** A block runs as on healthy storage, or raises the storage failure and
    leaves the stored state as it was. *)
Lemma with_db_cases {A} (body : Sql A) d fault :
  fault_safe body ->
  (exists rqs, with_db body d fault = (Raise storage_failure, d, rqs))
  \/ with_db body d fault = with_db body d None.
Proof.
  intros Hb. unfold with_db.
  assert (Hs : fault_safe (connect ;; body)).
  { apply fault_safe_bind; auto with sql. }
  specialize (Hs {| committed := d; work := d; fuse := fault; log := [] |}).
  unfold defuse in Hs. simpl in Hs.
  destruct ((connect ;; body) _) as [r c'] eqn:E. simpl in Hs.
  destruct Hs as [[-> Hc]|Hs].
  - left. exists (log c'). rewrite Hc. reflexivity.
  - right. rewrite Hs. destruct r; reflexivity.
Qed.

Lemma scan_block_safe b p q : fault_safe (scan_block b p q).
Proof. unfold scan_block. sql_safe. Qed.

Lemma add_block_safe b p : fault_safe (add_block b p).
Proof. unfold add_block. sql_safe. Qed.

Lemma update_block_safe b a : fault_safe (update_block b a).
Proof. unfold update_block. sql_safe. Qed.

Lemma delete_block_safe b : fault_safe (delete_block b).
Proof. unfold delete_block. sql_safe. Qed.

Lemma create_order_block_safe cfg gw e body :
  fault_safe (create_order_block cfg gw e body).
Proof. unfold create_order_block. sql_safe. Qed.

Lemma commit_order_block_safe e : fault_safe (commit_order_block e).
Proof. unfold commit_order_block. sql_safe. Qed.

(** The blocks on healthy storage, statement by statement. *)

Lemma scan_block_healthy b p q d :
  with_db (scan_block b p q) d None
  = match (match select_qty b d with
           | Some _ => update_qty_add q b d
           | None => insert_cart b (Product.name p) (Product.price p) q d
           end) with
    | Ok d' => (Ok tt, d', [])
    | Raise x => (Raise x, d, [])
    end.
Proof.
  unfold with_db, scan_block, bind, connect, query, execute, commit, storage_op, bind.
  simpl. destruct (select_qty b d); simpl.
  - destruct (update_qty_add q b d); reflexivity.
  - destruct (insert_cart _ _ _ _ d); reflexivity.
Qed.

Lemma add_block_healthy b p d :
  with_db (add_block b p) d None
  = match select_qty b d with
    | Some _ =>
        match update_qty_inc b d with
        | Ok d' =>
            (Ok tt, d',
             [Flash "success" ("Added another " +:+ Product.name p +:+ " to cart!")])
        | Raise x => (Raise x, d, [])
        end
    | None =>
        match insert_cart b (Product.name p) (Product.price p) 1 d with
        | Ok d' =>
            (Ok tt, d', [Flash "success" ("Added " +:+ Product.name p +:+ " to cart!")])
        | Raise x => (Raise x, d, [])
        end
    end.
Proof.
  unfold with_db, add_block, bind, connect, query, execute, commit, storage_op, bind,
    flash.
  simpl. destruct (select_qty b d); simpl; [reflexivity|].
  destruct (insert_cart _ _ _ _ d); reflexivity.
Qed.

Lemma update_block_healthy b action d :
  action ∈ ["inc"; "dec"] ->
  with_db (update_block b action) d None
  = (Ok tt,
     set_cart (if decide (action = "inc") then add_qty b 1 <$> cart d
               else filter (fun r => ~ (Cart.qty r <= 0)) (add_qty b (-1) <$> cart d)) d,
     []).
Proof.
  intros Ha.
  unfold with_db, update_block, bind, connect, query, execute, commit, storage_op, bind.
  destruct (decide (action = "inc")) as [->|Hi]; [reflexivity|].
  destruct (decide (action = "dec")) as [->|Hd]; [reflexivity|].
  exfalso. apply elem_of_cons in Ha as [Ha|Ha]; [contradiction|].
  apply list_elem_of_singleton in Ha. contradiction.
Qed.

Lemma delete_block_healthy b d :
  with_db (delete_block b) d None
  = (Ok tt, set_cart (filter (fun r => Cart.barcode r <> b) (cart d)) d, []).
Proof. reflexivity. Qed.

Lemma commit_order_block_healthy e d :
  with_db (commit_order_block e) d None
  = match final_amount (cart_total (cart d)) with
    | Raise x => (Raise x, d, [])
    | Ok amount =>
        match insert_order (generate_order_number e) amount "completed" (time_time e) d with
        | Raise x => (Raise x, d, [])
        | Ok d' => (Ok (generate_order_number e, amount), set_cart [] d', [])
        end
    end.
Proof.
  unfold with_db, commit_order_block, bind, connect, query, execute, commit,
    storage_op, bind, lift, ret, raise, select_cart.
  simpl. destruct (final_amount (cart_total (cart d))) as [amount|x]; simpl; [|reflexivity].
  destruct (insert_order _ _ _ _ d); reflexivity.
Qed.

(** ** The cart invariant *)

Section CartInvariant.

Implicit Types (items : list Cart.row) (b : string) (q : Z) (d : db).

Lemma cart_inv_nil : cart_inv [].
Proof. split; constructor. Qed.

Lemma barcode_add_qty b q r : Cart.barcode (add_qty b q r) = Cart.barcode r.
Proof. unfold add_qty. destruct (decide (Cart.barcode r = b)); reflexivity. Qed.

Lemma barcodes_add_qty b q items :
  Cart.barcode <$> (add_qty b q <$> items) = Cart.barcode <$> items.
Proof.
  rewrite <- list_fmap_compose. apply list_fmap_ext. intros _ r _. simpl.
  apply barcode_add_qty.
Qed.

Lemma cart_inv_add_qty b q items :
  0 <= q -> cart_inv items -> cart_inv (add_qty b q <$> items).
Proof.
  intros Hq [Hn Hf]. split.
  - rewrite barcodes_add_qty. exact Hn.
  - apply Forall_fmap. eapply Forall_impl; [exact Hf|].
    intros r Hr. simpl in *. unfold add_qty.
    destruct (decide (Cart.barcode r = b)); simpl; lia.
Qed.

Lemma cart_inv_snoc items r :
  Cart.barcode r ∉ Cart.barcode <$> items -> 1 <= Cart.qty r ->
  cart_inv items -> cart_inv (items ++ [r]).
Proof.
  intros Hb Hq [Hn Hf]. split.
  - rewrite fmap_app. apply NoDup_app. split; [exact Hn|]. split.
    + intros x Hx Hx'. simpl in Hx'. apply list_elem_of_singleton in Hx'.
      subst. contradiction.
    + simpl. apply NoDup_singleton.
  - apply Forall_app. split; [exact Hf|]. constructor; [exact Hq|constructor].
Qed.

Lemma NoDup_barcodes_filter (P : Cart.row -> Prop) `{!∀ r, Decision (P r)} items :
  NoDup (Cart.barcode <$> items) -> NoDup (Cart.barcode <$> filter P items).
Proof.
  intros Hn. apply (sublist_NoDup _ (Cart.barcode <$> items)); [exact Hn|].
  apply fmap_sublist, sublist_filter.
Qed.

Lemma cart_inv_filter (P : Cart.row -> Prop) `{!∀ r, Decision (P r)} items :
  cart_inv items -> cart_inv (filter P items).
Proof.
  intros [Hn Hf]. split; [by apply NoDup_barcodes_filter|].
  apply Forall_forall. intros r Hr. apply list_elem_of_filter in Hr as [_ Hr].
  rewrite Forall_forall in Hf. exact (Hf r Hr).
Qed.

(** The two statements of a decrement: the update may leave a quantity 0,
    the delete that follows removes it. *)
Lemma cart_inv_decrement b items :
  cart_inv items ->
  cart_inv (filter (fun r => ~ (Cart.qty r <= 0)) (add_qty b (-1) <$> items)).
Proof.
  intros [Hn Hf]. split.
  - apply NoDup_barcodes_filter. rewrite barcodes_add_qty. exact Hn.
  - apply Forall_forall. intros r Hr. apply list_elem_of_filter in Hr as [Hr _]. lia.
Qed.

Lemma select_qty_None b d :
  select_qty b d = None <-> b ∉ Cart.barcode <$> cart d.
Proof.
  unfold select_qty. induction (cart d) as [|r items IH]; simpl.
  - split; [intros _; apply not_elem_of_nil | reflexivity].
  - rewrite filter_cons. destruct (decide (Cart.barcode r = b)) as [<-|Hne]; simpl.
    + split; [discriminate|]. intros H. exfalso. apply H. left.
    + rewrite IH. rewrite not_elem_of_cons. split; [auto|tauto].
Qed.

Lemma bind_int_Ok z z' : bind_int z = Ok z' -> z' = z.
Proof. unfold bind_int. destruct (fits_sqlite_int z); congruence. Qed.

Lemma scan_block_inv b p q d r d' rqs :
  1 <= q -> cart_inv (cart d) ->
  with_db (scan_block b p q) d None = (r, d', rqs) -> cart_inv (cart d').
Proof.
  intros Hq Hinv. rewrite scan_block_healthy.
  destruct (select_qty b d) as [k|] eqn:Hs.
  - unfold update_qty_add. destruct (bind_int q) as [q'|x] eqn:Hb; intros [= <- <- <-];
      [|exact Hinv].
    apply bind_int_Ok in Hb as ->. simpl. apply cart_inv_add_qty; [lia|exact Hinv].
  - unfold insert_cart.
    destruct (bind_int (Product.price p)) as [p'|x]; [|intros [= <- <- <-]; exact Hinv].
    destruct (bind_int q) as [q'|x] eqn:Hb; [|intros [= <- <- <-]; exact Hinv].
    apply bind_int_Ok in Hb as ->.
    destruct (decide (b ∈ Cart.barcode <$> cart d)) as [Hin|Hnin];
      intros [= <- <- <-]; [exact Hinv|].
    simpl. apply cart_inv_snoc; simpl; auto.
Qed.

Lemma requested_qty_pos f : 1 <= requested_qty f.
Proof.
  unfold requested_qty. destruct (Py.int _) as [q|]; [|lia].
  destruct (Z.ltb_spec q 1); lia.
Qed.

Lemma home_inv e f d : cart_inv (cart d) -> cart_inv (cart (db_after (home e f d))).
Proof.
  intros Hinv. unfold home.
  destruct (decide (Py.strip (default "" (form_barcode f)) = "")) as [|_]; [exact Hinv|].
  destruct (load_products (products_file e) !! _) as [p|]; [|exact Hinv].
  destruct (with_db_cases _ d (storage_fault e) (scan_block_safe
              (Py.strip (default "" (form_barcode f))) p (requested_qty f)))
    as [(rqs & ->) | ->]; [exact Hinv|].
  destruct (with_db _ d None) as [[r d'] rqs] eqn:Hh.
  assert (cart_inv (cart d')).
  { eapply scan_block_inv; [apply requested_qty_pos | exact Hinv | exact Hh]. }
  destruct r as [|x]; [|destruct (is_sqlite3_error x)]; assumption.
Qed.

Lemma add_to_cart_inv e b d :
  cart_inv (cart d) -> cart_inv (cart (db_after (add_to_cart e b d))).
Proof.
  intros Hinv. unfold add_to_cart.
  destruct (load_products (products_file e) !! b) as [p|]; [|exact Hinv].
  destruct (with_db_cases _ d (storage_fault e) (add_block_safe b p))
    as [(rqs & ->) | ->]; [exact Hinv|].
  rewrite add_block_healthy.
  destruct (select_qty b d) as [k|] eqn:Hs.
  - simpl. apply cart_inv_add_qty; [lia|exact Hinv].
  - unfold insert_cart.
    destruct (bind_int (Product.price p)) as [p'|x];
      [|destruct (is_sqlite3_error x); exact Hinv].
    simpl.
    destruct (decide (b ∈ Cart.barcode <$> cart d)); [exact Hinv|].
    simpl. apply cart_inv_snoc; simpl; auto. lia.
Qed.

Lemma update_inv e b action d :
  cart_inv (cart d) -> cart_inv (cart (db_after (update e b action d))).
Proof.
  intros Hinv. unfold update.
  destruct (decide (action ∉ ["inc"; "dec"])) as [|Ha]; [exact Hinv|].
  apply dec_stable in Ha.
  destruct (with_db_cases _ d (storage_fault e) (update_block_safe b action))
    as [(rqs & ->) | ->]; [exact Hinv|].
  rewrite update_block_healthy by exact Ha. simpl.
  destruct (decide (action = "inc")).
  - apply cart_inv_add_qty; [lia|exact Hinv].
  - apply cart_inv_decrement, Hinv.
Qed.

Lemma delete_inv e b d :
  cart_inv (cart d) -> cart_inv (cart (db_after (delete e b d))).
Proof.
  intros Hinv. unfold delete.
  destruct (with_db_cases _ d (storage_fault e) (delete_block_safe b))
    as [(rqs & ->) | ->]; [exact Hinv|].
  rewrite delete_block_healthy. simpl. apply cart_inv_filter, Hinv.
Qed.

End CartInvariant.

(** ** Committing a payment *)

Section Payment.

Implicit Types (cfg : config) (gw : gateway) (e : env) (d : db).

Lemma set_cart_id d : set_cart (cart d) d = d.
Proof. destruct d; reflexivity. Qed.

Lemma insert_order_Ok number amount st now d d' :
  insert_order number amount st now d = Ok d' ->
  fits_sqlite_int amount = true
  /\ (number ∉ Orders.order_number <$> orders d)
  /\ d' = {| cart := cart d;
             orders := orders d ++ [ {| Orders.id := orders_seq d + 1;
                                        Orders.order_number := number;
                                        Orders.total := amount;
                                        Orders.created_at := now;
                                        Orders.status := st |} ];
             orders_seq := orders_seq d + 1 |}.
Proof.
  unfold insert_order, bind_int.
  destruct (fits_sqlite_int amount); [|discriminate].
  destruct (decide (number ∈ Orders.order_number <$> orders d)); [discriminate|].
  intros [= <-]. auto.
Qed.

(** What a healthy commit block does. *)
Lemma commit_order_block_Ok e d r d' rqs :
  with_db (commit_order_block e) d None = (Ok r, d', rqs) ->
  exists amount,
    final_amount (cart_total (cart d)) = Ok amount
    /\ fits_sqlite_int amount = true
    /\ (generate_order_number e ∉ Orders.order_number <$> orders d)
    /\ r = (generate_order_number e, amount)
    /\ d' = committed_db d e amount.
Proof.
  rewrite commit_order_block_healthy.
  destruct (final_amount (cart_total (cart d))) as [amount|x]; [|discriminate].
  destruct (insert_order _ _ _ _ d) as [d1|x] eqn:Hi; [|discriminate].
  apply insert_order_Ok in Hi as (Hfit & Hfresh & ->).
  intros [= <- <-]. exists amount. repeat split; auto.
Qed.

(** Every run of [payment_success] either commits the order and clears the
    cart, or leaves the stored state as it was and answers with an error. *)
Lemma payment_success_cases cfg gw e body d :
  let o := payment_success cfg gw e body d in
  (signature_verifies cfg gw body
   /\ response_of o = success_response e
   /\ exists amount,
        final_amount (cart_total (cart d)) = Ok amount
        /\ fits_sqlite_int amount = true
        /\ (generate_order_number e ∉ Orders.order_number <$> orders d)
        /\ db_after o = committed_db d e amount)
  \/ (db_after o = d
      /\ exists code msg target,
           (code = 400 \/ code = 500)
           /\ response_of o = Jsonify code (payment_error msg target)).
Proof.
  unfold payment_success.
  destruct body as [params|]; simpl; [|right; split; eauto 8].
  destruct (razorpay_client cfg) as [client|] eqn:Hc; [|right; split; eauto 8].
  destruct (verify_payment_signature gw params) as [[]|x] eqn:Hv.
  - destruct (with_db_cases _ d (storage_fault e) (commit_order_block_safe e))
      as [(rqs & ->) | ->]; [right; simpl; split; eauto 8|].
    destruct (with_db (commit_order_block e) d None) as [[[[num amount]|x] d'] rqs] eqn:Hh.
    + left. apply commit_order_block_Ok in Hh
        as (amount' & Hf & Hfit & Hfresh & [= -> ->] & ->).
      split; [|split; [reflexivity | eauto 8]].
      split; [rewrite Hc; eauto | eauto].
    + assert (d' = d) as ->.
      { rewrite commit_order_block_healthy in Hh.
        destruct (final_amount _); [|congruence].
        destruct (insert_order _ _ _ _ d); congruence. }
      right. destruct (is_signature_error x); simpl; split; eauto 8.
  - right. destruct (is_signature_error x); simpl; split; eauto 8.
Qed.

Lemma payment_success_inv cfg gw e body d :
  cart_inv (cart d) ->
  cart_inv (cart (db_after (payment_success cfg gw e body d))).
Proof.
  intros Hinv.
  destruct (payment_success_cases cfg gw e body d)
    as [(_ & _ & amount & _ & _ & _ & ->) | (-> & _)];
    [apply cart_inv_nil | exact Hinv].
Qed.

End Payment.

(** ** Decrementing *)

Section Decrement.

Implicit Types (items : list Cart.row) (b : string) (d : db) (e : env).

Lemma add_qty_ne b q r : Cart.barcode r <> b -> add_qty b q r = r.
Proof. intros H. unfold add_qty. destruct (decide _); [contradiction|reflexivity]. Qed.

Lemma add_qty_eq b q r :
  Cart.barcode r = b ->
  add_qty b q r = {| Cart.barcode := Cart.barcode r; Cart.name := Cart.name r;
                     Cart.price := Cart.price r; Cart.qty := Cart.qty r + q |}.
Proof. intros H. unfold add_qty. destruct (decide _); [reflexivity|contradiction]. Qed.

Lemma decrement_absent b items :
  b ∉ Cart.barcode <$> items -> Forall (fun r => 1 <= Cart.qty r) items ->
  filter (fun r => ~ (Cart.qty r <= 0)) (add_qty b (-1) <$> items) = items.
Proof.
  induction items as [|r items IH]; [reflexivity|].
  rewrite fmap_cons, not_elem_of_cons, Forall_cons. intros [Hne Hnin] [Hq Hf].
  simpl. rewrite add_qty_ne by (intros Heq; apply Hne; symmetry; exact Heq).
  rewrite filter_cons.
  destruct (decide (~ (Cart.qty r <= 0))) as [_|Hn]; [|lia].
  f_equal. apply IH; assumption.
Qed.

Lemma filter_barcode_absent b items :
  b ∉ Cart.barcode <$> items ->
  filter (fun r => Cart.barcode r <> b) items = items.
Proof.
  induction items as [|r items IH]; [reflexivity|].
  rewrite fmap_cons, not_elem_of_cons. intros [Hne Hnin].
  rewrite filter_cons. destruct (decide (Cart.barcode r <> b)) as [_|Hn].
  - f_equal. apply IH, Hnin.
  - exfalso. apply Hn. intros Heq. apply Hne. symmetry. exact Heq.
Qed.

Lemma decrement_last_unit b items r :
  cart_inv items -> r ∈ items -> Cart.barcode r = b -> Cart.qty r = 1 ->
  filter (fun r => ~ (Cart.qty r <= 0)) (add_qty b (-1) <$> items)
  = filter (fun r => Cart.barcode r <> b) items.
Proof.
  intros [Hn Hf]. revert Hn Hf.
  induction items as [|r0 items IH]; intros Hn Hf Hin Hb Hq.
  { apply elem_of_nil in Hin. contradiction. }
  rewrite fmap_cons in Hn. apply NoDup_cons in Hn as [Hnin Hn].
  apply Forall_cons in Hf as [Hq0 Hf].
  rewrite fmap_cons.
  destruct (decide (Cart.barcode r0 = b)) as [Hb0|Hb0].
  - assert (r = r0) as ->.
    { apply elem_of_cons in Hin as [Hin|Hin]; [exact Hin|].
      exfalso. apply Hnin. rewrite Hb0, <- Hb. apply list_elem_of_fmap.
      exists r. auto. }
    rewrite add_qty_eq by assumption. rewrite !filter_cons. simpl.
    destruct (decide (~ (Cart.qty r0 + -1 <= 0))) as [Hp|_]; [lia|].
    destruct (decide (Cart.barcode r0 <> b)) as [Hne|_]; [contradiction|].
    rewrite Hb0 in Hnin.
    rewrite decrement_absent, filter_barcode_absent by assumption. reflexivity.
  - rewrite add_qty_ne by assumption. rewrite !filter_cons.
    destruct (decide (~ (Cart.qty r0 <= 0))) as [_|Hn0]; [|lia].
    destruct (decide (Cart.barcode r0 <> b)) as [_|Hn0]; [|contradiction].
    f_equal. apply IH; auto.
    apply elem_of_cons in Hin as [->|Hin]; [contradiction|exact Hin].
Qed.

(** Decrementing a line of quantity 1 on healthy storage removes that line
    and nothing else. *)
Lemma update_dec_last_unit e b d r :
  cart_inv (cart d) -> storage_fault e = None ->
  r ∈ cart d -> Cart.barcode r = b -> Cart.qty r = 1 ->
  update e b "dec" d
  = respond (Redirect EpHome) []
      (set_cart (filter (fun r => Cart.barcode r <> b) (cart d)) d).
Proof.
  intros Hinv He Hin Hb Hq. unfold update. rewrite He.
  destruct (decide ("dec" ∉ ["inc"; "dec"])) as [Hn|_].
  { exfalso. apply Hn. right. left. }
  rewrite update_block_healthy by (right; left).
  destruct (decide ("dec" = "inc")) as [|_]; [discriminate|].
  rewrite (decrement_last_unit b (cart d) r) by assumption. reflexivity.
Qed.

(** Decrementing a barcode the cart does not hold changes nothing and
    redirects to the cart, whatever happens to storage. *)
Lemma update_dec_absent e b d :
  cart_inv (cart d) -> b ∉ Cart.barcode <$> cart d ->
  db_after (update e b "dec" d) = d
  /\ response_of (update e b "dec" d) = Redirect EpHome
  /\ (storage_fault e = None -> flashed (update e b "dec" d) = []).
Proof.
  intros [_ Hf] Hnin. unfold update.
  destruct (decide ("dec" ∉ ["inc"; "dec"])) as [Hn|_].
  { exfalso. apply Hn. right. left. }
  assert (Hh : with_db (update_block b "dec") d None = (Ok tt, d, [])).
  { rewrite update_block_healthy by (right; left).
    destruct (decide ("dec" = "inc")) as [|_]; [discriminate|].
    rewrite decrement_absent by assumption. rewrite set_cart_id. reflexivity. }
  destruct (with_db_cases _ d (storage_fault e) (update_block_safe b "dec"))
    as [(rqs & Hx) | Hx]; rewrite Hx.
  - simpl. repeat split; auto. intros He. rewrite He, Hh in Hx. discriminate.
  - rewrite Hh. simpl. auto.
Qed.

End Decrement.

(** C7. Every operation on the cart keeps its invariant (a barcode heads at
    most one line, every quantity is at least 1): scanning, adding from the
    shop, incrementing and decrementing, deleting, clearing, and the clearing
    that follows a verified payment, whatever the request and whether or not
    storage fails. On healthy storage, decrementing a line of quantity 1
    removes exactly that line; decrementing a barcode the cart does not hold
    leaves the stored state as it is and answers with the redirect to the
    cart, not with an error. *)
Theorem cart_invariant_preserved (d : db) :
  cart_inv (cart d) ->
  (forall e f, cart_inv (cart (db_after (home e f d))))
  /\ (forall e b, cart_inv (cart (db_after (add_to_cart e b d))))
  /\ (forall e b action, cart_inv (cart (db_after (update e b action d))))
  /\ (forall e b, cart_inv (cart (db_after (delete e b d))))
  /\ (forall d', delete_cart d = Ok d' -> cart_inv (cart d'))
  /\ (forall cfg gw e body,
        cart_inv (cart (db_after (payment_success cfg gw e body d))))
  /\ (forall e b r,
        storage_fault e = None ->
        r ∈ cart d -> Cart.barcode r = b -> Cart.qty r = 1 ->
        update e b "dec" d
        = respond (Redirect EpHome) []
            (set_cart (filter (fun r => Cart.barcode r <> b) (cart d)) d))
  /\ (forall e b,
        b ∉ Cart.barcode <$> cart d ->
        db_after (update e b "dec" d) = d
        /\ response_of (update e b "dec" d) = Redirect EpHome
        /\ (storage_fault e = None -> flashed (update e b "dec" d) = [])).
Proof.
  intros Hinv.
  split; [intros; apply home_inv, Hinv|].
  split; [intros; apply add_to_cart_inv, Hinv|].
  split; [intros; apply update_inv, Hinv|].
  split; [intros; apply delete_inv, Hinv|].
  split; [intros d' [= <-]; apply cart_inv_nil|].
  split; [intros; apply payment_success_inv, Hinv|].
  split; [intros e b r; apply update_dec_last_unit, Hinv|].
  intros e b Hb. apply update_dec_absent; assumption.
Qed.

(** ** Repeated scans of one barcode *)

Section Scans.

Implicit Types (b : string) (d : db) (calls : list (env * scan_form)).

Lemma select_qty_add_qty b q d :
  select_qty b (set_cart (add_qty b q <$> cart d) d)
  = (fun k => k + q) <$> select_qty b d.
Proof.
  unfold select_qty. simpl. induction (cart d) as [|r items IH]; [reflexivity|].
  rewrite fmap_cons, !filter_cons, barcode_add_qty.
  destruct (decide (Cart.barcode r = b)) as [Hb|Hb]; [|exact IH].
  simpl. rewrite add_qty_eq by assumption. reflexivity.
Qed.

Lemma select_qty_snoc b nm p q d :
  select_qty b d = None ->
  select_qty b (set_cart (cart d ++ [ {| Cart.barcode := b; Cart.name := nm;
                                         Cart.price := p; Cart.qty := q |} ]) d)
  = Some q.
Proof.
  unfold select_qty. simpl. rewrite filter_app, filter_cons, filter_nil. simpl.
  destruct (decide (b = b)) as [_|]; [|contradiction].
  destruct (filter _ (cart d)); [reflexivity|discriminate].
Qed.

Lemma bind_int_fits z : fits_sqlite_int z = true -> bind_int z = Ok z.
Proof. unfold bind_int. intros ->. reflexivity. Qed.

(** One scan adds the requested quantity. *)
Lemma home_adds b d call :
  storable_scan_of b call ->
  requested_qty call.2 <= sqlite_int_max ->
  quantity_of b (db_after (home call.1 call.2 d))
  = quantity_of b d + requested_qty call.2.
Proof.
  destruct call as [e f]. unfold storable_scan_of. simpl.
  intros (He & Hb & Hne & p & Hp & Hfit) Hq.
  assert (Hq' : fits_sqlite_int (requested_qty f) = true).
  { pose proof (requested_qty_pos f). unfold fits_sqlite_int, sqlite_int_min.
    apply andb_true_iff. split; apply Z.leb_le; [lia|exact Hq]. }
  unfold home. rewrite Hb, Hp, He.
  destruct (decide (b = "")) as [|_]; [contradiction|].
  rewrite scan_block_healthy. unfold quantity_of.
  destruct (select_qty b d) as [k|] eqn:Hs.
  - unfold update_qty_add. rewrite bind_int_fits by assumption. simpl.
    rewrite select_qty_add_qty, Hs. reflexivity.
  - unfold insert_cart. rewrite !bind_int_fits by assumption.
    apply select_qty_None in Hs as Hnin.
    destruct (decide (b ∈ Cart.barcode <$> cart d)) as [|_]; [contradiction|].
    simpl. rewrite select_qty_snoc by assumption. simpl. lia.
Qed.

Lemma requested_sum_cons call calls :
  requested_sum (call :: calls) = requested_qty call.2 + requested_sum calls.
Proof. reflexivity. Qed.

Lemma requested_sum_nonneg calls : 0 <= requested_sum calls.
Proof.
  induction calls as [|call calls IH]; [reflexivity|].
  rewrite requested_sum_cons. pose proof (requested_qty_pos call.2). lia.
Qed.

Lemma run_scans_adds b calls : forall d,
  Forall (storable_scan_of b) calls ->
  requested_sum calls <= sqlite_int_max ->
  quantity_of b (run_scans calls d) = quantity_of b d + requested_sum calls.
Proof.
  induction calls as [|call calls IH]; intros d Hall Hsum.
  { simpl. unfold requested_sum. simpl. lia. }
  apply Forall_cons in Hall as [Hc Hall].
  rewrite requested_sum_cons in Hsum |- *.
  pose proof (requested_sum_nonneg calls).
  pose proof (requested_qty_pos call.2).
  unfold run_scans. simpl. fold (run_scans calls (db_after (home call.1 call.2 d))).
  rewrite IH by (auto; lia).
  rewrite (home_adds b d call) by (auto; lia). lia.
Qed.

End Scans.

(** ** The amount: binary64 arithmetic *)

(** The literal is the quotient 105/100 rounded to nearest. *)
Example lit_1_05_nearest :
  SFdiv Float.prec Float.emax
    (binary_normalize Float.prec Float.emax 105 0 false)
    (binary_normalize Float.prec Float.emax 100 0 false)
  = Float.lit_1_05.
Proof. vm_compute. reflexivity. Qed.

Example final_amount_examples :
  final_amount 0 = Ok 0
  /\ final_amount 19 = Ok 19
  /\ final_amount 20 = Ok 21
  /\ final_amount 100 = Ok 105
  /\ final_amount 1000 = Ok 1050
  /\ final_amount (2 ^ 1024) = Raise (OverflowError "int too large to convert to float").
Proof. vm_compute. repeat split; reflexivity. Qed.

Section FloatFacts.


Lemma digits2_bounds (p : positive) :
  2 ^ (Z.pos (digits2_pos p) - 1) <= Z.pos p < 2 ^ Z.pos (digits2_pos p).
Proof.
  induction p as [p IH|p IH|]; simpl digits2_pos.
  - rewrite Pos2Z.inj_succ. replace (Z.succ (Z.pos (digits2_pos p)) - 1)
      with (Z.succ (Z.pos (digits2_pos p) - 1)) by lia.
    rewrite !Z.pow_succ_r by lia. change (Z.pos p~1) with (2 * Z.pos p + 1).
    generalize dependent (2 ^ (Z.pos (digits2_pos p) - 1)).
    generalize dependent (2 ^ Z.pos (digits2_pos p)). intros; lia.
  - rewrite Pos2Z.inj_succ. replace (Z.succ (Z.pos (digits2_pos p)) - 1)
      with (Z.succ (Z.pos (digits2_pos p) - 1)) by lia.
    rewrite !Z.pow_succ_r by lia. change (Z.pos p~0) with (2 * Z.pos p).
    generalize dependent (2 ^ (Z.pos (digits2_pos p) - 1)).
    generalize dependent (2 ^ Z.pos (digits2_pos p)). intros; lia.
  - simpl. lia.
Qed.

Lemma digits2_unique (p : positive) (k : Z) :
  2 ^ (k - 1) <= Z.pos p < 2 ^ k -> Z.pos (digits2_pos p) = k.
Proof.
  intros [Hl Hu]. pose proof (digits2_bounds p) as [Hl' Hu'].
  assert (0 < k).
  { destruct (Z.ltb_spec 0 k); [assumption|].
    exfalso. assert (2 ^ k <= 2 ^ 0) by (apply Z.pow_le_mono_r; lia).
    change (2 ^ 0) with 1 in *. lia. }
  destruct (Z.lt_trichotomy (Z.pos (digits2_pos p)) k) as [Hlt|[Heq|Hgt]];
    [exfalso | exact Heq | exfalso].
  - assert (2 ^ Z.pos (digits2_pos p) <= 2 ^ (k - 1))
      by (apply Z.pow_le_mono_r; lia). lia.
  - assert (2 ^ k <= 2 ^ (Z.pos (digits2_pos p) - 1))
      by (apply Z.pow_le_mono_r; lia). lia.
Qed.

Lemma iter_pos_nat {A} (f : A -> A) (p : positive) (x : A) :
  SpecFloat.iter_pos f p x = Nat.iter (Pos.to_nat p) f x.
Proof.
  revert x. induction p as [p IH|p IH|]; intros x.
  - change (SpecFloat.iter_pos f p~1 x)
      with (SpecFloat.iter_pos f p (SpecFloat.iter_pos f p (f x))).
    rewrite !IH. rewrite <- Nat.iter_succ_r, <- Nat.iter_add.
    f_equal. rewrite Pos2Nat.inj_xI. lia.
  - change (SpecFloat.iter_pos f p~0 x)
      with (SpecFloat.iter_pos f p (SpecFloat.iter_pos f p x)).
    rewrite !IH. rewrite <- Nat.iter_add.
    f_equal. rewrite Pos2Nat.inj_xO. lia.
  - reflexivity.
Qed.

Lemma shr_1_m mrs : 0 <= shr_m mrs -> shr_m (shr_1 mrs) = shr_m mrs / 2.
Proof.
  destruct mrs as [m r s]. simpl. destruct m as [|[p|p|]|p]; intros H.
  - reflexivity.
  - simpl. change (Z.pos p~1) with (2 * Z.pos p + 1).
    apply Z.div_unique with 1; lia.
  - simpl. change (Z.pos p~0) with (2 * Z.pos p).
    apply Z.div_unique with 0; lia.
  - reflexivity.
  - lia.
Qed.

Lemma shr_1_r mrs : 0 <= shr_m mrs -> shr_r (shr_1 mrs) = Z.odd (shr_m mrs).
Proof.
  destruct mrs as [m r s]. simpl. destruct m as [|[p|p|]|p]; intros H; try lia; reflexivity.
Qed.

Lemma iter_shr_m (k : nat) mrs :
  0 <= shr_m mrs -> shr_m (Nat.iter k shr_1 mrs) = shr_m mrs / 2 ^ Z.of_nat k.
Proof.
  intros H. induction k as [|k IH].
  - simpl. rewrite Z.div_1_r. reflexivity.
  - rewrite Nat.iter_succ. rewrite shr_1_m.
    + rewrite IH. rewrite Nat2Z.inj_succ, Z.pow_succ_r by lia.
      rewrite Z.div_div by lia. f_equal. lia.
    + rewrite IH. apply Z.div_pos; lia.
Qed.

Lemma iter_shr_r (k : nat) mrs :
  0 <= shr_m mrs ->
  shr_r (Nat.iter (S k) shr_1 mrs) = Z.odd (shr_m mrs / 2 ^ Z.of_nat k).
Proof.
  intros H. rewrite Nat.iter_succ. rewrite shr_1_r.
  - rewrite iter_shr_m by assumption. reflexivity.
  - rewrite iter_shr_m by assumption. apply Z.div_pos; lia.
Qed.


Lemma fexp_normal x : -1021 <= x -> fexp 53 1024 x = x - 53.
Proof. intros H. unfold fexp, emin. lia. Qed.

(** A mantissa of 53 digits is kept as it is. *)
Lemma round_aux_exact (m : positive) (e : Z) :
  Z.pos (digits2_pos m) = 53 -> -1074 <= e <= 971 ->
  binary_round_aux 53 1024 false (Z.pos m) e loc_Exact = S754_finite false m e.
Proof.
  intros Hd He. unfold binary_round_aux, shr_fexp. simpl Zdigits2. rewrite Hd.
  rewrite fexp_normal by lia. replace (53 + e - 53 - e) with 0 by lia.
  simpl. rewrite Hd. rewrite fexp_normal by lia.
  replace (53 + e - 53 - e) with 0 by lia. simpl.
  destruct (Z.leb_spec e (1024 - 53)); [reflexivity|lia].
Qed.

Lemma round_nearest_even_cases q r s :
  round_nearest_even q (loc_of_shr_record (Build_shr_record q r s)) = q
  \/ (r = true
      /\ round_nearest_even q (loc_of_shr_record (Build_shr_record q r s)) = q + 1).
Proof.
  destruct r, s; simpl; auto. destruct (Z.even q); auto.
Qed.

(** Rounding by half: when the bit below the cut is set, the quotient plus
    one is within half a unit of the number. *)
Lemma round_up_bound m sh :
  0 <= m -> 0 < sh -> Z.odd (m / 2 ^ (sh - 1)) = true ->
  (m / 2 ^ sh + 1) * 2 ^ sh <= m + 2 ^ (sh - 1).
Proof.
  intros Hm Hsh Hodd.
  assert (Hp : 2 ^ sh = 2 ^ (sh - 1) * 2).
  { replace sh with (Z.succ (sh - 1)) at 1 by lia. rewrite Z.pow_succ_r by lia. lia. }
  assert (Hh : 0 < 2 ^ (sh - 1)) by (apply Z.pow_pos_nonneg; lia).
  rewrite Hp. rewrite <- Z.div_div by lia.
  set (h := 2 ^ (sh - 1)) in *. set (a := m / h) in *.
  pose proof (Z.div_mod m h ltac:(lia)) as Hdm. fold a in Hdm.
  pose proof (Z.mod_pos_bound m h Hh) as Hb.
  apply Z.odd_spec in Hodd as [k Hk].
  assert (Ha : a / 2 = k) by (symmetry; apply Z.div_unique with 1; lia).
  rewrite Ha. nia.
Qed.

(** The second normalisation of [binary_round_aux]: a mantissa that
    rounding has carried to 2^53 is halved. *)
Lemma renormalize q' e1 :
  2 ^ 52 <= q' <= 2 ^ 53 -> -1074 <= e1 < 971 ->
  exists m' e',
    (let '(mrs, e2) := shr_fexp 53 1024 q' e1 loc_Exact in
     match shr_m mrs with
     | Z0 => S754_zero false
     | Z.pos m => if e2 <=? 1024 - 53 then S754_finite false m e2
                  else S754_infinity false
     | Z.neg _ => S754_nan
     end) = S754_finite false m' e'
    /\ e1 <= e' <= e1 + 1
    /\ Z.pos m' * 2 ^ (e' - e1) = q'.
Proof.
  change (2 ^ 52) with 4503599627370496. change (2 ^ 53) with 9007199254740992.
  intros [Hl Hu] He.
  destruct q' as [|pq|pq]; [lia| |lia].
  destruct (Z.eq_dec (Z.pos pq) 9007199254740992) as [Heq|Hne].
  - injection Heq as ->. exists (4503599627370496)%positive, (e1 + 1).
    unfold shr_fexp.
    replace (Zdigits2 9007199254740992) with 54 by (vm_compute; reflexivity).
    rewrite fexp_normal by lia.
    replace (54 + e1 - 53 - e1) with 1 by lia. simpl.
    destruct (Z.leb_spec (e1 + 1) (1024 - 53)); [|lia].
    split; [reflexivity|]. split; [lia|].
    replace (e1 + 1 - e1) with 1 by lia. reflexivity.
  - assert (Hd : Z.pos (digits2_pos pq) = 53).
    { apply digits2_unique. change (2 ^ (53 - 1)) with 4503599627370496.
      change (2 ^ 53) with 9007199254740992. lia. }
    exists pq, e1. unfold shr_fexp. simpl Zdigits2. rewrite Hd.
    rewrite fexp_normal by lia. replace (53 + e1 - 53 - e1) with 0 by lia. simpl.
    destruct (Z.leb_spec e1 (1024 - 53)); [|lia].
    split; [reflexivity|]. split; [lia|].
    rewrite Z.sub_diag. simpl. lia.
Qed.

(** A mantissa of more than 53 digits is cut to 53 and rounded to
    nearest. *)
Lemma round_aux_shift (m : positive) (e : Z) :
  let d := Z.pos (digits2_pos m) in
  53 < d -> -1074 <= d + e - 53 -> d + e - 53 < 971 ->
  exists m' e' q',
    binary_round_aux 53 1024 false (Z.pos m) e loc_Exact = S754_finite false m' e'
    /\ e + (d - 53) <= e' <= e + (d - 53) + 1
    /\ Z.pos m' * 2 ^ (e' - (e + (d - 53))) = q'
    /\ Z.pos m / 2 ^ (d - 53) <= q'
    /\ q' * 2 ^ (d - 53) <= Z.pos m + 2 ^ (d - 53 - 1).
Proof.
  intros d Hd Hlo Hhi.
  pose proof (digits2_bounds m) as [Hml Hmu]. fold d in Hml, Hmu.
  destruct (d - 53) as [|psh|psh] eqn:Hsh; try lia.
  assert (Hpow : 2 ^ d = 2 ^ 53 * 2 ^ Z.pos psh).
  { rewrite <- Z.pow_add_r by lia. f_equal. lia. }
  assert (Hpow' : 2 ^ (d - 1) = 2 ^ 52 * 2 ^ Z.pos psh).
  { rewrite <- Z.pow_add_r by lia. f_equal. lia. }
  assert (HS : 0 < 2 ^ Z.pos psh) by (apply Z.pow_pos_nonneg; lia).
  set (q := Z.pos m / 2 ^ Z.pos psh).
  assert (Hq : 2 ^ 52 <= q < 2 ^ 53).
  { unfold q. split.
    - apply Z.div_le_lower_bound; lia.
    - apply Z.div_lt_upper_bound; lia. }
  unfold binary_round_aux.
  assert (Hfst : shr_fexp 53 1024 (Z.pos m) e loc_Exact
                 = (Nat.iter (Pos.to_nat psh) shr_1
                      (Build_shr_record (Z.pos m) false false), e + Z.pos psh)).
  { unfold shr_fexp. simpl Zdigits2. fold d. rewrite fexp_normal by lia.
    replace (d + e - 53 - e) with (Z.pos psh) by lia.
    simpl. rewrite iter_pos_nat. reflexivity. }
  rewrite Hfst.
  destruct (Nat.iter (Pos.to_nat psh) shr_1 _) as [q0 r s] eqn:Hit.
  assert (Hq0 : q0 = q).
  { change q0 with (shr_m (Build_shr_record q0 r s)). rewrite <- Hit.
    rewrite iter_shr_m by (simpl; lia). simpl. rewrite positive_nat_Z. reflexivity. }
  assert (Hr : r = Z.odd (Z.pos m / 2 ^ (Z.pos psh - 1))).
  { change r with (shr_r (Build_shr_record q0 r s)). rewrite <- Hit.
    destruct (Pos2Nat.is_succ psh) as [k Hk]. rewrite Hk.
    rewrite iter_shr_r by (simpl; lia). simpl. do 3 f_equal. lia. }
  subst q0. simpl shr_m.
  set (q' := round_nearest_even q (loc_of_shr_record (Build_shr_record q r s))).
  assert (Hq' : q <= q' /\ q' * 2 ^ Z.pos psh <= Z.pos m + 2 ^ (Z.pos psh - 1)
                /\ q' <= 2 ^ 53).
  { assert (Hh : 0 <= 2 ^ (Z.pos psh - 1)) by (apply Z.pow_nonneg; lia).
    pose proof (Z.mul_div_le (Z.pos m) (2 ^ Z.pos psh) HS) as Hle.
    fold q in Hle.
    destruct (round_nearest_even_cases q r s) as [Hc|[Hrt Hc]]; fold q' in Hc;
      rewrite Hc.
    - split; [lia|]. split; [lia|lia].
    - split; [lia|]. split; [|lia].
      unfold q. apply round_up_bound; [lia | lia | congruence]. }
  destruct Hq' as (Hq1 & Hq2 & Hq3).
  destruct (renormalize q' (e + Z.pos psh)) as (m' & e' & Hfin & He' & Hv);
    [lia | lia |].
  exists m', e', q'. rewrite Hfin. repeat split; try lia; assumption.
Qed.


Lemma iter_xO_Z (p k : positive) : Z.pos (Pos.iter xO p k) = Z.pos p * 2 ^ Z.pos k.
Proof.
  change (Pos.iter xO p k) with (shift_pos k p).
  rewrite shift_pos_correct. rewrite Zpower_pos_nat, Zpower_nat_Z, positive_nat_Z. lia.
Qed.

(** The double of a positive integer below 2^53: the integer itself,
    its mantissa shifted to 53 digits. *)
Lemma of_int_small (p : positive) :
  let d := Z.pos (digits2_pos p) in
  d < 53 ->
  exists mz,
    Float.of_int (Z.pos p) = Ok (S754_finite false mz (d - 53))
    /\ Z.pos mz = Z.pos p * 2 ^ (53 - d)
    /\ Z.pos (digits2_pos mz) = 53.
Proof.
  intros d Hd. unfold Float.of_int, Float.prec, Float.emax.
  unfold binary_normalize, binary_round. rewrite Z.add_0_r. fold d.
  assert (0 < d) by (unfold d; lia).
  rewrite fexp_normal by lia. unfold shl_align. rewrite Z.sub_0_r.
  destruct (d - 53) as [|k|k] eqn:Hk; try lia.
  set (mz := Pos.iter xO p k).
  assert (Hmz : Z.pos mz = Z.pos p * 2 ^ (53 - d)).
  { unfold mz. rewrite iter_xO_Z. do 2 f_equal. lia. }
  assert (Hdig : Z.pos (digits2_pos mz) = 53).
  { apply digits2_unique. rewrite Hmz.
    pose proof (digits2_bounds p) as [Hl Hu]. fold d in Hl, Hu.
    assert (HA : 0 < 2 ^ (53 - d)) by (apply Z.pow_pos_nonneg; lia).
    replace (2 ^ (53 - 1)) with (2 ^ (d - 1) * 2 ^ (53 - d))
      by (rewrite <- Z.pow_add_r by lia; f_equal; lia).
    replace (2 ^ 53) with (2 ^ d * 2 ^ (53 - d))
      by (rewrite <- Z.pow_add_r by lia; f_equal; lia).
    split; [apply Z.mul_le_mono_nonneg_r; lia | apply Z.mul_lt_mono_pos_r; lia]. }
  exists mz. rewrite round_aux_exact by (auto; lia).
  replace (Z.neg k) with (d - 53) by lia. auto.
Qed.

(** Below 2^48 the amount is the exact floor of 21/20 of the total. *)
Lemma final_amount_exact t :
  0 <= t < 2 ^ 48 -> final_amount t = Ok (21 * t / 20).
Proof.
  intros [Ht0 Ht]. destruct t as [|p|p]; [reflexivity| |lia].
  pose proof (digits2_bounds p) as [Hpl Hpu].
  set (d := Z.pos (digits2_pos p)) in *.
  assert (Hd0 : 0 < d) by (unfold d; lia).
  assert (Hd : d <= 48).
  { destruct (Z.leb_spec d 48); [assumption|].
    assert (2 ^ 48 <= 2 ^ (d - 1)) by (apply Z.pow_le_mono_r; lia). lia. }
  destruct (of_int_small p) as (mz & Hof & Hmz & Hdig); [fold d; lia|]. fold d in Hof, Hmz.
  unfold final_amount. rewrite Hof. unfold Float.mul, Float.lit_1_05, Float.prec, Float.emax.
  unfold SFmul. simpl xorb.
  set (M := 4728779608739021%positive).
  set (A := 2 ^ (53 - d)) in *.
  assert (HA : 32 <= A).
  { unfold A. change 32 with (2 ^ 5). apply Z.pow_le_mono_r; lia. }
  pose proof (digits2_bounds mz) as [Hzl Hzu]. rewrite Hdig in Hzl, Hzu.
  change (2 ^ (53 - 1)) with 4503599627370496 in Hzl.
  change (2 ^ 53) with 9007199254740992 in Hzu.
  (* the product of the mantissas has 105 or 106 digits *)
  set (P := (mz * M)%positive).
  assert (HP : Z.pos P = Z.pos mz * 4728779608739021) by reflexivity.
  pose proof (digits2_bounds P) as [HPl HPu].
  set (D := Z.pos (digits2_pos P)) in *.
  assert (HD : 105 <= D <= 106).
  { split.
    - destruct (Z.leb_spec 105 D); [assumption|].
      assert (2 ^ D <= 2 ^ 104) by (apply Z.pow_le_mono_r; lia).
      change (2 ^ 104) with 20282409603651670423947251286016 in *. nia.
    - destruct (Z.leb_spec D 106); [assumption|].
      assert (2 ^ 106 <= 2 ^ (D - 1)) by (apply Z.pow_le_mono_r; lia).
      change (2 ^ 106) with 81129638414606681695789005144064 in *. nia. }
  destruct (round_aux_shift P (d - 53 + -52)) as (m' & e' & q' & Hr & He' & Hv & Hq1 & Hq2);
    fold D; [lia | lia | lia |].
  fold D in Hr, He', Hv, Hq1, Hq2. rewrite Hr. unfold Float.to_int.
  destruct (Z.leb_spec 0 e') as [Hpos|Hneg]; [lia|].
  f_equal.
  (* powers of two as unknowns *)
  set (sh := D - 53) in *.
  set (j := e' - (d - 53 + -52 + sh)) in *.
  assert (HS : 0 < 2 ^ sh) by (apply Z.pow_pos_nonneg; lia).
  assert (HSu : 2 ^ sh <= 2 ^ 53) by (apply Z.pow_le_mono_r; lia).
  assert (HSh : 2 ^ sh = 2 * 2 ^ (sh - 1)).
  { replace sh with (Z.succ (sh - 1)) at 1 by lia. apply Z.pow_succ_r. lia. }
  assert (HJ : 0 < 2 ^ j) by (apply Z.pow_pos_nonneg; lia).
  assert (HE : 0 < 2 ^ (- e')) by (apply Z.pow_pos_nonneg; lia).
  assert (HK : 2 ^ (- e') * 2 ^ j * 2 ^ sh = A * 2 ^ 52).
  { unfold A. rewrite <- !Z.pow_add_r by lia. f_equal. lia. }
  change (2 ^ 53) with 9007199254740992 in HSu.
  change (2 ^ 52) with 4503599627370496 in HK.
  remember (2 ^ (sh - 1)) as h eqn:Eh. clear Eh.
  remember (2 ^ sh) as W eqn:EW. clear EW.
  remember (2 ^ j) as J eqn:EJ. clear EJ.
  remember (2 ^ (- e')) as E eqn:EE. clear EE.
  set (T := 21 * Z.pos p / 20).
  assert (HT : 20 * T <= 21 * Z.pos p < 20 * T + 20).
  { unfold T. pose proof (Z.div_mod (21 * Z.pos p) 20 ltac:(lia)).
    pose proof (Z.mod_pos_bound (21 * Z.pos p) 20 ltac:(lia)). lia. }
  assert (HA0 : 0 < A) by lia.
  assert (HTA1 : 20 * (T * A) <= 21 * Z.pos mz).
  { rewrite Hmz. replace (20 * (T * A)) with (20 * T * A) by ring.
    replace (21 * (Z.pos p * A)) with (21 * Z.pos p * A) by ring.
    apply Z.mul_le_mono_nonneg_r; lia. }
  assert (HTA2 : 21 * Z.pos mz + A <= 20 * (T * A) + 20 * A).
  { rewrite Hmz. replace (21 * (Z.pos p * A) + A) with ((21 * Z.pos p + 1) * A) by ring.
    replace (20 * (T * A) + 20 * A) with ((20 * T + 20) * A) by ring.
    apply Z.mul_le_mono_nonneg_r; lia. }
  assert (L1 : (T * E * J) * W <= Z.pos P).
  { replace (T * E * J * W) with (T * (E * J * W)) by ring. rewrite HK.
    replace (T * (A * 4503599627370496)) with (T * A * 4503599627370496) by ring.
    lia. }
  assert (U1 : Z.pos P + h < ((T + 1) * E * J) * W).
  { replace ((T + 1) * E * J * W) with ((T + 1) * (E * J * W)) by ring. rewrite HK.
    replace ((T + 1) * (A * 4503599627370496))
      with ((T * A + A) * 4503599627370496) by ring.
    lia. }
  assert (L2 : T * E * J <= q').
  { etransitivity; [|exact Hq1]. apply Z.div_le_lower_bound; lia. }
  assert (L3 : T * E <= Z.pos m').
  { apply (Z.mul_le_mono_pos_r _ _ J HJ). rewrite Hv. exact L2. }
  assert (U3 : Z.pos m' < (T + 1) * E).
  { apply (Z.mul_lt_mono_pos_r (J * W)); [apply Z.mul_pos_pos; lia|].
    replace (Z.pos m' * (J * W)) with (Z.pos m' * J * W) by ring. rewrite Hv.
    replace ((T + 1) * E * (J * W)) with ((T + 1) * E * J * W) by ring. lia. }
  symmetry. apply Z.div_unique_pos with (Z.pos m' - T * E); lia.
Qed.

End FloatFacts.

(** ** Checkout and order creation *)

Section Checkout.

Implicit Types (cfg : config) (gw : gateway) (e : env) (d : db).

(** [create_order]'s block has two storage operations, connecting and
    reading the cart; the gateway is called after both. *)
Lemma create_order_block_run cfg gw e body d fault :
  with_db (create_order_block cfg gw e body) d fault
  = if fails_within 2 fault then (Raise storage_failure, d, [])
    else
      match cart d with
      | [] => (Ok (Jsonify 400 [("error", JStr "Cart is empty")]), d, [])
      | _ :: _ =>
          match final_amount (cart_sum (cart d)) with
          | Raise x => (Raise x, d, [])
          | Ok amount =>
              match request_json body with
              | Raise x => (Raise x, d, [])
              | Ok rq =>
                  let data := make_order_data e rq (amount * 100) (cart d) in
                  match order_create gw data with
                  | Ok order_id =>
                      (Ok (order_created cfg order_id (amount * 100)), d,
                       [GatewayRequest data])
                  | Raise x => (Raise x, d, [GatewayRequest data])
                  end
              end
          end
      end.
Proof.
  unfold with_db, create_order_block, bind, connect, query, storage_op, bind,
    select_cart, lift, ret, raise, gateway_call.
  destruct fault as [[|[|n]]|]; simpl; try reflexivity.
  - destruct (cart d) as [|i items]; [reflexivity|].
    destruct (final_amount _) as [amount|x]; [|reflexivity].
    destruct (request_json body) as [rq|x]; [|reflexivity]. simpl.
    destruct (order_create gw _); reflexivity.
  - destruct (cart d) as [|i items]; [reflexivity|].
    destruct (final_amount _) as [amount|x]; [|reflexivity].
    destruct (request_json body) as [rq|x]; [|reflexivity]. simpl.
    destruct (order_create gw _); reflexivity.
Qed.

(** A gateway request of [create_order] carries the amount of the cart. *)
Lemma create_order_request cfg gw e body d rq :
  gateway_requests (create_order cfg gw e body d) = [rq] ->
  cart d <> []
  /\ exists amount, final_amount (cart_sum (cart d)) = Ok amount
                    /\ od_amount rq = amount * 100.
Proof.
  unfold create_order. destruct (razorpay_client cfg); [|discriminate].
  rewrite create_order_block_run.
  destruct (fails_within 2 (storage_fault e)); [discriminate|].
  destruct (cart d) as [|i items]; [discriminate|].
  destruct (final_amount _) as [amount|x]; [|discriminate].
  destruct (request_json body) as [r|x]; [|discriminate]. simpl.
  destruct (order_create gw _); simpl; intros [= <-];
    (split; [discriminate | exists amount; split; reflexivity]).
Qed.

(** An order row written by [payment_success] carries the amount of the
    cart. *)
Lemma payment_success_row cfg gw e body d row :
  orders (db_after (payment_success cfg gw e body d)) = orders d ++ [row] ->
  final_amount (cart_total (cart d)) = Ok (Orders.total row).
Proof.
  destruct (payment_success_cases cfg gw e body d)
    as [(_ & _ & amount & Hf & _ & _ & ->) | (-> & _)]; simpl.
  - intros H. apply app_inj_tail in H as [_ <-]. exact Hf.
  - intros H. apply (f_equal length) in H. rewrite length_app in H.
    simpl in H. lia.
Qed.

Lemma checkout_empty cfg e d :
  cart d = [] ->
  response_of (checkout cfg e d) = Redirect EpHome
  /\ gateway_requests (checkout cfg e d) = []
  /\ db_after (checkout cfg e d) = d.
Proof.
  intros Hc. unfold checkout.
  destruct (with_db_cases (query select_cart) d (storage_fault e))
    as [(rqs & ->) | ->]; [apply fault_safe_query | simpl; auto |].
  change (with_db (query select_cart) d None) with (Ok (cart d), d, @nil effect).
  rewrite Hc. simpl. auto.
Qed.

Lemma create_order_empty cfg gw e body d :
  cart d = [] ->
  gateway_requests (create_order cfg gw e body d) = []
  /\ db_after (create_order cfg gw e body d) = d
  /\ (is_Some (razorpay_client cfg) -> fails_within 2 (storage_fault e) = false ->
      response_of (create_order cfg gw e body d)
      = Jsonify 400 [("error", JStr "Cart is empty")])
  /\ (razorpay_client cfg = None \/ fails_within 2 (storage_fault e) = true ->
      status_code (response_of (create_order cfg gw e body d)) = 500).
Proof.
  intros Hc. unfold create_order.
  destruct (razorpay_client cfg) as [client|].
  - rewrite create_order_block_run, Hc.
    destruct (fails_within 2 (storage_fault e)); simpl.
    + repeat split; auto. discriminate.
    + repeat split; auto. intros [|]; discriminate.
  - simpl. repeat split; auto. intros [? H]. discriminate.
Qed.

End Checkout.

(** ** Order numbers *)

Section OrderNumber.

Lemma pretty_N_go_nonempty (x : N) (s : string) :
  s <> "" -> pretty_N_go x s <> "".
Proof.
  revert s. induction (N.lt_wf_0 x) as [x _ IH]. intros s Hs.
  destruct (N.eq_dec x 0%N) as [->|Hx].
  - rewrite pretty_N_go_0. exact Hs.
  - rewrite pretty_N_go_step by lia. apply IH; [|discriminate].
    apply N.div_lt; lia.
Qed.

Lemma str_nonempty (z : Z) : Py.str z <> "".
Proof.
  unfold Py.str, pretty, pretty_Z.
  destruct z as [|p|p]; [discriminate | | discriminate].
  unfold pretty, pretty_positive, pretty, pretty_N.
  destruct (decide (N.pos p = 0%N)) as [|_]; [discriminate|].
  rewrite pretty_N_go_step by lia. apply pretty_N_go_nonempty. discriminate.
Qed.

Lemma generate_order_number_nonempty e : generate_order_number e <> "".
Proof.
  unfold generate_order_number.
  pose proof (str_nonempty (time_time e mod 1000)) as H.
  destruct (Py.str (time_time e mod 1000)); [contradiction|discriminate].
Qed.

End OrderNumber.

(** ** The payment callback *)

Section Callback.

Implicit Types (cfg : config) (gw : gateway) (e : env) (d : db).

(** The commit, when nothing stands in its way. *)
Lemma payment_commits cfg gw e body d amount :
  signature_verifies cfg gw body ->
  storage_fault e = None ->
  generate_order_number e ∉ Orders.order_number <$> orders d ->
  final_amount (cart_total (cart d)) = Ok amount ->
  fits_sqlite_int amount = true ->
  payment_success cfg gw e body d
  = respond (success_response e)
      [("success", "Payment successful! Order #" +:+ generate_order_number e
                   +:+ ". Amount: ₹" +:+ Py.str amount)]
      (committed_db d e amount).
Proof.
  intros ([client Hc] & params & -> & Hv) He Hfresh Hf Hfit.
  unfold payment_success. simpl. rewrite Hc, Hv, He.
  rewrite commit_order_block_healthy, Hf.
  unfold insert_order. rewrite bind_int_fits by assumption.
  destruct (decide (generate_order_number e ∈ Orders.order_number <$> orders d));
    [contradiction|].
  reflexivity.
Qed.

Lemma payment_rejected cfg gw e body d :
  signature_mismatch cfg gw body ->
  payment_success cfg gw e body d
  = respond
      (Jsonify 400 (payment_error
         "Payment verification failed. Please contact support." EpCheckout))
      [("error", "Payment verification failed. Please contact support.")] d.
Proof.
  intros ([client Hc] & params & msg & -> & Hv).
  unfold payment_success. simpl. rewrite Hc, Hv. reflexivity.
Qed.

Lemma payment_unconfigured cfg gw e body d :
  razorpay_client cfg = None ->
  db_after (payment_success cfg gw e body d) = d
  /\ status_code (response_of (payment_success cfg gw e body d)) = 500
  /\ (is_Some body ->
      payment_success cfg gw e body d
      = respond (Jsonify 500 (payment_error "Payment gateway not configured." EpHome))
          [] d).
Proof.
  intros Hc. unfold payment_success.
  destruct body as [params|]; simpl.
  - rewrite Hc. simpl. auto.
  - repeat split; auto. intros [? H]. discriminate.
Qed.

End Callback.

(** * The claims *)

(** C1, as amended. A [payment_success] call whose signature verifies, on
    healthy storage, whose fresh order number is not yet in the ledger and
    whose amount [int(total * 1.05)] fits SQLite's INTEGER, leaves the cart
    empty, appends exactly one order row, with status "completed" and that
    amount as its total, and answers with the order number, which is not
    empty. For totals below 2^48 the amount is the floor of 21/20 of the
    cart's total. *)
Theorem verified_payment_commits cfg gw e body d amount :
  signature_verifies cfg gw body ->
  storage_fault e = None ->
  generate_order_number e ∉ Orders.order_number <$> orders d ->
  final_amount (cart_total (cart d)) = Ok amount ->
  fits_sqlite_int amount = true ->
  let o := payment_success cfg gw e body d in
  cart (db_after o) = []
  /\ orders (db_after o) = orders d ++ [completed_order d e amount]
  /\ Orders.status (completed_order d e amount) = "completed"
  /\ Orders.total (completed_order d e amount) = amount
  /\ (0 <= cart_total (cart d) < 2 ^ 48 -> amount = 21 * cart_total (cart d) / 20)
  /\ response_of o = success_response e
  /\ generate_order_number e <> "".
Proof.
  intros Hv He Hfresh Hf Hfit o. subst o.
  rewrite (payment_commits cfg gw e body d amount) by assumption. simpl.
  repeat split; auto.
  - intros Ht. apply final_amount_exact in Ht. congruence.
  - apply generate_order_number_nonempty.
Qed.

(** C2. The order insert and the cart clear of [payment_success] are one
    transition: every call, whatever the request, the gateway's answer and
    the storage fault, either commits both (the ledger gains the completed
    order, the cart is empty, the answer is the success response) or leaves
    the stored state exactly as it was and answers with an error (400 or
    500); so when no order row was written the cart was not cleared. *)
Theorem payment_commit_atomic cfg gw e body d :
  let o := payment_success cfg gw e body d in
  ((exists amount, db_after o = committed_db d e amount)
   /\ response_of o = success_response e
   \/ db_after o = d
      /\ exists code msg target,
           (code = 400 \/ code = 500)
           /\ response_of o = Jsonify code (payment_error msg target))
  /\ (orders (db_after o) = orders d -> db_after o = d).
Proof.
  intros o. subst o.
  destruct (payment_success_cases cfg gw e body d)
    as [(_ & Hr & amount & _ & _ & _ & Hd) | (Hd & Hr)].
  - split; [left; split; [exists amount; exact Hd | exact Hr]|].
    rewrite Hd. simpl. intros H. apply (f_equal length) in H.
    rewrite length_app in H. simpl in H. lia.
  - split; [right; split; assumption | intros _; exact Hd].
Qed.

(** C3. A [payment_success] call whose signature the gateway rejects leaves
    the cart and the ledger as they were, answers 400 with the
    verification-failed error and the redirect to checkout, and calls the
    gateway for nothing else. *)
Theorem rejected_payment_changes_nothing cfg gw e body d :
  signature_mismatch cfg gw body ->
  let o := payment_success cfg gw e body d in
  db_after o = d
  /\ response_of o
     = Jsonify 400 [("success", JBool false);
                    ("error", JStr "Payment verification failed. Please contact support.");
                    ("redirect", JStr "/checkout")]
  /\ gateway_requests o = [].
Proof.
  intros H o. subst o. rewrite payment_rejected by assumption. auto.
Qed.

(** C4, as amended. For every total from 0 up to 2^48 (excluded) the final
    amount [int(total * 1.05)] is the floor of 21/20 of the total; for 1000
    it is 1050; and the amount [create_order] sends to the gateway (in
    paise) is 100 times the total [payment_success] stores, whenever both
    read the same cart. *)
Theorem final_amount_spec :
  (forall t, 0 <= t < 2 ^ 48 -> final_amount t = Ok (21 * t / 20))
  /\ final_amount 1000 = Ok 1050
  /\ (forall cfg1 gw1 e1 body1 d1 cfg2 gw2 e2 body2 d2 rq row,
        cart d1 = cart d2 ->
        gateway_requests (create_order cfg1 gw1 e1 body1 d1) = [rq] ->
        orders (db_after (payment_success cfg2 gw2 e2 body2 d2)) = orders d2 ++ [row] ->
        od_amount rq = Orders.total row * 100).
Proof.
  split; [exact final_amount_exact|]. split; [reflexivity|].
  intros cfg1 gw1 e1 body1 d1 cfg2 gw2 e2 body2 d2 rq row Hc Hrq Hrow.
  apply create_order_request in Hrq as (Hne & amount & Hf & ->).
  apply payment_success_row in Hrow. rewrite <- Hc in Hrow.
  unfold cart_total in Hrow. destruct (cart d1) as [|i items]; [contradiction|].
  congruence.
Qed.

(** C5, as amended. With an empty cart, [checkout] redirects to the cart
    page, and neither it nor [create_order] calls the gateway or changes the
    stored state; [create_order] answers 400 "Cart is empty" when the gateway
    client is configured and the cart can be read, and 500 when the client is
    not configured or storage fails. *)
Theorem empty_cart_never_reaches_gateway cfg gw e body d :
  cart d = [] ->
  (response_of (checkout cfg e d) = Redirect EpHome
   /\ gateway_requests (checkout cfg e d) = []
   /\ db_after (checkout cfg e d) = d)
  /\ gateway_requests (create_order cfg gw e body d) = []
  /\ db_after (create_order cfg gw e body d) = d
  /\ (is_Some (razorpay_client cfg) -> fails_within 2 (storage_fault e) = false ->
      response_of (create_order cfg gw e body d)
      = Jsonify 400 [("error", JStr "Cart is empty")])
  /\ (razorpay_client cfg = None \/ fails_within 2 (storage_fault e) = true ->
      status_code (response_of (create_order cfg gw e body d)) = 500).
Proof.
  intros Hc. split; [apply checkout_empty, Hc | apply create_order_empty, Hc].
Qed.

(** C6, as amended. While the gateway client is not configured,
    [create_order] answers 500 with "Razorpay not configured" and
    [payment_success] answers 500, with "Payment gateway not configured."
    when the request body is a JSON object; neither calls the gateway or
    changes the stored state. *)
Theorem unconfigured_gateway_refused cfg gw e order_body payment_body d :
  razorpay_client cfg = None ->
  create_order cfg gw e order_body d
  = respond (Jsonify 500 [("error", JStr "Razorpay not configured")]) [] d
  /\ db_after (payment_success cfg gw e payment_body d) = d
  /\ status_code (response_of (payment_success cfg gw e payment_body d)) = 500
  /\ (is_Some payment_body ->
      payment_success cfg gw e payment_body d
      = respond (Jsonify 500 (payment_error "Payment gateway not configured." EpHome))
          [] d).
Proof.
  intros Hc. split.
  - unfold create_order. rewrite Hc. reflexivity.
  - apply payment_unconfigured, Hc.
Qed.

(** C8, as amended. For every sequence of scans of one barcode, each on
    healthy storage and of a product the catalogue knows with a price that
    fits SQLite's INTEGER, starting from a cart without that barcode: if the
    sum of the requested quantities, each read as 1 when absent, unreadable
    or below 1, is at most 2^63 - 1, the cart ends with that sum as the
    quantity of the barcode. *)
Theorem scans_add_up b calls d :
  Forall (storable_scan_of b) calls ->
  requested_sum calls <= sqlite_int_max ->
  b ∉ Cart.barcode <$> cart d ->
  quantity_of b (run_scans calls d) = requested_sum calls.
Proof.
  intros Hall Hsum Hb. rewrite (run_scans_adds b calls d) by assumption.
  apply select_qty_None in Hb. unfold quantity_of. rewrite Hb. simpl. lia.
Qed.

(** C10, as amended. [payment_success] does not ask for a non-empty cart:
    with an empty cart, a call whose signature verifies, on healthy storage
    and with an order number not yet in the ledger, answers with the success
    response and appends an order row of total 0 and status "completed". *)
Theorem empty_cart_payment_commits cfg gw e body d :
  signature_verifies cfg gw body ->
  storage_fault e = None ->
  generate_order_number e ∉ Orders.order_number <$> orders d ->
  cart d = [] ->
  let o := payment_success cfg gw e body d in
  response_of o = success_response e
  /\ orders (db_after o) = orders d ++ [completed_order d e 0]
  /\ Orders.total (completed_order d e 0) = 0
  /\ Orders.status (completed_order d e 0) = "completed"
  /\ cart (db_after o) = [].
Proof.
  intros Hv He Hfresh Hc o. subst o.
  rewrite (payment_commits cfg gw e body d 0); auto.
  rewrite Hc. reflexivity.
Qed.

(** * The claims at concrete inputs *)

Section Inputs.

Lemma accepted_callback :
  signature_verifies keys_present accepting_gateway (Some callback).
Proof.
  split; [eexists; reflexivity|]. exists callback. split; reflexivity.
Qed.

Lemma rejected_callback :
  signature_mismatch keys_present rejecting_gateway (Some callback).
Proof.
  split; [eexists; reflexivity|]. do 2 eexists. split; reflexivity.
Qed.

Lemma two_apples_inv : cart_inv (cart two_apples).
Proof.
  split; simpl.
  - apply NoDup_singleton.
  - repeat constructor. simpl. lia.
Qed.

Lemma bullion_inv : cart_inv bullion.
Proof.
  split; simpl.
  - apply NoDup_singleton.
  - repeat constructor. simpl. lia.
Qed.

Lemma apple_scan qty : storable_scan_of "A1" (calm_env, scan "A1" qty).
Proof.
  split; [reflexivity|]. split; [reflexivity|]. split; [discriminate|].
  exists {| Product.name := "Apple"; Product.price := 50 |}.
  split; vm_compute; reflexivity.
Qed.

End Inputs.

(** The scenario of the specification: with [A1,Apple,50] in the catalogue,
    two scans of A1 give quantity 2 and total 100; one decrement gives
    quantity 1 and total 50; a second one removes the line. *)
Example scenario_scan_and_decrement :
  let d2 := run_scans [(calm_env, scan "A1" "1"); (calm_env, scan "A1" "1")] empty_db in
  let d1 := db_after (update calm_env "A1" "dec" d2) in
  let d0 := db_after (update calm_env "A1" "dec" d1) in
  (quantity_of "A1" d2 = 2 /\ cart_total (cart d2) = 100)
  /\ (quantity_of "A1" d1 = 1 /\ cart_total (cart d1) = 50)
  /\ (cart d0 = [] /\ cart_total (cart d0) = 0).
Proof. vm_compute. repeat split. Qed.

(** The order row of a verified payment holds the amount, not the cart's
    total: two apples at 50 are stored as 105. *)
Example order_total_is_the_final_amount :
  cart_total (cart two_apples) = 100
  /\ orders (db_after (payment_success keys_present accepting_gateway calm_env
                         (Some callback) two_apples))
     = [ {| Orders.id := 1; Orders.order_number := "1100"; Orders.total := 105;
            Orders.created_at := 1700000001; Orders.status := "completed" |} ].
Proof. vm_compute. split; reflexivity. Qed.

(** The inputs of the counterexamples can be reached through the handlers:
    a payment made at a time ending in 001 leaves order "1100" in the ledger,
    two scans put the apples back in the cart, and a catalogue line with a
    large price puts one such item in the cart. *)
Example ledger_1100_reached :
  let earlier :=
    {| products_file := apple_catalog; time_time := 1699999001;
       random_source := 0; storage_fault := None |} in
  let paid := db_after (payment_success keys_present accepting_gateway earlier
                          (Some callback) two_apples) in
  paid = ledger_1100 []
  /\ run_scans [(calm_env, scan "A1" "2")] paid = ledger_1100 (cart two_apples).
Proof. vm_compute. split; reflexivity. Qed.

Example bullion_reached :
  let e :=
    {| products_file := FileText "AU,Bullion,428382165980539";
       time_time := 1700000001; random_source := 0; storage_fault := None |} in
  cart (db_after (home e (scan "AU" "1") empty_db)) = bullion.
Proof. vm_compute. reflexivity. Qed.

(** C1, counterexample. The ledger already holds order number "1100" and the
    generator draws it again: the signature verifies, yet the insert is
    refused, the cart keeps its two apples and the call answers 500. *)
Lemma verified_commit_counterexample :
  ~ verified_commit_claim keys_present accepting_gateway calm_env (Some callback)
      (ledger_1100 (cart two_apples)).
Proof.
  intros H. destruct (H eq_refl accepted_callback) as [Hcart _].
  vm_compute in Hcart. discriminate.
Qed.

Lemma verified_payment_commits_witness :
  (signature_verifies keys_present accepting_gateway (Some callback)
   /\ storage_fault calm_env = None
   /\ (generate_order_number calm_env ∉ Orders.order_number <$> orders two_apples)
   /\ final_amount (cart_total (cart two_apples)) = Ok 105
   /\ fits_sqlite_int 105 = true)
  /\ cart (db_after (payment_success keys_present accepting_gateway calm_env
                       (Some callback) two_apples)) = []
  /\ orders (db_after (payment_success keys_present accepting_gateway calm_env
                         (Some callback) two_apples))
     = orders two_apples ++ [completed_order two_apples calm_env 105]
  /\ generate_order_number calm_env <> "".
Proof.
  assert (Hfresh : generate_order_number calm_env
                   ∉ Orders.order_number <$> orders two_apples)
    by apply not_elem_of_nil.
  split.
  { split; [apply accepted_callback|]. split; [reflexivity|].
    split; [exact Hfresh|]. split; reflexivity. }
  pose proof (verified_payment_commits keys_present accepting_gateway calm_env
                (Some callback) two_apples 105 accepted_callback eq_refl Hfresh
                eq_refl eq_refl) as H.
  simpl in H. tauto.
Defined.

Lemma rejected_payment_witness :
  signature_mismatch keys_present rejecting_gateway (Some callback)
  /\ db_after (payment_success keys_present rejecting_gateway calm_env
                 (Some callback) two_apples) = two_apples
  /\ status_code (response_of (payment_success keys_present rejecting_gateway
                                 calm_env (Some callback) two_apples)) = 400.
Proof.
  split; [apply rejected_callback|].
  destruct (rejected_payment_changes_nothing keys_present rejecting_gateway calm_env
              (Some callback) two_apples rejected_callback) as (Hd & Hr & _).
  split; [exact Hd|]. rewrite Hr. reflexivity.
Defined.

(** C4, counterexample. A cart holding one item priced 428382165980539: the
    floor of 21/20 of the total is 449801274279565, the product computed in
    binary64 truncates to 449801274279566. *)
Lemma amount_floor_counterexample : ~ amount_floor_claim bullion.
Proof.
  intros H. specialize (H bullion_inv).
  assert (Hp : Forall (fun r => 0 <= Cart.price r) bullion)
    by (repeat constructor; simpl; lia).
  specialize (H Hp). vm_compute in H. discriminate.
Qed.

Example bullion_amounts :
  final_amount (cart_total bullion) = Ok 449801274279566
  /\ 21 * cart_total bullion / 20 = 449801274279565.
Proof. vm_compute. split; reflexivity. Qed.

Lemma final_amount_spec_witness :
  (0 <= 123456 < 2 ^ 48 /\ final_amount 123456 = Ok 129628)
  /\ exists rq row,
       gateway_requests (create_order keys_present accepting_gateway calm_env
                           (Some anonymous_order) two_apples) = [rq]
       /\ orders (db_after (payment_success keys_present accepting_gateway calm_env
                              (Some callback) two_apples))
          = orders two_apples ++ [row]
       /\ od_amount rq = Orders.total row * 100.
Proof.
  destruct final_amount_spec as (Hfloor & _ & Hagree).
  split.
  - split; [lia|]. apply (Hfloor 123456). lia.
  - exists (make_order_data calm_env anonymous_order 10500 (cart two_apples)),
      (completed_order two_apples calm_env 105).
    assert (H1 : gateway_requests (create_order keys_present accepting_gateway calm_env
                                     (Some anonymous_order) two_apples)
                 = [make_order_data calm_env anonymous_order 10500 (cart two_apples)])
      by (vm_compute; reflexivity).
    assert (H2 : orders (db_after (payment_success keys_present accepting_gateway
                                     calm_env (Some callback) two_apples))
                 = orders two_apples ++ [completed_order two_apples calm_env 105])
      by (vm_compute; reflexivity).
    split; [exact H1|]. split; [exact H2|].
    exact (Hagree _ _ _ _ _ _ _ _ _ _ _ _ eq_refl H1 H2).
Defined.

(** C5, counterexample. The cart is empty and the gateway keys are missing:
    [create_order] answers 500, not a client error. *)
Lemma empty_checkout_counterexample :
  ~ empty_checkout_claim keys_missing accepting_gateway calm_env
      (Some anonymous_order) empty_db.
Proof.
  intros H. destruct (H eq_refl eq_refl) as (_ & [_ Hs] & _).
  vm_compute in Hs. discriminate.
Qed.

Lemma empty_cart_witness :
  cart empty_db = []
  /\ response_of (checkout keys_present calm_env empty_db) = Redirect EpHome
  /\ response_of (create_order keys_present accepting_gateway calm_env
                    (Some anonymous_order) empty_db)
     = Jsonify 400 [("error", JStr "Cart is empty")]
  /\ gateway_requests (create_order keys_present accepting_gateway calm_env
                         (Some anonymous_order) empty_db) = [].
Proof.
  split; [reflexivity|].
  destruct (empty_cart_never_reaches_gateway keys_present accepting_gateway calm_env
              (Some anonymous_order) empty_db eq_refl)
    as ((Hc & _) & Hg & _ & Hr & _).
  split; [exact Hc|]. split; [|exact Hg].
  apply Hr; [eexists|]; reflexivity.
Defined.

(** C6, counterexample. With the gateway keys missing, [create_order]
    answers 500, not 503. *)
Lemma unconfigured_counterexample :
  ~ unconfigured_claim keys_missing accepting_gateway calm_env
      (Some anonymous_order) (Some callback) two_apples.
Proof.
  intros H. destruct (H eq_refl) as ([Hs _] & _).
  vm_compute in Hs. discriminate.
Qed.

Lemma unconfigured_witness :
  razorpay_client keys_missing = None
  /\ status_code (response_of (create_order keys_missing accepting_gateway calm_env
                                 (Some anonymous_order) two_apples)) = 500
  /\ db_after (payment_success keys_missing accepting_gateway calm_env
                 (Some callback) two_apples) = two_apples.
Proof.
  split; [reflexivity|].
  destruct (unconfigured_gateway_refused keys_missing accepting_gateway calm_env
              (Some anonymous_order) (Some callback) two_apples eq_refl)
    as (Hc & Hd & _).
  split; [rewrite Hc; reflexivity | exact Hd].
Defined.

Lemma cart_invariant_witness :
  cart_inv (cart two_apples)
  /\ cart_inv (cart (db_after (update calm_env "A1" "dec" two_apples)))
  /\ db_after (update calm_env "B2" "dec" two_apples) = two_apples.
Proof.
  split; [apply two_apples_inv|].
  destruct (cart_invariant_preserved two_apples two_apples_inv)
    as (_ & _ & Hu & _ & _ & _ & _ & Ha).
  split; [apply Hu|].
  apply Ha. simpl. intros H. apply list_elem_of_singleton in H. discriminate.
Defined.

(** C8, counterexample. One scan of a known product asking for 2^63 units:
    the quantity cannot be bound to the statement, the handler raises
    [OverflowError] and the cart stays without the line. *)
Lemma scans_sum_counterexample :
  ~ scans_sum_claim "A1" [(calm_env, scan "A1" "9223372036854775808")] empty_db.
Proof.
  intros H.
  assert (Hs : Forall (scan_of "A1") [(calm_env, scan "A1" "9223372036854775808")]).
  { constructor; [|constructor].
    split; [reflexivity|]. split; [reflexivity|]. split; [discriminate|].
    vm_compute. eexists. reflexivity. }
  specialize (H Hs (not_elem_of_nil _)). vm_compute in H. discriminate.
Qed.

Example oversized_scan :
  response_of (home calm_env (scan "A1" "9223372036854775808") empty_db)
  = Unhandled (OverflowError "Python int too large to convert to SQLite INTEGER")
  /\ db_after (home calm_env (scan "A1" "9223372036854775808") empty_db) = empty_db.
Proof. vm_compute. split; reflexivity. Qed.

Lemma scans_add_up_witness :
  (Forall (storable_scan_of "A1")
     [(calm_env, scan "A1" "2"); (calm_env, scan "A1" "many"); (calm_env, scan "A1" "-4")]
   /\ requested_sum
        [(calm_env, scan "A1" "2"); (calm_env, scan "A1" "many"); (calm_env, scan "A1" "-4")]
      <= sqlite_int_max
   /\ ("A1" ∉ Cart.barcode <$> cart empty_db))
  /\ quantity_of "A1"
       (run_scans
          [(calm_env, scan "A1" "2"); (calm_env, scan "A1" "many"); (calm_env, scan "A1" "-4")]
          empty_db) = 4.
Proof.
  assert (Hs : Forall (storable_scan_of "A1")
                 [(calm_env, scan "A1" "2"); (calm_env, scan "A1" "many");
                  (calm_env, scan "A1" "-4")])
    by (do 3 (constructor; [apply apple_scan|]); constructor).
  assert (Hq : requested_sum
                 [(calm_env, scan "A1" "2"); (calm_env, scan "A1" "many");
                  (calm_env, scan "A1" "-4")] <= sqlite_int_max)
    by (vm_compute; discriminate).
  split; [split; [exact Hs | split; [exact Hq | apply not_elem_of_nil]]|].
  rewrite (scans_add_up "A1" _ empty_db Hs Hq (not_elem_of_nil _)).
  reflexivity.
Defined.

(** C10, counterexample. The cart is empty, the signature verifies, and the
    generator draws an order number the ledger already holds: the call
    answers 500 and appends nothing. *)
Lemma empty_cart_commit_counterexample :
  ~ empty_cart_commit_claim keys_present accepting_gateway calm_env (Some callback)
      (ledger_1100 []).
Proof.
  intros H. destruct (H eq_refl accepted_callback eq_refl) as [Hr _].
  vm_compute in Hr. discriminate.
Qed.

Lemma empty_cart_payment_witness :
  (signature_verifies keys_present accepting_gateway (Some callback)
   /\ storage_fault calm_env = None
   /\ (generate_order_number calm_env ∉ Orders.order_number <$> orders empty_db)
   /\ cart empty_db = [])
  /\ response_of (payment_success keys_present accepting_gateway calm_env
                    (Some callback) empty_db) = success_response calm_env
  /\ orders (db_after (payment_success keys_present accepting_gateway calm_env
                         (Some callback) empty_db))
     = [completed_order empty_db calm_env 0].
Proof.
  assert (Hfresh : generate_order_number calm_env
                   ∉ Orders.order_number <$> orders empty_db)
    by apply not_elem_of_nil.
  split.
  { split; [apply accepted_callback|]. split; [reflexivity|].
    split; [exact Hfresh | reflexivity]. }
  destruct (empty_cart_payment_commits keys_present accepting_gateway calm_env
              (Some callback) empty_db accepted_callback eq_refl Hfresh eq_refl)
    as (Hr & Ho & _).
  split; [exact Hr | exact Ho].
Defined.

(** * Further properties of the handlers *)

(** ** The handlers and the two tables *)

Section Ledger.

Implicit Types (e : env) (d : db) (b : string).

Lemma same_ledger_set_cart items d : same_ledger d (set_cart items d).
Proof. split; reflexivity. Qed.

Lemma update_qty_add_ledger q b d d' :
  update_qty_add q b d = Ok d' -> exists items, d' = set_cart items d.
Proof.
  unfold update_qty_add. destruct (bind_int q); [|discriminate].
  intros [= <-]. eauto.
Qed.

Lemma insert_cart_ledger b nm p q d d' :
  insert_cart b nm p q d = Ok d' -> exists items, d' = set_cart items d.
Proof.
  unfold insert_cart. destruct (bind_int p); [|discriminate].
  destruct (bind_int q); [|discriminate].
  destruct (decide _); [discriminate|]. intros [= <-]. eauto.
Qed.

(** A healthy scan block either raises and leaves the state, or sets the
    cart. *)
Lemma scan_block_set_cart b p q d :
  exists r items, with_db (scan_block b p q) d None = (r, set_cart items d, []).
Proof.
  rewrite scan_block_healthy.
  destruct (select_qty b d).
  - destruct (update_qty_add q b d) as [d'|x] eqn:H.
    + apply update_qty_add_ledger in H as [items ->]. eauto.
    + exists (Raise x), (cart d). rewrite set_cart_id. reflexivity.
  - destruct (insert_cart _ _ _ _ d) as [d'|x] eqn:H.
    + apply insert_cart_ledger in H as [items ->]. eauto.
    + exists (Raise x), (cart d). rewrite set_cart_id. reflexivity.
Qed.

Lemma add_block_set_cart b p d :
  exists r items fx, with_db (add_block b p) d None = (r, set_cart items d, fx).
Proof.
  rewrite add_block_healthy.
  destruct (select_qty b d).
  - simpl. eauto.
  - destruct (insert_cart _ _ _ _ d) as [d'|x] eqn:H.
    + apply insert_cart_ledger in H as [items ->]. eauto.
    + exists (Raise x), (cart d), []. rewrite set_cart_id. reflexivity.
Qed.

Lemma home_set_cart e f d : exists items, db_after (home e f d) = set_cart items d.
Proof.
  unfold home.
  destruct (decide _); [exists (cart d); rewrite set_cart_id; reflexivity|].
  destruct (load_products _ !! _) as [p|];
    [|exists (cart d); rewrite set_cart_id; reflexivity].
  destruct (with_db_cases _ d (storage_fault e) (scan_block_safe
              (Py.strip (default "" (form_barcode f))) p (requested_qty f)))
    as [(rqs & ->) | ->].
  - exists (cart d). rewrite set_cart_id. reflexivity.
  - destruct (scan_block_set_cart (Py.strip (default "" (form_barcode f))) p
                (requested_qty f) d) as (r & items & ->).
    exists items. destruct r as [|x]; [|destruct (is_sqlite3_error x)]; reflexivity.
Qed.

Lemma add_to_cart_set_cart e b d :
  exists items, db_after (add_to_cart e b d) = set_cart items d.
Proof.
  unfold add_to_cart.
  destruct (load_products _ !! _) as [p|];
    [|exists (cart d); rewrite set_cart_id; reflexivity].
  destruct (with_db_cases _ d (storage_fault e) (add_block_safe b p))
    as [(rqs & ->) | ->].
  - exists (cart d). rewrite set_cart_id. reflexivity.
  - destruct (add_block_set_cart b p d) as (r & items & fx & ->).
    exists items. destruct r as [|x]; [|destruct (is_sqlite3_error x)]; reflexivity.
Qed.

Lemma update_set_cart e b action d :
  exists items, db_after (update e b action d) = set_cart items d.
Proof.
  unfold update.
  destruct (decide (action ∉ ["inc"; "dec"])) as [|Ha];
    [exists (cart d); rewrite set_cart_id; reflexivity|].
  apply dec_stable in Ha.
  destruct (with_db_cases _ d (storage_fault e) (update_block_safe b action))
    as [(rqs & ->) | ->].
  - exists (cart d). rewrite set_cart_id. reflexivity.
  - rewrite update_block_healthy by exact Ha. simpl. eauto.
Qed.

Lemma delete_set_cart e b d :
  exists items, db_after (delete e b d) = set_cart items d.
Proof.
  unfold delete.
  destruct (with_db_cases _ d (storage_fault e) (delete_block_safe b))
    as [(rqs & ->) | ->].
  - exists (cart d). rewrite set_cart_id. reflexivity.
  - rewrite delete_block_healthy. simpl. eauto.
Qed.

End Ledger.

(** X1. The handlers that edit the cart ([home] on a POST, [add_to_cart],
    [update], [delete]) never touch the orders table: whatever the request,
    the catalogue and the storage fault, the order rows and the AUTOINCREMENT
    counter are after the call what they were before. *)
Theorem cart_handlers_keep_ledger d :
  (forall e f, same_ledger d (db_after (home e f d)))
  /\ (forall e b, same_ledger d (db_after (add_to_cart e b d)))
  /\ (forall e b action, same_ledger d (db_after (update e b action d)))
  /\ (forall e b, same_ledger d (db_after (delete e b d))).
Proof.
  split; [intros e f; destruct (home_set_cart e f d) as [items ->];
          apply same_ledger_set_cart|].
  split; [intros e b; destruct (add_to_cart_set_cart e b d) as [items ->];
          apply same_ledger_set_cart|].
  split; [intros e b a; destruct (update_set_cart e b a d) as [items ->];
          apply same_ledger_set_cart|].
  intros e b; destruct (delete_set_cart e b d) as [items ->];
    apply same_ledger_set_cart.
Qed.

(** ** What a scan changes, and what a storage failure leaves *)

Section Frame.

Implicit Types (e : env) (d : db) (b : string) (items : list Cart.row).

Lemma line_label_add_qty b q r : line_label (add_qty b q r) = line_label r.
Proof. unfold add_qty. destruct (decide _); reflexivity. Qed.

Lemma labels_add_qty b q items :
  line_label <$> (add_qty b q <$> items) = line_label <$> items.
Proof.
  rewrite <- list_fmap_compose. apply list_fmap_ext.
  intros i r _. apply line_label_add_qty.
Qed.

Lemma other_lines_add_qty b q items :
  other_lines b (add_qty b q <$> items) = other_lines b items.
Proof.
  unfold other_lines. induction items as [|r items IH]; [reflexivity|].
  rewrite fmap_cons, !filter_cons, barcode_add_qty.
  destruct (decide (Cart.barcode r <> b)) as [Hne|_]; [|exact IH].
  rewrite add_qty_ne by exact Hne. f_equal. exact IH.
Qed.

Lemma other_lines_snoc b items r :
  Cart.barcode r = b -> other_lines b (items ++ [r]) = other_lines b items.
Proof.
  intros Hb. unfold other_lines. rewrite filter_app, filter_cons, filter_nil.
  destruct (decide (Cart.barcode r <> b)) as [Hne|_]; [contradiction|].
  apply app_nil_r.
Qed.

Lemma grows_line_refl b items : grows_line b items items.
Proof. split; [reflexivity|]. exists []. rewrite app_nil_r. auto. Qed.

Lemma grows_line_add_qty b q items : grows_line b items (add_qty b q <$> items).
Proof.
  split; [apply other_lines_add_qty|]. exists [].
  rewrite labels_add_qty, app_nil_r. auto.
Qed.

Lemma grows_line_snoc b items r :
  Cart.barcode r = b -> grows_line b items (items ++ [r]).
Proof.
  intros Hb. split; [apply other_lines_snoc, Hb|].
  exists [line_label r]. rewrite fmap_app. auto.
Qed.

Lemma update_qty_add_grows q b d d' :
  update_qty_add q b d = Ok d' -> grows_line b (cart d) (cart d').
Proof.
  unfold update_qty_add. destruct (bind_int q); [|discriminate].
  intros [= <-]. apply grows_line_add_qty.
Qed.

Lemma insert_cart_grows b nm p q d d' :
  insert_cart b nm p q d = Ok d' -> grows_line b (cart d) (cart d').
Proof.
  unfold insert_cart. destruct (bind_int p); [|discriminate].
  destruct (bind_int q); [|discriminate].
  destruct (decide _); [discriminate|]. intros [= <-].
  apply grows_line_snoc. reflexivity.
Qed.

Lemma home_grows e f d :
  grows_line (Py.strip (default "" (form_barcode f))) (cart d)
    (cart (db_after (home e f d))).
Proof.
  unfold home. set (b := Py.strip (default "" (form_barcode f))).
  destruct (decide _); [apply grows_line_refl|].
  destruct (load_products _ !! _) as [p|]; [|apply grows_line_refl].
  destruct (with_db_cases _ d (storage_fault e)
              (scan_block_safe b p (requested_qty f)))
    as [(rqs & ->) | ->]; [apply grows_line_refl|].
  rewrite scan_block_healthy.
  destruct (select_qty b d).
  - destruct (update_qty_add _ b d) as [d'|x] eqn:H.
    + apply update_qty_add_grows in H. exact H.
    + destruct (is_sqlite3_error x); apply grows_line_refl.
  - destruct (insert_cart _ _ _ _ d) as [d'|x] eqn:H.
    + apply insert_cart_grows in H. exact H.
    + destruct (is_sqlite3_error x); apply grows_line_refl.
Qed.

Lemma add_to_cart_grows e b d :
  grows_line b (cart d) (cart (db_after (add_to_cart e b d))).
Proof.
  unfold add_to_cart.
  destruct (load_products _ !! _) as [p|]; [|apply grows_line_refl].
  destruct (with_db_cases _ d (storage_fault e) (add_block_safe b p))
    as [(rqs & ->) | ->]; [apply grows_line_refl|].
  rewrite add_block_healthy.
  destruct (select_qty b d).
  - simpl. apply grows_line_add_qty.
  - destruct (insert_cart _ _ _ _ d) as [d'|x] eqn:H.
    + apply insert_cart_grows in H. exact H.
    + destruct (is_sqlite3_error x); apply grows_line_refl.
Qed.

End Frame.

(** X2. A scan ([home] on a POST) or [add_to_cart] of barcode [b] changes
    at most the line of [b], whatever the catalogue and the storage fault:
    the lines of every other barcode stay as they are and in order, the lines
    that were there keep their barcode, name and price, and at most one line
    is appended. *)
Theorem scan_changes_one_line e d :
  (forall f,
      let b := Py.strip (default "" (form_barcode f)) in
      let after := cart (db_after (home e f d)) in
      other_lines b after = other_lines b (cart d)
      /\ exists extra, line_label <$> after = (line_label <$> cart d) ++ extra
                       /\ (length extra <= 1)%nat)
  /\ (forall b,
      let after := cart (db_after (add_to_cart e b d)) in
      other_lines b after = other_lines b (cart d)
      /\ exists extra, line_label <$> after = (line_label <$> cart d) ++ extra
                       /\ (length extra <= 1)%nat).
Proof.
  split; [intros f; apply home_grows | intros b; apply add_to_cart_grows].
Qed.

Section Failures.

Implicit Types (e : env) (d : db) (b : string).

Lemma home_failure e f d :
  home e f d = home (healthy e) f d
  \/ home e f d
     = respond (Redirect EpHome)
         [("error", "Error adding item to cart. Please try again.")] d.
Proof.
  unfold home. simpl.
  destruct (decide _); [left; reflexivity|].
  destruct (load_products _ !! _) as [p|]; [|left; reflexivity].
  destruct (with_db_cases _ d (storage_fault e) (scan_block_safe
              (Py.strip (default "" (form_barcode f))) p (requested_qty f)))
    as [(rqs & ->) | ->]; [right|left]; reflexivity.
Qed.

Lemma add_to_cart_failure e b d :
  add_to_cart e b d = add_to_cart (healthy e) b d
  \/ (db_after (add_to_cart e b d) = d
      /\ response_of (add_to_cart e b d) = Redirect EpShop
      /\ last (flashed (add_to_cart e b d))
         = Some ("error", "Error adding to cart. Please try again.")).
Proof.
  unfold add_to_cart. simpl.
  destruct (load_products _ !! _) as [p|]; [|left; reflexivity].
  destruct (with_db_cases _ d (storage_fault e) (add_block_safe b p))
    as [(rqs & ->) | ->]; [right|left; reflexivity].
  simpl. rewrite last_snoc. auto.
Qed.

Lemma update_failure e b action d :
  update e b action d = update (healthy e) b action d
  \/ update e b action d
     = respond (Redirect EpHome)
         [("error", "Error updating cart. Please try again.")] d.
Proof.
  unfold update. simpl.
  destruct (decide _); [left; reflexivity|].
  destruct (with_db_cases _ d (storage_fault e) (update_block_safe b action))
    as [(rqs & ->) | ->]; [right|left]; reflexivity.
Qed.

Lemma delete_failure e b d :
  delete e b d = delete (healthy e) b d
  \/ delete e b d
     = respond (Redirect EpHome) [("error", "Error removing item from cart.")] d.
Proof.
  unfold delete. simpl.
  destruct (with_db_cases _ d (storage_fault e) (delete_block_safe b))
    as [(rqs & ->) | ->]; [right|left]; reflexivity.
Qed.

End Failures.

(** X3. An edit of the cart is all or nothing under a storage failure:
    each of [home] (POST), [add_to_cart], [update] and [delete] either does
    exactly what it does on healthy storage, or leaves the stored state
    untouched, redirects and flashes its error message (for [add_to_cart], as
    the last message flashed). *)
Theorem failed_edit_changes_nothing e d :
  (forall f,
      home e f d = home (healthy e) f d
      \/ home e f d
         = respond (Redirect EpHome)
             [("error", "Error adding item to cart. Please try again.")] d)
  /\ (forall b,
      add_to_cart e b d = add_to_cart (healthy e) b d
      \/ (db_after (add_to_cart e b d) = d
          /\ response_of (add_to_cart e b d) = Redirect EpShop
          /\ last (flashed (add_to_cart e b d))
             = Some ("error", "Error adding to cart. Please try again.")))
  /\ (forall b action,
      update e b action d = update (healthy e) b action d
      \/ update e b action d
         = respond (Redirect EpHome)
             [("error", "Error updating cart. Please try again.")] d)
  /\ (forall b,
      delete e b d = delete (healthy e) b d
      \/ delete e b d
         = respond (Redirect EpHome) [("error", "Error removing item from cart.")] d).
Proof.
  split; [intros; apply home_failure|].
  split; [intros; apply add_to_cart_failure|].
  split; [intros; apply update_failure | intros; apply delete_failure].
Qed.

(** ** Incrementing and decrementing *)

Section Editing.

Implicit Types (e : env) (d : db) (b : string) (items : list Cart.row).











End Editing.


(** ** Deleting, and the answers of the editing handlers *)

Section Removing.

Implicit Types (e : env) (d : db) (b : string) (items : list Cart.row).

Lemma other_lines_idemp b items :
  other_lines b (other_lines b items) = other_lines b items.
Proof.
  unfold other_lines. rewrite list_filter_filter. apply list_filter_iff.
  intros r. tauto.
Qed.

Lemma select_qty_other_lines b b' items d :
  b' <> b ->
  select_qty b' (set_cart (other_lines b items) d) = select_qty b' (set_cart items d).
Proof.
  intros Hne. unfold select_qty, other_lines. simpl.
  rewrite list_filter_filter. do 2 f_equal. apply list_filter_iff.
  intros r. split; [tauto|]. intros <-. auto.
Qed.

Lemma select_qty_removed b items d :
  select_qty b (set_cart (other_lines b items) d) = None.
Proof.
  unfold select_qty, other_lines. simpl. rewrite list_filter_filter.
  rewrite (list_filter_iff _ (fun _ => False)) by (intros r; tauto).
  induction items as [|r items IH]; [reflexivity|].
  rewrite filter_cons. destruct (decide False); [contradiction|exact IH].
Qed.

Lemma delete_healthy e b d :
  storage_fault e = None ->
  delete e b d = respond (Redirect EpHome) [] (set_cart (other_lines b (cart d)) d).
Proof. intros He. unfold delete. rewrite He. reflexivity. Qed.

Lemma delete_again e b items d :
  db_after (delete e b (set_cart (other_lines b items) d))
  = set_cart (other_lines b items) d.
Proof.
  destruct (delete_failure e b (set_cart (other_lines b items) d)) as [-> | ->];
    [|reflexivity].
  rewrite delete_healthy by reflexivity. simpl.
  fold (other_lines b (other_lines b items)). rewrite other_lines_idemp.
  reflexivity.
Qed.

End Removing.

(** X5. On healthy storage [delete] removes the line of the barcode
    whatever its quantity, so that the cart holds 0 of it, and keeps the
    quantity of every other barcode; deleting the same barcode again, with or
    without a storage failure, changes nothing. *)
Theorem delete_removes_line e e' b d :
  storage_fault e = None ->
  let d1 := db_after (delete e b d) in
  cart d1 = other_lines b (cart d)
  /\ quantity_of b d1 = 0
  /\ (forall b', b' <> b -> quantity_of b' d1 = quantity_of b' d)
  /\ db_after (delete e' b d1) = d1.
Proof.
  intros He d1. subst d1. rewrite delete_healthy by exact He. simpl.
  split; [reflexivity|]. split; [|split].
  - unfold quantity_of. rewrite select_qty_removed. reflexivity.
  - intros b' Hne. unfold quantity_of.
    rewrite select_qty_other_lines by exact Hne. reflexivity.
  - apply delete_again.
Qed.


Section UpdateFrame.

Implicit Types (e : env) (d : db) (b : string) (items : list Cart.row).

Lemma labels_filter_sublist (P : Cart.row -> Prop) `{!∀ r, Decision (P r)} items :
  line_label <$> filter P items `sublist_of` line_label <$> items.
Proof. apply fmap_sublist, sublist_filter. Qed.

Lemma other_lines_decrement b items :
  Forall (fun r => 1 <= Cart.qty r) items ->
  other_lines b (filter (fun r => ~ (Cart.qty r <= 0)) (add_qty b (-1) <$> items))
  = other_lines b items.
Proof.
  intros Hf. induction Hf as [|r items Hr _ IH]; [reflexivity|].
  unfold other_lines in *. rewrite fmap_cons.
  destruct (decide (Cart.barcode r = b)) as [Hb|Hb].
  - rewrite add_qty_eq by exact Hb. rewrite (filter_cons _ r).
    destruct (decide (Cart.barcode r <> b)) as [|_]; [contradiction|].
    rewrite filter_cons. destruct (decide _) as [_|_]; [|exact IH].
    rewrite filter_cons. simpl.
    destruct (decide (Cart.barcode r <> b)) as [|_]; [contradiction|exact IH].
  - rewrite add_qty_ne by exact Hb. rewrite (filter_cons _ r).
    destruct (decide (~ (Cart.qty r <= 0))) as [_|Hq]; [|lia].
    rewrite !filter_cons.
    destruct (decide (Cart.barcode r <> b)) as [_|]; [|contradiction].
    f_equal. exact IH.
Qed.

End UpdateFrame.

(** X6. From a cart that satisfies its invariant, [update] of barcode
    [b], whatever the action and the storage fault, leaves the lines of every
    other barcode as they are, adds no line and changes no barcode, name or
    price. *)
Theorem update_changes_one_line e b action d :
  cart_inv (cart d) ->
  let after := cart (db_after (update e b action d)) in
  other_lines b after = other_lines b (cart d)
  /\ line_label <$> after `sublist_of` line_label <$> cart d.
Proof.
  intros [_ Hf] after. subst after.
  destruct (update_failure e b action d) as [-> | ->]; [|split; reflexivity].
  unfold update. simpl.
  destruct (decide (action ∉ ["inc"; "dec"])) as [|Ha]; [split; reflexivity|].
  apply dec_stable in Ha. rewrite update_block_healthy by exact Ha. simpl.
  destruct (decide (action = "inc")).
  - rewrite other_lines_add_qty, labels_add_qty. split; reflexivity.
  - split; [apply other_lines_decrement, Hf|].
    etrans; [apply labels_filter_sublist; apply _|]. rewrite labels_add_qty.
    reflexivity.
Qed.


Section Answers.

Implicit Types (e : env) (d : db) (b : string).

Lemma update_redirects e b action d :
  response_of (update e b action d) = Redirect EpHome.
Proof.
  destruct (update_failure e b action d) as [-> | ->]; [|reflexivity].
  unfold update. simpl.
  destruct (decide (action ∉ ["inc"; "dec"])) as [|Ha]; [reflexivity|].
  apply dec_stable in Ha. rewrite update_block_healthy by exact Ha. reflexivity.
Qed.

Lemma delete_redirects e b d : response_of (delete e b d) = Redirect EpHome.
Proof.
  destruct (delete_failure e b d) as [-> | ->]; reflexivity.
Qed.

Lemma bind_int_cases z :
  (fits_sqlite_int z = true /\ bind_int z = Ok z)
  \/ (fits_sqlite_int z = false
      /\ bind_int z
         = Raise (OverflowError "Python int too large to convert to SQLite INTEGER")).
Proof. unfold bind_int. destruct (fits_sqlite_int z); auto. Qed.

Lemma home_answers e f d :
  response_of (home e f d) = Redirect EpHome
  \/ (exists msg, response_of (home e f d) = Unhandled (OverflowError msg))
     /\ db_after (home e f d) = d
     /\ (fits_sqlite_int (requested_qty f) = false
         \/ exists p, load_products (products_file e)
                        !! Py.strip (default "" (form_barcode f)) = Some p
                      /\ fits_sqlite_int (Product.price p) = false).
Proof.
  destruct (home_failure e f d) as [-> | ->]; [|left; reflexivity].
  unfold home. simpl. set (b := Py.strip (default "" (form_barcode f))).
  destruct (decide _); [left; reflexivity|].
  destruct (load_products _ !! _) as [p|] eqn:Hp; [|left; reflexivity].
  rewrite scan_block_healthy.
  destruct (select_qty b d).
  - unfold update_qty_add.
    destruct (bind_int_cases (requested_qty f)) as [[_ ->] | [Hq ->]];
      [left; reflexivity|].
    right. simpl. eauto.
  - unfold insert_cart.
    destruct (bind_int_cases (Product.price p)) as [[_ ->] | [Hpr ->]].
    + destruct (bind_int_cases (requested_qty f)) as [[_ ->] | [Hq ->]].
      * destruct (decide _); left; reflexivity.
      * right. simpl. eauto.
    + right. simpl. split; [eauto|]. split; [reflexivity|]. right. eauto.
Qed.

Lemma add_to_cart_answers e b d :
  response_of (add_to_cart e b d) = Redirect EpShop
  \/ (exists msg, response_of (add_to_cart e b d) = Unhandled (OverflowError msg))
     /\ db_after (add_to_cart e b d) = d
     /\ (b ∉ Cart.barcode <$> cart d)
     /\ exists p, load_products (products_file e) !! b = Some p
                  /\ fits_sqlite_int (Product.price p) = false.
Proof.
  destruct (add_to_cart_failure e b d) as [-> | (_ & -> & _)]; [|left; reflexivity].
  unfold add_to_cart. simpl.
  destruct (load_products _ !! _) as [p|] eqn:Hp; [|left; reflexivity].
  rewrite add_block_healthy.
  destruct (select_qty b d) eqn:Hs; [left; reflexivity|].
  unfold insert_cart.
  destruct (bind_int_cases (Product.price p)) as [[_ ->] | [Hpr ->]].
  - simpl. destruct (decide _); left; reflexivity.
  - right. simpl. split; [eauto|]. split; [reflexivity|].
    split; [apply select_qty_None, Hs | eauto].
Qed.

End Answers.

(** X7. [update] and [delete] always answer with the redirect to the
    cart page. [home] (POST) and [add_to_cart] answer with their redirect
    unless an integer cannot be bound to the statement (the requested
    quantity, or the catalogue price of a product the cart does not hold yet,
    is outside the signed 64-bit range): then [OverflowError] leaves the
    handler and the stored state is unchanged. *)
Theorem edits_answer_with_redirect e d :
  (forall b action, response_of (update e b action d) = Redirect EpHome)
  /\ (forall b, response_of (delete e b d) = Redirect EpHome)
  /\ (forall f,
        response_of (home e f d) = Redirect EpHome
        \/ (exists msg, response_of (home e f d) = Unhandled (OverflowError msg))
           /\ db_after (home e f d) = d
           /\ (fits_sqlite_int (requested_qty f) = false
               \/ exists p, load_products (products_file e)
                              !! Py.strip (default "" (form_barcode f)) = Some p
                            /\ fits_sqlite_int (Product.price p) = false))
  /\ (forall b,
        response_of (add_to_cart e b d) = Redirect EpShop
        \/ (exists msg, response_of (add_to_cart e b d) = Unhandled (OverflowError msg))
           /\ db_after (add_to_cart e b d) = d
           /\ (b ∉ Cart.barcode <$> cart d)
           /\ exists p, load_products (products_file e) !! b = Some p
                        /\ fits_sqlite_int (Product.price p) = false).
Proof.
  split; [intros; apply update_redirects|].
  split; [intros; apply delete_redirects|].
  split; [intros; apply home_answers | intros; apply add_to_cart_answers].
Qed.

(** X8. When the commit of [add_to_cart] fails (connecting, reading and
    writing having succeeded) for a product of the catalogue whose price
    SQLite can store, the cart is unchanged, the answer is the redirect to the
    gallery, and two messages are flashed: the success message, then the
    error. *)
Theorem add_to_cart_flashes_before_commit e b p d :
  load_products (products_file e) !! b = Some p ->
  fits_sqlite_int (Product.price p) = true ->
  storage_fault e = Some 3%nat ->
  let o := add_to_cart e b d in
  db_after o = d
  /\ response_of o = Redirect EpShop
  /\ flashed o
     = [("success",
         (if decide (b ∈ Cart.barcode <$> cart d) then "Added another " else "Added ")
         +:+ Product.name p +:+ " to cart!");
        ("error", "Error adding to cart. Please try again.")].
Proof.
  intros Hp Hfit He o. subst o. unfold add_to_cart. rewrite Hp, He.
  unfold with_db, add_block, bind, connect, query, execute, commit, storage_op,
    bind, flash. simpl.
  destruct (select_qty b d) eqn:Hs; simpl.
  - destruct (decide (b ∈ Cart.barcode <$> cart d)) as [_|Hn]; [auto|].
    apply select_qty_None in Hn. congruence.
  - unfold insert_cart. rewrite bind_int_fits by exact Hfit. simpl.
    apply select_qty_None in Hs.
    destruct (decide (b ∈ Cart.barcode <$> cart d)) as [|_]; [contradiction|].
    simpl. auto.
Qed.

(** ** White space and separators in the catalogue *)

Section Strings.

Implicit Types (s t u : string) (c : ascii).

Lemma append_nil_l s : "" +:+ s = s.
Proof. reflexivity. Qed.

Lemma append_cons c s t : String c s +:+ t = String c (s +:+ t).
Proof. reflexivity. Qed.

Lemma append_nil_r s : s +:+ "" = s.
Proof. induction s as [|c s IH]; [reflexivity|]. rewrite append_cons, IH. reflexivity. Qed.

Lemma append_assoc s t u : (s +:+ t) +:+ u = s +:+ (t +:+ u).
Proof.
  induction s as [|c s IH]; [reflexivity|]. rewrite !append_cons, IH. reflexivity.
Qed.

Lemma rev_app_spec s t : String.rev_app s t = String.rev s +:+ t.
Proof.
  unfold String.rev. revert t. induction s as [|c s IH]; intros t; [reflexivity|].
  simpl. rewrite IH, (IH (String c "")), append_assoc. reflexivity.
Qed.

Lemma rev_cons c s : String.rev (String c s) = String.rev s +:+ String c "".
Proof. unfold String.rev at 1. simpl. apply rev_app_spec. Qed.

Lemma rev_append s t : String.rev (s +:+ t) = String.rev t +:+ String.rev s.
Proof.
  induction s as [|c s IH].
  - rewrite append_nil_l, append_nil_r. reflexivity.
  - rewrite append_cons, !rev_cons, IH, append_assoc. reflexivity.
Qed.

Lemma rev_involutive s : String.rev (String.rev s) = s.
Proof.
  induction s as [|c s IH]; [reflexivity|].
  rewrite rev_cons, rev_append, IH. reflexivity.
Qed.

Lemma lstrip_clean s : starts_clean (Py.lstrip s).
Proof.
  induction s as [|c s IH]; simpl; [exact I|].
  destruct (Py.isspace c) eqn:Hc; [exact IH | exact Hc].
Qed.

Lemma lstrip_id s : starts_clean s -> Py.lstrip s = s.
Proof. destruct s as [|c s]; simpl; [reflexivity|]. intros ->. reflexivity. Qed.

Lemma lstrip_snoc s c :
  Py.isspace c = false ->
  Py.lstrip (s +:+ String c "") = Py.lstrip s +:+ String c "".
Proof.
  intros Hc. induction s as [|c' s IH].
  - rewrite append_nil_l. simpl. rewrite Hc. reflexivity.
  - rewrite append_cons. simpl. destruct (Py.isspace c'); [exact IH | reflexivity].
Qed.

Lemma rstrip_clean s : ends_clean (Py.rstrip s).
Proof.
  unfold ends_clean, Py.rstrip. rewrite rev_involutive. apply lstrip_clean.
Qed.

Lemma rstrip_id s : ends_clean s -> Py.rstrip s = s.
Proof.
  unfold ends_clean, Py.rstrip. intros H. rewrite lstrip_id by exact H.
  apply rev_involutive.
Qed.

Lemma rstrip_cons c s :
  Py.isspace c = false -> Py.rstrip (String c s) = String c (Py.rstrip s).
Proof.
  intros Hc. unfold Py.rstrip.
  rewrite rev_cons, lstrip_snoc by exact Hc. rewrite rev_append. reflexivity.
Qed.

Lemma rstrip_starts_clean s : starts_clean s -> starts_clean (Py.rstrip s).
Proof.
  destruct s as [|c s]; [intros _; exact I|]. simpl. intros Hc.
  rewrite rstrip_cons by exact Hc. exact Hc.
Qed.

(** [strip] leaves no white space at either end, and does nothing to a
    string that has none there. *)
Lemma strip_clean s : starts_clean (Py.strip s) /\ ends_clean (Py.strip s).
Proof.
  unfold Py.strip. split; [apply rstrip_starts_clean, lstrip_clean|].
  apply rstrip_clean.
Qed.

Lemma strip_id s : starts_clean s -> ends_clean s -> Py.strip s = s.
Proof.
  intros Hs He. unfold Py.strip. rewrite lstrip_id by exact Hs.
  apply rstrip_id, He.
Qed.

Lemma strip_strip s : Py.strip (Py.strip s) = Py.strip s.
Proof. apply strip_id; apply strip_clean. Qed.

Lemma contains_append c s t : contains c (s +:+ t) = contains c s || contains c t.
Proof.
  induction s as [|c' s IH]; [reflexivity|].
  rewrite append_cons. simpl. rewrite IH, orb_assoc. reflexivity.
Qed.

Lemma contains_rev c s : contains c (String.rev s) = contains c s.
Proof.
  induction s as [|c' s IH]; [reflexivity|].
  rewrite rev_cons, contains_append, IH. simpl.
  rewrite orb_false_r. apply orb_comm.
Qed.

Lemma contains_lstrip c s : contains c s = false -> contains c (Py.lstrip s) = false.
Proof.
  induction s as [|c' s IH]; simpl; [auto|].
  destruct (Py.isspace c'); [|auto].
  intros H. apply orb_false_iff in H as [_ H]. apply IH, H.
Qed.

Lemma contains_strip c s : contains c s = false -> contains c (Py.strip s) = false.
Proof.
  intros H. unfold Py.strip, Py.rstrip.
  rewrite contains_rev. apply contains_lstrip. rewrite contains_rev.
  apply contains_lstrip, H.
Qed.

Lemma split_go_fields sep cur s :
  contains sep cur = false ->
  Forall (fun f => contains sep f = false) (Py.split_go sep cur s).
Proof.
  revert cur. induction s as [|c s IH]; intros cur Hcur; simpl.
  - constructor; [|constructor]. rewrite contains_rev. exact Hcur.
  - destruct (Ascii.eqb c sep) eqn:Hc.
    + constructor; [rewrite contains_rev; exact Hcur|]. apply IH. reflexivity.
    + apply IH. simpl. rewrite Hc. exact Hcur.
Qed.

(** No field of a split holds the separator. *)
Lemma split_fields sep s :
  Forall (fun f => contains sep f = false) (Py.split sep s).
Proof. apply split_go_fields. reflexivity. Qed.

End Strings.

Section CatalogueKeys.

Implicit Types (line text b : string) (p : Product.t).

Lemma field_clean n line :
  (n < length (line_fields line))%nat ->
  contains "," (Py.strip (field n line)) = false.
Proof.
  intros Hn. apply contains_strip. unfold field.
  pose proof (split_fields "," (Py.strip line)) as Hf.
  rewrite Forall_forall in Hf. apply Hf.
  apply list_elem_of_In, nth_In. exact Hn.
Qed.

Lemma parse_line_clean line b p :
  parse_line line = Some (b, p) ->
  b <> "" /\ Py.strip b = b /\ contains "," b = false
  /\ Py.strip (Product.name p) = Product.name p
  /\ contains "," (Product.name p) = false
  /\ 0 <= Product.price p.
Proof.
  intros H. apply parse_line_Some in H as (Hlen & -> & Hne & -> & z & _ & ->).
  split; [exact Hne|]. split; [apply strip_strip|].
  split; [apply field_clean; lia|]. split; [apply strip_strip|].
  split; [apply field_clean; lia | lia].
Qed.

Lemma load_products_line f b p :
  load_products f !! b = Some p -> exists line, parse_line line = Some (b, p).
Proof.
  destruct f as [| |text]; simpl; try (rewrite lookup_empty; discriminate).
  rewrite foldl_add_line_lookup.
  destruct (last _) as [[b' p']|] eqn:Hl; [|discriminate].
  simpl. intros [= ->].
  apply last_Some_elem_of, list_elem_of_filter in Hl as [Hb Hin].
  simpl in Hb. subst b'. apply list_elem_of_omap in Hin as (line & _ & Hline).
  eauto.
Qed.

End CatalogueKeys.

(** X9. Every entry of the loaded catalogue has a barcode that is not
    empty and holds neither surrounding white space nor a comma, a name with
    neither, and a price that is not negative. *)
Theorem catalogue_entries_clean f b p :
  load_products f !! b = Some p ->
  b <> "" /\ Py.strip b = b /\ contains "," b = false
  /\ Py.strip (Product.name p) = Product.name p
  /\ contains "," (Product.name p) = false
  /\ 0 <= Product.price p.
Proof.
  intros H. apply load_products_line in H as [line H].
  eapply parse_line_clean, H.
Qed.

(** ** The gallery's addition, prices and the ledger *)

Section ShopAndScan.

Implicit Types (e : env) (d : db) (b : string).

Lemma load_products_clean f b p :
  load_products f !! b = Some p ->
  b <> "" /\ Py.strip b = b /\ contains "," b = false
  /\ Py.strip (Product.name p) = Product.name p
  /\ contains "," (Product.name p) = false
  /\ 0 <= Product.price p.
Proof.
  intros H. apply load_products_line in H as [line H].
  eapply parse_line_clean, H.
Qed.

(** The two blocks leave the same stored state, whatever the fault. *)
Lemma add_block_as_scan_block b p d fault :
  (with_db (add_block b p) d fault).1.2 = (with_db (scan_block b p 1) d fault).1.2.
Proof.
  unfold with_db, add_block, scan_block.
  change (update_qty_add 1 b) with (update_qty_inc b).
  unfold bind, connect, query, execute, commit, storage_op, bind, flash.
  destruct fault as [[|[|[|[|n]]]]|]; simpl; try reflexivity;
    destruct (select_qty b d); simpl; try reflexivity;
    destruct (insert_cart _ _ _ _ d); reflexivity.
Qed.

Lemma add_to_cart_db e b d :
  db_after (add_to_cart e b d)
  = match load_products (products_file e) !! b with
    | Some p => (with_db (add_block b p) d (storage_fault e)).1.2
    | None => d
    end.
Proof.
  unfold add_to_cart. destruct (load_products _ !! b) as [p|]; [|reflexivity].
  destruct (with_db _ d _) as [[[|x] d'] fx]; [reflexivity|].
  destruct (is_sqlite3_error x); reflexivity.
Qed.

Lemma home_db e f d :
  db_after (home e f d)
  = let b := Py.strip (default "" (form_barcode f)) in
    if decide (b = "") then d
    else match load_products (products_file e) !! b with
         | Some p => (with_db (scan_block b p (requested_qty f)) d (storage_fault e)).1.2
         | None => d
         end.
Proof.
  unfold home. simpl. destruct (decide _); [reflexivity|].
  destruct (load_products _ !! _) as [p|]; [|reflexivity].
  destruct (with_db _ d _) as [[[|x] d'] fx]; [reflexivity|].
  destruct (is_sqlite3_error x); reflexivity.
Qed.

End ShopAndScan.

(** X10. [add_to_cart] of [b] leaves the same stored state as a scan
    whose barcode field strips to [b] and whose quantity reads as 1, for every
    catalogue, cart and storage fault. *)
Theorem add_to_cart_as_scan e f b d :
  Py.strip (default "" (form_barcode f)) = b -> requested_qty f = 1 ->
  db_after (add_to_cart e b d) = db_after (home e f d).
Proof.
  intros Hb Hq. rewrite add_to_cart_db, home_db. simpl. rewrite Hb, Hq.
  destruct (load_products (products_file e) !! b) as [p|] eqn:Hp.
  - apply load_products_clean in Hp as (Hne & _).
    destruct (decide (b = "")) as [|_]; [contradiction|].
    apply add_block_as_scan_block.
  - destruct (decide (b = "")); reflexivity.
Qed.


Section Prices.

Implicit Types (e : env) (d : db) (b : string) (items : list Cart.row).

Lemma cart_sum_acc items : forall a,
  foldl (fun acc i => acc + Cart.price i * Cart.qty i) a items = a + cart_sum items.
Proof.
  unfold cart_sum. induction items as [|r items IH]; intros a; simpl; [lia|].
  rewrite IH. rewrite (IH (0 + _)). lia.
Qed.

Lemma cart_sum_cons r items :
  cart_sum (r :: items) = Cart.price r * Cart.qty r + cart_sum items.
Proof. unfold cart_sum at 1. simpl. apply cart_sum_acc. Qed.

Lemma cart_sum_app items1 items2 :
  cart_sum (items1 ++ items2) = cart_sum items1 + cart_sum items2.
Proof.
  induction items1 as [|r items1 IH]; [reflexivity|].
  rewrite <- app_comm_cons, !cart_sum_cons, IH. lia.
Qed.

Lemma cart_total_sum items : cart_total items = cart_sum items.
Proof. destruct items; reflexivity. Qed.

Lemma cart_sum_nonneg items :
  prices_nonneg items -> Forall (fun r => 1 <= Cart.qty r) items ->
  0 <= cart_sum items.
Proof.
  induction 1 as [|r items Hp _ IH]; [reflexivity|].
  intros Hq. apply Forall_cons in Hq as [Hq Hqs].
  rewrite cart_sum_cons. specialize (IH Hqs). nia.
Qed.

Lemma prices_add_qty b q items :
  prices_nonneg items -> prices_nonneg (add_qty b q <$> items).
Proof.
  unfold prices_nonneg. rewrite Forall_fmap. intros H.
  eapply Forall_impl; [exact H|].
  intros r Hr. simpl. unfold add_qty. destruct (decide _); exact Hr.
Qed.

Lemma prices_filter (P : Cart.row -> Prop) `{!∀ r, Decision (P r)} items :
  prices_nonneg items -> prices_nonneg (filter P items).
Proof.
  unfold prices_nonneg. rewrite !Forall_forall. intros Hall r Hr.
  apply list_elem_of_filter in Hr as [_ Hr]. auto.
Qed.

Lemma prices_insert_cart b p q d d' :
  0 <= Product.price p -> prices_nonneg (cart d) ->
  insert_cart b (Product.name p) (Product.price p) q d = Ok d' ->
  prices_nonneg (cart d').
Proof.
  intros Hp Hd. unfold insert_cart.
  destruct (bind_int (Product.price p)) as [p'|] eqn:Hb; [|discriminate].
  apply bind_int_Ok in Hb as ->.
  destruct (bind_int q); [|discriminate].
  destruct (decide _); [discriminate|]. intros [= <-]. simpl.
  apply Forall_app. split; [exact Hd|]. constructor; [exact Hp|constructor].
Qed.

Lemma home_prices e f d :
  prices_nonneg (cart d) -> prices_nonneg (cart (db_after (home e f d))).
Proof.
  intros Hd. destruct (home_failure e f d) as [-> | ->]; [|exact Hd].
  unfold home. simpl. set (b := Py.strip (default "" (form_barcode f))).
  destruct (decide _); [exact Hd|].
  destruct (load_products _ !! _) as [p|] eqn:Hp; [|exact Hd].
  apply load_products_clean in Hp as (_ & _ & _ & _ & _ & Hp).
  rewrite scan_block_healthy.
  destruct (select_qty b d).
  - unfold update_qty_add. destruct (bind_int _) as [q|x]; simpl.
    + apply prices_add_qty, Hd.
    + destruct (is_sqlite3_error x); exact Hd.
  - destruct (insert_cart _ _ _ _ d) as [d'|x] eqn:Hi.
    + eapply prices_insert_cart; eassumption.
    + destruct (is_sqlite3_error x); exact Hd.
Qed.

Lemma add_to_cart_prices e b d :
  prices_nonneg (cart d) -> prices_nonneg (cart (db_after (add_to_cart e b d))).
Proof.
  intros Hd.
  destruct (add_to_cart_failure e b d) as [-> | (-> & _)]; [|exact Hd].
  unfold add_to_cart. simpl.
  destruct (load_products _ !! _) as [p|] eqn:Hp; [|exact Hd].
  apply load_products_clean in Hp as (_ & _ & _ & _ & _ & Hp).
  rewrite add_block_healthy.
  destruct (select_qty b d).
  - simpl. apply prices_add_qty, Hd.
  - destruct (insert_cart _ _ _ _ d) as [d'|x] eqn:Hi.
    + eapply prices_insert_cart; eassumption.
    + destruct (is_sqlite3_error x); exact Hd.
Qed.

Lemma update_prices e b action d :
  prices_nonneg (cart d) -> prices_nonneg (cart (db_after (update e b action d))).
Proof.
  intros Hd. destruct (update_failure e b action d) as [-> | ->]; [|exact Hd].
  unfold update. simpl.
  destruct (decide (action ∉ ["inc"; "dec"])) as [|Ha]; [exact Hd|].
  apply dec_stable in Ha. rewrite update_block_healthy by exact Ha. simpl.
  destruct (decide (action = "inc")).
  - apply prices_add_qty, Hd.
  - apply prices_filter, prices_add_qty, Hd.
Qed.

Lemma delete_prices e b d :
  prices_nonneg (cart d) -> prices_nonneg (cart (db_after (delete e b d))).
Proof.
  intros Hd. destruct (delete_failure e b d) as [-> | ->]; [|exact Hd].
  rewrite delete_healthy by reflexivity. simpl. apply prices_filter, Hd.
Qed.

Lemma payment_success_prices cfg gw e body d :
  prices_nonneg (cart d) ->
  prices_nonneg (cart (db_after (payment_success cfg gw e body d))).
Proof.
  intros Hd.
  destruct (payment_success_cases cfg gw e body d)
    as [(_ & _ & amount & _ & _ & _ & ->) | (-> & _)]; [constructor | exact Hd].
Qed.

End Prices.

(** X11. If the cart satisfies its invariant and its prices are not
    negative, its total is not negative, and every handler that writes the
    cart ([home], [add_to_cart], [update], [delete], [payment_success]) keeps
    the prices non-negative. *)
Theorem cart_total_never_negative d :
  cart_inv (cart d) -> prices_nonneg (cart d) ->
  0 <= cart_total (cart d)
  /\ (forall e f, prices_nonneg (cart (db_after (home e f d))))
  /\ (forall e b, prices_nonneg (cart (db_after (add_to_cart e b d))))
  /\ (forall e b action, prices_nonneg (cart (db_after (update e b action d))))
  /\ (forall e b, prices_nonneg (cart (db_after (delete e b d))))
  /\ (forall cfg gw e body,
        prices_nonneg (cart (db_after (payment_success cfg gw e body d)))).
Proof.
  intros [_ Hq] Hp.
  split; [rewrite cart_total_sum; apply cart_sum_nonneg; assumption|].
  split; [intros; apply home_prices, Hp|].
  split; [intros; apply add_to_cart_prices, Hp|].
  split; [intros; apply update_prices, Hp|].
  split; [intros; apply delete_prices, Hp|].
  intros; apply payment_success_prices, Hp.
Qed.

Section LedgerInvariant.

Implicit Types (e : env) (d : db).

Lemma ledger_inv_same d d' : same_ledger d d' -> ledger_inv d -> ledger_inv d'.
Proof. intros [Ho Hs]. unfold ledger_inv. rewrite Ho, Hs. auto. Qed.

Lemma ledger_inv_committed d e amount :
  generate_order_number e ∉ Orders.order_number <$> orders d ->
  ledger_inv d -> ledger_inv (committed_db d e amount).
Proof.
  intros Hfresh (Hn & Hi & Hs). unfold ledger_inv, committed_db. simpl.
  rewrite !fmap_app. simpl. split; [|split].
  - apply NoDup_app. split; [exact Hn|]. split; [|apply NoDup_singleton].
    intros x Hx Hx'. apply list_elem_of_singleton in Hx'. subst x. contradiction.
  - apply NoDup_app. split; [exact Hi|]. split; [|apply NoDup_singleton].
    intros x Hx Hx'. apply list_elem_of_singleton in Hx'. subst x.
    apply list_elem_of_fmap in Hx as (o & Ho & Hin).
    rewrite Forall_forall in Hs. specialize (Hs o Hin). lia.
  - apply Forall_app. split.
    + eapply Forall_impl; [exact Hs|]. intros o Ho. simpl in *. lia.
    + constructor; [simpl; lia|constructor].
Qed.

Lemma payment_success_ledger cfg gw e body d :
  ledger_inv d ->
  ledger_inv (db_after (payment_success cfg gw e body d))
  /\ orders d `prefix_of` orders (db_after (payment_success cfg gw e body d))
  /\ (length (orders (db_after (payment_success cfg gw e body d)))
      <= length (orders d) + 1)%nat.
Proof.
  intros Hinv.
  destruct (payment_success_cases cfg gw e body d)
    as [(_ & _ & amount & _ & _ & Hfresh & ->) | (-> & _)].
  - split; [apply ledger_inv_committed; assumption|]. simpl.
    split; [apply prefix_app_r; reflexivity|]. rewrite length_app. simpl. lia.
  - split; [exact Hinv|]. split; [reflexivity|lia].
Qed.

End LedgerInvariant.

(** X12. The orders table keeps its invariant (order numbers unique, ids
    unique, no id beyond the AUTOINCREMENT counter) under every handler that
    writes; [payment_success] only appends to it, at most one row per call. *)
Theorem ledger_invariant_preserved d :
  ledger_inv d ->
  (forall cfg gw e body,
      let o := payment_success cfg gw e body d in
      ledger_inv (db_after o)
      /\ orders d `prefix_of` orders (db_after o)
      /\ (length (orders (db_after o)) <= length (orders d) + 1)%nat)
  /\ (forall e f, ledger_inv (db_after (home e f d)))
  /\ (forall e b, ledger_inv (db_after (add_to_cart e b d)))
  /\ (forall e b action, ledger_inv (db_after (update e b action d)))
  /\ (forall e b, ledger_inv (db_after (delete e b d))).
Proof.
  intros Hinv.
  split; [intros; apply payment_success_ledger, Hinv|].
  split; [intros e f; destruct (home_set_cart e f d) as [items ->]|].
  { eapply ledger_inv_same; [apply same_ledger_set_cart | exact Hinv]. }
  split; [intros e b; destruct (add_to_cart_set_cart e b d) as [items ->]|].
  { eapply ledger_inv_same; [apply same_ledger_set_cart | exact Hinv]. }
  split; [intros e b a; destruct (update_set_cart e b a d) as [items ->]|].
  { eapply ledger_inv_same; [apply same_ledger_set_cart | exact Hinv]. }
  intros e b; destruct (delete_set_cart e b d) as [items ->].
  eapply ledger_inv_same; [apply same_ledger_set_cart | exact Hinv].
Qed.

(** ** The cart page, and order numbers *)

Section Viewing.

Implicit Types (e : env) (d : db) (b : string) (items : list Cart.row).

Lemma read_cart_run d fault :
  with_db (query select_cart) d fault
  = if fails_within 2 fault then (Raise storage_failure, d, [])
    else (Ok (cart d), d, []).
Proof. destruct fault as [[|[|n]]|]; reflexivity. Qed.

Lemma home_get_run e d :
  home_get e d
  = if fails_within 2 (storage_fault e)
    then {| page_of := CartPage [] 0 (generate_order_number e);
            view_flashed := [("error", "Error loading cart. Please refresh.")];
            view_db := d |}
    else {| page_of := CartPage (cart d) (cart_sum (cart d)) (generate_order_number e);
            view_flashed := []; view_db := d |}.
Proof.
  unfold home_get. rewrite read_cart_run.
  destruct (fails_within 2 (storage_fault e)); [reflexivity|].
  rewrite cart_total_sum. reflexivity.
Qed.

Lemma checkout_db cfg e d : db_after (checkout cfg e d) = d.
Proof.
  unfold checkout. rewrite read_cart_run.
  destruct (fails_within 2 (storage_fault e)); [reflexivity|].
  destruct (cart d); [reflexivity|].
  destruct (final_amount _); reflexivity.
Qed.

Lemma create_order_db cfg gw e body d :
  db_after (create_order cfg gw e body d) = d
  /\ (length (gateway_requests (create_order cfg gw e body d)) <= 1)%nat.
Proof.
  unfold create_order. destruct (razorpay_client cfg); [|simpl; auto].
  rewrite create_order_block_run.
  destruct (fails_within 2 (storage_fault e)); [simpl; auto|].
  destruct (cart d) as [|i items]; [simpl; auto|].
  destruct (final_amount _); [|simpl; auto].
  destruct (request_json body); [|simpl; auto]. simpl.
  destruct (order_create gw _); simpl; auto.
Qed.

Lemma add_qty_absent b q items :
  b ∉ Cart.barcode <$> items -> add_qty b q <$> items = items.
Proof.
  induction items as [|r items IH]; [reflexivity|].
  rewrite fmap_cons, not_elem_of_cons. intros [Hne Hnin].
  rewrite fmap_cons, IH by exact Hnin.
  rewrite add_qty_ne by (intros Heq; apply Hne; symmetry; exact Heq).
  reflexivity.
Qed.

Lemma line_absent b items :
  b ∉ Cart.barcode <$> items -> filter (fun r => Cart.barcode r = b) items = [].
Proof.
  induction items as [|r items IH]; [reflexivity|].
  rewrite fmap_cons, not_elem_of_cons. intros [Hne Hnin].
  rewrite filter_cons. destruct (decide (Cart.barcode r = b)) as [Hb|_].
  - exfalso. apply Hne. symmetry. exact Hb.
  - apply IH, Hnin.
Qed.

(** Adding [q] units to the line of [b] adds [q] times its price. *)
Lemma cart_sum_add_qty b q items :
  NoDup (Cart.barcode <$> items) ->
  cart_sum (add_qty b q <$> items)
  = cart_sum items
    + default 0 (Cart.price <$> head (filter (fun r => Cart.barcode r = b) items)) * q.
Proof.
  induction items as [|r items IH]; [intros _; reflexivity|].
  rewrite fmap_cons. intros Hn. apply NoDup_cons in Hn as [Hnin Hn].
  rewrite fmap_cons, filter_cons, !cart_sum_cons.
  destruct (decide (Cart.barcode r = b)) as [Hb|Hb].
  - rewrite Hb in Hnin. rewrite add_qty_absent by exact Hnin.
    rewrite add_qty_eq by exact Hb. simpl. lia.
  - rewrite add_qty_ne by exact Hb. rewrite IH by exact Hn. lia.
Qed.

Lemma scan_total e f d p :
  load_products (products_file e) !! Py.strip (default "" (form_barcode f)) = Some p ->
  fits_sqlite_int (Product.price p) = true ->
  requested_qty f <= sqlite_int_max ->
  storage_fault e = None ->
  cart_inv (cart d) ->
  cart_sum (cart (db_after (home e f d)))
  = cart_sum (cart d)
    + unit_price (Py.strip (default "" (form_barcode f))) p d * requested_qty f.
Proof.
  set (b := Py.strip (default "" (form_barcode f))).
  intros Hp Hfit Hq He [Hn _].
  assert (Hq' : fits_sqlite_int (requested_qty f) = true).
  { pose proof (requested_qty_pos f). unfold fits_sqlite_int, sqlite_int_min.
    apply andb_true_iff. split; apply Z.leb_le; [lia|exact Hq]. }
  pose proof (load_products_clean _ _ _ Hp) as (Hne & _).
  unfold home. fold b. rewrite Hp, He.
  destruct (decide (b = "")) as [|_]; [contradiction|].
  rewrite scan_block_healthy. unfold unit_price.
  destruct (select_qty b d) as [k|] eqn:Hs.
  - unfold update_qty_add. rewrite bind_int_fits by exact Hq'. simpl.
    rewrite cart_sum_add_qty by exact Hn.
    unfold select_qty in Hs.
    destruct (head (filter _ (cart d))) as [r|]; [reflexivity|discriminate].
  - unfold insert_cart. rewrite !bind_int_fits by assumption.
    apply select_qty_None in Hs.
    destruct (decide (b ∈ Cart.barcode <$> cart d)) as [|_]; [contradiction|].
    simpl. rewrite cart_sum_app, line_absent by exact Hs.
    rewrite cart_sum_cons. simpl. unfold cart_sum. simpl. lia.
Qed.

End Viewing.

(** X13. [home] on a GET, [checkout] and [create_order] leave the stored
    state exactly as it was, whatever happens. [home] on a GET shows the
    stored cart with the sum of price times quantity as its total or, when
    the cart cannot be read, an empty cart with total 0 and the flashed
    error; [create_order] sends at most one request to the gateway. *)
Theorem reading_handlers_change_nothing d :
  (forall e,
      view_db (home_get e d) = d
      /\ (page_of (home_get e d)
           = CartPage (cart d) (cart_sum (cart d)) (generate_order_number e)
           /\ view_flashed (home_get e d) = []
          \/ page_of (home_get e d) = CartPage [] 0 (generate_order_number e)
             /\ view_flashed (home_get e d)
                = [("error", "Error loading cart. Please refresh.")]))
  /\ (forall cfg e, db_after (checkout cfg e d) = d)
  /\ (forall cfg gw e body,
        db_after (create_order cfg gw e body d) = d
        /\ (length (gateway_requests (create_order cfg gw e body d)) <= 1)%nat).
Proof.
  split; [|split].
  - intros e. rewrite home_get_run. destruct (fails_within _ _); simpl; auto.
  - intros. apply checkout_db.
  - intros. apply create_order_db.
Qed.



Section OrderNumbers.

Lemma length_append s t :
  String.length (s +:+ t) = (String.length s + String.length t)%nat.
Proof.
  induction s as [|c s IH]; [reflexivity|].
  rewrite append_cons. simpl. rewrite IH. reflexivity.
Qed.

Lemma all_digits_append s t : all_digits (s +:+ t) = all_digits s && all_digits t.
Proof.
  induction s as [|c s IH]; [reflexivity|].
  rewrite append_cons. simpl. rewrite IH, andb_assoc. reflexivity.
Qed.

(** Strings with suffixes of one length are equal part by part. *)
Lemma append_inj_length s1 s2 t1 t2 :
  String.length t1 = String.length t2 ->
  s1 +:+ t1 = s2 +:+ t2 -> s1 = s2 /\ t1 = t2.
Proof.
  intros Hl. revert s2. induction s1 as [|c s1 IH]; intros [|c' s2] H.
  - auto.
  - exfalso. rewrite append_nil_l in H. subst t1. rewrite append_cons in Hl.
    simpl in Hl. rewrite length_append in Hl. lia.
  - exfalso. rewrite append_nil_l in H. subst t2. rewrite append_cons in Hl.
    simpl in Hl. rewrite length_append in Hl. lia.
  - rewrite !append_cons in H. injection H as -> H.
    apply IH in H as [-> ->]. auto.
Qed.

Lemma str_below_1000_check :
  forallb (fun n => str_check 1 3 (Z.of_nat n)) (seq 0 1000) = true.
Proof. vm_compute. reflexivity. Qed.

Lemma str_from_100_check :
  forallb (fun n => str_check 3 3 (Z.of_nat n)) (seq 100 900) = true.
Proof. vm_compute. reflexivity. Qed.

Lemma str_below_1000 z :
  0 <= z < 1000 ->
  (1 <= String.length (Py.str z) <= 3)%nat /\ all_digits (Py.str z) = true.
Proof.
  intros Hz. pose proof str_below_1000_check as H.
  rewrite forallb_forall in H. specialize (H (Z.to_nat z)).
  rewrite Z2Nat.id in H by lia. unfold str_check in H.
  rewrite !andb_true_iff, !Nat.leb_le in H. apply H.
  apply in_seq. lia.
Qed.

Lemma str_from_100 z :
  100 <= z < 1000 ->
  String.length (Py.str z) = 3%nat /\ all_digits (Py.str z) = true.
Proof.
  intros Hz. pose proof str_from_100_check as H.
  rewrite forallb_forall in H. specialize (H (Z.to_nat z)).
  rewrite Z2Nat.id in H by lia. unfold str_check in H.
  rewrite !andb_true_iff, !Nat.leb_le in H.
  assert (In (Z.to_nat z) (seq 100 900)) as Hin by (apply in_seq; lia).
  specialize (H Hin). split; [lia | apply H].
Qed.

Lemma randint_range src : 100 <= randint 100 999 src < 1000.
Proof.
  unfold randint. change (999 - 100 + 1) with 900.
  pose proof (Z.mod_pos_bound src 900). lia.
Qed.

End OrderNumbers.

(** X15. An order number is made of 4 to 6 decimal digits. *)
Theorem order_number_shape e :
  (4 <= String.length (generate_order_number e) <= 6)%nat
  /\ all_digits (generate_order_number e) = true.
Proof.
  unfold generate_order_number.
  pose proof (str_below_1000 (time_time e mod 1000)) as [Hl Hd].
  { apply Z.mod_pos_bound. lia. }
  pose proof (str_from_100 _ (randint_range (random_source e))) as [Hl' Hd'].
  rewrite length_append, all_digits_append, Hl', Hd, Hd'. split; [lia|reflexivity].
Qed.

(** X16. Two calls of [generate_order_number] return the same number
    exactly when their clock readings agree modulo 1000 and their random draws
    agree: the number tells both apart, and there are 900 000 of them. *)
Theorem order_numbers_collide e1 e2 :
  generate_order_number e1 = generate_order_number e2
  <-> time_time e1 mod 1000 = time_time e2 mod 1000
      /\ randint 100 999 (random_source e1) = randint 100 999 (random_source e2).
Proof.
  unfold generate_order_number. split.
  - intros H. apply append_inj_length in H as [Ht Hr].
    + apply (inj pretty) in Ht. apply (inj pretty) in Hr. auto.
    + pose proof (str_from_100 _ (randint_range (random_source e1))) as [-> _].
      pose proof (str_from_100 _ (randint_range (random_source e2))) as [-> _].
      reflexivity.
  - intros [Ht Hr]. rewrite Ht, Hr. reflexivity.
Qed.

(** ** The gallery *)

Section Gallery.

Implicit Types (k b : string) (v p : Product.t) (items : list (string * Product.t)).

Lemma dict_set_keys k v items :
  (dict_set k v items).*1 = if decide (k ∈ items.*1) then items.*1 else items.*1 ++ [k].
Proof.
  unfold dict_set. destruct (decide (k ∈ items.*1)) as [_|_].
  - rewrite <- list_fmap_compose. apply list_fmap_ext.
    intros i [k' v'] _. simpl. destruct (decide (k' = k)) as [->|]; reflexivity.
  - rewrite fmap_app. reflexivity.
Qed.

Lemma dict_set_NoDup k v items : NoDup items.*1 -> NoDup (dict_set k v items).*1.
Proof.
  intros Hn. rewrite dict_set_keys. destruct (decide (k ∈ items.*1)) as [|Hk];
    [exact Hn|].
  apply NoDup_app. split; [exact Hn|]. split; [|apply NoDup_singleton].
  intros x Hx Hx'. apply list_elem_of_singleton in Hx'. subst x. contradiction.
Qed.

Lemma dict_set_elem k v items k' v' :
  (k', v') ∈ dict_set k v items
  <-> (k' = k /\ v' = v) \/ (k' <> k /\ (k', v') ∈ items).
Proof.
  unfold dict_set. destruct (decide (k ∈ items.*1)) as [Hk|Hk].
  - rewrite list_elem_of_fmap. split.
    + intros ([k0 v0] & Heq & Hin). simpl in Heq.
      destruct (decide (k0 = k)) as [->|Hne]; injection Heq as -> ->; auto.
    + intros [[-> ->] | [Hne Hin]].
      * apply list_elem_of_fmap in Hk as ([k0 v0] & -> & Hin).
        exists (k0, v0). simpl. destruct (decide (k0 = k0)); [auto|contradiction].
      * exists (k', v'). simpl. destruct (decide (k' = k)); [contradiction|auto].
  - rewrite elem_of_app, list_elem_of_singleton. split.
    + intros [Hin | [= -> ->]]; [right|auto]. split; [|exact Hin].
      intros ->. apply Hk. apply list_elem_of_fmap. exists (k, v'). auto.
    + intros [[-> ->] | [_ Hin]]; auto.
Qed.

Lemma items_lookup (lines : list string) b p :
  (b, p) ∈ foldl add_line_items [] lines <-> foldl add_line ∅ lines !! b = Some p.
Proof.
  revert b p. induction lines as [|line lines IH] using rev_ind; intros b p.
  { simpl. rewrite lookup_empty. split; [intros H|discriminate].
    apply elem_of_nil in H. contradiction. }
  rewrite !foldl_app. simpl. unfold add_line_items at 1, add_line at 1.
  destruct (parse_line line) as [[b' p']|]; [|apply IH].
  rewrite dict_set_elem, lookup_insert_Some, IH. intuition congruence.
Qed.

Lemma items_NoDup (lines : list string) : NoDup (foldl add_line_items [] lines).*1.
Proof.
  induction lines as [|line lines IH] using rev_ind; [constructor|].
  rewrite foldl_app. simpl. unfold add_line_items at 1.
  destruct (parse_line line) as [[b' p']|]; [|exact IH].
  apply dict_set_NoDup, IH.
Qed.

(** The keys come in the order of their first accepted line. *)
Lemma items_order (lines : list string) :
  (foldl add_line_items [] lines).*1
  = reverse (remove_dups (reverse (omap parse_line lines).*1)).
Proof.
  induction lines as [|line lines IH] using rev_ind; [reflexivity|].
  rewrite foldl_app, omap_app. simpl. unfold add_line_items at 1.
  destruct (parse_line line) as [[b' p']|]; simpl; [|rewrite app_nil_r; exact IH].
  rewrite dict_set_keys, fmap_app, reverse_app. simpl.
  assert (Hiff : b' ∈ (foldl add_line_items [] lines).*1
                 <-> b' ∈ reverse (omap parse_line lines).*1).
  { rewrite IH, elem_of_reverse, elem_of_remove_dups. reflexivity. }
  destruct (decide (b' ∈ (foldl add_line_items [] lines).*1)) as [Hin|Hnin];
    destruct (decide_rel elem_of b' (reverse (omap parse_line lines).*1))
      as [Hin'|Hnin']; [exact IH | tauto | tauto |].
  rewrite reverse_cons, IH. reflexivity.
Qed.

Lemma products_items_lookup f b p :
  (b, p) ∈ products_items f <-> load_products f !! b = Some p.
Proof.
  destruct f as [| |text]; simpl; try apply items_lookup;
    (rewrite lookup_empty; split; [intros H; apply elem_of_nil in H; contradiction
                                  |discriminate]).
Qed.

End Gallery.

(** X17. [shop] passes the access key and the two clock strings to its
    template, and lists every barcode of the catalogue exactly once, in the
    order of the first accepted line that carries it, with the name and price
    [load_products] gives it (those of the last such line). *)
Theorem shop_lists_catalogue key e now :
  exists products,
    shop key e now = ShopPage products key (current_date now) (current_time now)
    /\ item_barcode <$> products
       = reverse (remove_dups (reverse (catalog_barcodes (products_file e))))
    /\ NoDup (item_barcode <$> products)
    /\ (forall b n p,
          {| item_barcode := b; item_name := n; item_price := p |} ∈ products
          <-> load_products (products_file e) !! b
              = Some {| Product.name := n; Product.price := p |}).
Proof.
  eexists. split; [reflexivity|].
  assert (Hk : item_barcode <$>
                 ((fun kv : string * Product.t =>
                     {| item_barcode := kv.1; item_name := Product.name kv.2;
                        item_price := Product.price kv.2 |})
                    <$> products_items (products_file e))
               = (products_items (products_file e)).*1).
  { rewrite <- list_fmap_compose. reflexivity. }
  rewrite Hk. split; [|split].
  - destruct (products_file e) as [| |text]; try reflexivity.
    apply items_order.
  - destruct (products_file e) as [| |text]; try constructor.
    apply items_NoDup.
  - intros b n p. rewrite <- products_items_lookup, list_elem_of_fmap. split.
    + intros ([b' [n' p']] & [= -> -> ->] & Hin). exact Hin.
    + intros Hin. eexists. split; [|exact Hin]. reflexivity.
Qed.

(** ** The image placeholder *)

(** "A", e with an acute accent (233) and y with a diaeresis (255). *)
Example str_encode_utf8_example :
  str_encode_utf8 (String "A" (String "233" (String "255" "")))
  = [Byte.x41; Byte.xc3; Byte.xa9; Byte.xc3; Byte.xbf].
Proof. reflexivity. Qed.

Example svg_placeholder_example :
  _svg_placeholder "a<b>"
  = str_encode_utf8 (Py.lstrip svg_head +:+ "a&lt;b&gt;" +:+ Py.rstrip svg_tail).
Proof. vm_compute. reflexivity. Qed.

Section Placeholder.

Implicit Types (s t u : string) (c : ascii).

Lemma lstrip_append s t : Py.lstrip s <> "" -> Py.lstrip (s +:+ t) = Py.lstrip s +:+ t.
Proof.
  induction s as [|c s IH]; [contradiction|].
  rewrite append_cons. simpl. destruct (Py.isspace c); [exact IH|].
  intros _. reflexivity.
Qed.

Lemma rstrip_append s t : Py.rstrip t <> "" -> Py.rstrip (s +:+ t) = s +:+ Py.rstrip t.
Proof.
  unfold Py.rstrip. intros Ht. rewrite rev_append, lstrip_append.
  - rewrite rev_append, rev_involutive. reflexivity.
  - intros H. apply Ht. rewrite H. reflexivity.
Qed.

Lemma encode_append s t :
  str_encode_utf8 (s +:+ t) = str_encode_utf8 s ++ str_encode_utf8 t.
Proof.
  induction s as [|c s IH]; [reflexivity|].
  rewrite append_cons. simpl. rewrite IH, app_assoc. reflexivity.
Qed.

Lemma strip_template s :
  Py.strip (svg_head +:+ s +:+ svg_tail)
  = Py.lstrip svg_head +:+ s +:+ Py.rstrip svg_tail.
Proof.
  unfold Py.strip.
  change (Py.lstrip (svg_head +:+ s +:+ svg_tail))
    with (Py.lstrip svg_head +:+ (s +:+ svg_tail)).
  rewrite <- !append_assoc. apply rstrip_append. vm_compute. discriminate.
Qed.

Lemma encode_char_lt c : Byte.x3c ∈ encode_char c -> c = "<"%char.
Proof.
  destruct c as [[] [] [] [] [] [] [] []]; vm_compute; intros H;
    repeat (apply elem_of_cons in H as [H|H]; [try discriminate H|]);
    try (apply elem_of_nil in H; contradiction); reflexivity.
Qed.

Lemma encode_char_gt c : Byte.x3e ∈ encode_char c -> c = ">"%char.
Proof.
  destruct c as [[] [] [] [] [] [] [] []]; vm_compute; intros H;
    repeat (apply elem_of_cons in H as [H|H]; [try discriminate H|]);
    try (apply elem_of_nil in H; contradiction); reflexivity.
Qed.

Lemma encode_lt s : Byte.x3c ∈ str_encode_utf8 s -> contains "<" s = true.
Proof.
  induction s as [|c s IH]; simpl.
  - intros H. apply elem_of_nil in H. contradiction.
  - rewrite elem_of_app. intros [H|H].
    + apply encode_char_lt in H as ->. reflexivity.
    + rewrite IH by exact H. apply orb_true_r.
Qed.

Lemma encode_gt s : Byte.x3e ∈ str_encode_utf8 s -> contains ">" s = true.
Proof.
  induction s as [|c s IH]; simpl.
  - intros H. apply elem_of_nil in H. contradiction.
  - rewrite elem_of_app. intros [H|H].
    + apply encode_char_gt in H as ->. reflexivity.
    + rewrite IH by exact H. apply orb_true_r.
Qed.

Lemma contains_replace c old new s :
  contains c new = false -> c <> old ->
  contains c (str_replace old new s) = contains c s.
Proof.
  intros Hnew Hne. induction s as [|c' s IH]; [reflexivity|]. simpl.
  destruct (Ascii.eqb_spec c' old) as [->|Hc'].
  - rewrite contains_append, Hnew, IH. simpl.
    destruct (Ascii.eqb_spec old c) as [<-|_]; [contradiction|reflexivity].
  - simpl. rewrite IH. reflexivity.
Qed.

Lemma contains_replaced old new s :
  contains old new = false -> contains old (str_replace old new s) = false.
Proof.
  intros Hnew. induction s as [|c' s IH]; [reflexivity|]. simpl.
  destruct (Ascii.eqb_spec c' old) as [->|Hc'].
  - rewrite contains_append, Hnew, IH. reflexivity.
  - simpl. rewrite IH. apply Ascii.eqb_neq in Hc'. rewrite Hc'. reflexivity.
Qed.

Lemma replace_absent old new s :
  contains old s = false -> str_replace old new s = s.
Proof.
  induction s as [|c' s IH]; [reflexivity|]. simpl.
  intros H. apply orb_false_iff in H as [Hc Hs]. rewrite Hc, IH by exact Hs.
  reflexivity.
Qed.

Lemma safe_text_clean text :
  contains "<" (safe_text text) = false /\ contains ">" (safe_text text) = false.
Proof.
  unfold safe_text. split.
  - rewrite contains_replace by (reflexivity || discriminate).
    apply contains_replaced. reflexivity.
  - apply contains_replaced. reflexivity.
Qed.

End Placeholder.

(** X18. [_svg_placeholder] returns the UTF-8 bytes of the SVG frame
    (the two parts of the f-string, without the white space around them)
    around the escaped text; the escaped text holds no byte "<" or ">"; and a
    text without these two characters is inserted as it is, its own white
    space included. *)
Theorem svg_placeholder_escapes text :
  _svg_placeholder text
  = str_encode_utf8 (Py.lstrip svg_head) ++ str_encode_utf8 (safe_text text)
    ++ str_encode_utf8 (Py.rstrip svg_tail)
  /\ (Byte.x3c ∉ str_encode_utf8 (safe_text text))
  /\ (Byte.x3e ∉ str_encode_utf8 (safe_text text))
  /\ (contains "<" text = false -> contains ">" text = false ->
      safe_text text = text).
Proof.
  pose proof (safe_text_clean text) as [Hlt Hgt].
  split; [|split; [|split]].
  - unfold _svg_placeholder. rewrite strip_template, !encode_append. reflexivity.
  - intros H. apply encode_lt in H. congruence.
  - intros H. apply encode_gt in H. congruence.
  - intros H1 H2. unfold safe_text. rewrite (replace_absent "<") by exact H1.
    apply replace_absent, H2.
Qed.

(** ** The payment-failure callback *)

Section Failure.

Lemma payment_failure_run body :
  payment_failure body
  = let described d :=
      {| reply_status := 200;
         reply_body := [("success", JBoolean false); ("error", d);
                        ("redirect", JString "/checkout")];
         reply_flashed := [("error", Formatted "Payment failed: " d)] |} in
    let unreadable :=
      {| reply_status := 500;
         reply_body := [("success", JBoolean false);
                        ("error", JString "Payment failed. Please try again.");
                        ("redirect", JString "/checkout")];
         reply_flashed := [("error", Text "Payment failed. Please try again.")] |} in
    match body with
    | Some (JObject m) =>
        match m !! "error" with
        | None => described (JString "Payment failed")
        | Some (JObject m') =>
            described (default (JString "Payment failed") (m' !! "description"))
        | Some _ => unreadable
        end
    | _ => unreadable
    end.
Proof.
  unfold payment_failure.
  destruct body as [[| | | | | |m]|]; try reflexivity. simpl.
  destruct (m !! "error") as [[| | | | | |m']|]; reflexivity.
Qed.

End Failure.

(** X19. [payment_failure] answers 200 exactly when the body is a JSON
    object whose "error" member is absent or is itself an object, and 500
    otherwise. Either way the body of the answer holds "success": false, an
    "error" and the redirect to checkout, and exactly one message is flashed,
    of category "error". When "error" is an object, the answer's "error" is
    its "description" member as it is (a null included) and "Payment failed"
    when it has none. *)
Theorem payment_failure_answers body :
  let o := payment_failure body in
  (reply_status o = 200
   <-> exists m, body = Some (JObject m)
                 /\ (m !! "error" = None \/ exists m', m !! "error" = Some (JObject m')))
  /\ (reply_status o = 200 \/ reply_status o = 500)
  /\ (exists err, reply_body o = [("success", JBoolean false); ("error", err);
                                  ("redirect", JString "/checkout")])
  /\ (exists msg, reply_flashed o = [("error", msg)])
  /\ (forall m m',
        body = Some (JObject m) -> m !! "error" = Some (JObject m') ->
        reply_body o
        = [("success", JBoolean false);
           ("error", default (JString "Payment failed") (m' !! "description"));
           ("redirect", JString "/checkout")]).
Proof.
  intros o. subst o. rewrite payment_failure_run.
  split; [split|].
  - destruct body as [[| | | | | |m]|]; simpl; try discriminate.
    destruct (m !! "error") as [[| | | | | |m']|] eqn:He; simpl; try discriminate;
      intros _; exists m; eauto.
  - intros (m & -> & [He | [m' He]]); simpl; rewrite He; reflexivity.
  - split; [|split; [|split]].
    + destruct body as [[| | | | | |m]|]; simpl; auto.
      destruct (m !! "error") as [[| | | | | |m']|]; simpl; auto.
    + destruct body as [[| | | | | |m]|]; simpl; eauto.
      destruct (m !! "error") as [[| | | | | |m']|]; simpl; eauto.
    + destruct body as [[| | | | | |m]|]; simpl; eauto.
      destruct (m !! "error") as [[| | | | | |m']|]; simpl; eauto.
    + intros m m' -> He. simpl. rewrite He. reflexivity.
Qed.

(** ** Product images *)

Example quote_plus_accent : quote_plus (String "233" "") = "%C3%A9".
Proof. reflexivity. Qed.

Example quote_plus_example :
  quote_plus "Apple Pie & Co/~" = "Apple+Pie+%26+Co%2F~".
Proof. vm_compute. reflexivity. Qed.

Section Images.

Implicit Types (s t : string) (c : ascii) (w : image_world) (e : env).

Lemma all_chars_append P s t : all_chars P (s +:+ t) = all_chars P s && all_chars P t.
Proof.
  induction s as [|c s IH]; [reflexivity|].
  rewrite append_cons. simpl. rewrite IH, andb_assoc. reflexivity.
Qed.

Lemma quote_byte_chars b : all_chars quoted_char (quote_byte b) = true.
Proof. destruct b; vm_compute; reflexivity. Qed.

Lemma quote_plus_chars s : all_chars quoted_char (quote_plus s) = true.
Proof.
  unfold quote_plus. induction (str_encode_utf8 s) as [|b bs IH]; [reflexivity|].
  simpl. rewrite all_chars_append, quote_byte_chars, IH. reflexivity.
Qed.

Lemma quote_unreserved c :
  url_unreserved c = true ->
  foldr (fun b acc => quote_byte b +:+ acc) "" (encode_char c) = String c "".
Proof.
  destruct c as [[] [] [] [] [] [] [] []]; vm_compute; intros H;
    try discriminate H; reflexivity.
Qed.

Lemma foldr_quote_app bs1 bs2 :
  foldr (fun b acc => quote_byte b +:+ acc) "" (bs1 ++ bs2)
  = foldr (fun b acc => quote_byte b +:+ acc) "" bs1
    +:+ foldr (fun b acc => quote_byte b +:+ acc) "" bs2.
Proof.
  induction bs1 as [|b bs1 IH]; [reflexivity|].
  simpl. rewrite IH, append_assoc. reflexivity.
Qed.

Lemma quote_plus_unreserved s :
  all_chars url_unreserved s = true -> quote_plus s = s.
Proof.
  unfold quote_plus. induction s as [|c s IH]; [reflexivity|].
  simpl. intros H. apply andb_true_iff in H as [Hc Hs].
  rewrite foldr_quote_app, quote_unreserved, IH by assumption. reflexivity.
Qed.

Lemma fetch_image_cases key w barcode name :
  let asked := SearchRequest (search_url key name) in
  let '(r, did) := fetch_image key w barcode name in
  (r = None \/ exists sent, r = Some (SendFile (cache_path barcode) "image/jpeg" sent))
  /\ (did = []
      \/ did = [asked]
      \/ (exists url, did = [asked; DownloadRequest url])
      \/ (exists url img,
            download w url = Ok img /\ status_code_of img = 200
            /\ did = [asked; DownloadRequest url;
                      CacheWrite (cache_path barcode) (content_of img)])).
Proof.
  unfold fetch_image.
  destruct (requests_importable w); simpl; [|split; auto].
  destruct (search w _) as [r|x]; [|split; auto].
  destruct (found_image_url r) as [url|]; [|split; auto].
  destruct (download w url) as [img|x] eqn:Hd;
    [|split; [auto | right; right; left; eauto]].
  destruct (Z.eqb_spec (status_code_of img) 200) as [Hs|Hs]; simpl;
    [|split; [auto | right; right; left; eauto]].
  destruct (write_cache w _); [|split; [auto | do 3 right; eauto]].
  destruct (send_written w _); (split; [eauto | do 3 right; eauto]).
Qed.

Lemma product_image_cases key e w barcode :
  let '(r, did) := product_image key e w barcode in
  ((exists x, makedirs w = Raise x /\ r = ImageUnhandled x /\ did = [])
   \/ (exists sent, r = SendFile (cache_path barcode) "image/jpeg" sent)
   \/ r = MakeResponse (_svg_placeholder (image_name e barcode)) "image/svg+xml")
  /\ image_effects_shape key e w barcode did.
Proof.
  unfold product_image, image_effects_shape. fold (image_name e barcode).
  destruct (makedirs w) as [[]|x]; [|split; eauto 8].
  destruct (cache_exists w); simpl.
  - destruct (send_cached w) as [sent|x]; simpl; [split; eauto|].
    destruct (decide (key = "")); [split; auto|].
    pose proof (fetch_image_cases key w barcode (image_name e barcode)) as H.
    simpl in H. destruct (fetch_image _ _ _ _) as [[r|] did].
    + destruct H as [[H|[sent [= ->]]] Hd]; [discriminate|]. split; eauto.
    + destruct H as [_ Hd]. split; auto.
  - destruct (decide (key = "")); [split; auto|].
    pose proof (fetch_image_cases key w barcode (image_name e barcode)) as H.
    simpl in H. destruct (fetch_image _ _ _ _) as [[r|] did].
    + destruct H as [[H|[sent [= ->]]] Hd]; [discriminate|]. split; eauto.
    + destruct H as [_ Hd]. split; auto.
Qed.

Lemma product_image_quiet key e w barcode :
  key = "" \/ requests_importable w = false
  \/ (exists sent, cache_exists w = true /\ send_cached w = Ok sent) ->
  (product_image key e w barcode).2 = [].
Proof.
  unfold product_image.
  destruct (makedirs w) as [[]|x]; [|reflexivity].
  intros [-> | [Hr | (sent & -> & ->)]]; [| |reflexivity].
  - destruct (cache_exists w); simpl; [destruct (send_cached w)|]; reflexivity.
  - assert (Hf : forall name, fetch_image key w barcode name = (None, [])).
    { intros name. unfold fetch_image. rewrite Hr. reflexivity. }
    destruct (cache_exists w); simpl; [destruct (send_cached w); simpl|];
      try reflexivity; destruct (decide (key = "")); rewrite ?Hf; reflexivity.
Qed.

End Images.

(** X20. Whatever the file system and the network do, [product_image]
    lets an exception out only when creating the cache directory fails;
    otherwise it answers with the JPEG file at the cache path of the barcode,
    or with the SVG placeholder of the product's name ("Product" when the
    catalogue does not know the barcode) as image/svg+xml. *)
Theorem product_image_answers key e w barcode :
  let r := (product_image key e w barcode).1 in
  (exists x, makedirs w = Raise x /\ r = ImageUnhandled x)
  \/ (exists sent, r = SendFile (cache_path barcode) "image/jpeg" sent)
  \/ r = MakeResponse (_svg_placeholder (image_name e barcode)) "image/svg+xml".
Proof.
  pose proof (product_image_cases key e w barcode) as H.
  destruct (product_image key e w barcode) as [r did]. simpl.
  destruct H as [[(x & Hm & -> & _) | [H | H]] _]; eauto.
Qed.

(** X21. One [product_image] request sends at most one search request,
    to the search URL of the product's name, then at most one download
    request, and writes the cache file only with the body of a download that
    answered 200. It sends and writes nothing when the access key is empty,
    when [requests] cannot be imported, or when the cached file exists and
    can be sent. *)
Theorem product_image_effects key e w barcode :
  image_effects_shape key e w barcode (product_image key e w barcode).2
  /\ (key = "" \/ requests_importable w = false
      \/ (exists sent, cache_exists w = true /\ send_cached w = Ok sent) ->
      (product_image key e w barcode).2 = []).
Proof.
  split; [|apply product_image_quiet].
  pose proof (product_image_cases key e w barcode) as H.
  destruct (product_image key e w barcode) as [r did]. apply H.
Qed.

(** X22. The search URL holds the product's name only through
    [quote_plus]: the quoted name is made of letters, digits and the
    characters _ . - ~ + %, so that it cannot end the query parameter or add
    another, and a name made of unreserved characters is quoted as itself. *)
Theorem search_url_is_quoted key name :
  search_url key name
  = "https://api.unsplash.com/search/photos?query=" +:+ quote_plus name
    +:+ "&per_page=1&content_filter=high&orientation=landscape&client_id=" +:+ key
  /\ all_chars quoted_char (quote_plus name) = true
  /\ (all_chars url_unreserved name = true -> quote_plus name = name).
Proof.
  split; [|split; [apply quote_plus_chars | apply quote_plus_unreserved]].
  reflexivity.
Qed.

(** ** When an order is created *)

Section CreateOrder.

Implicit Types (cfg : config) (gw : gateway) (e : env) (d : db).

Lemma create_order_accepted cfg gw e body d amount rq order_id :
  order_accepted cfg gw e body d amount rq order_id ->
  create_order cfg gw e body d
  = {| response_of := order_created cfg order_id (amount * 100);
       flashed := [];
       gateway_requests := [make_order_data e rq (amount * 100) (cart d)];
       db_after := d |}.
Proof.
  intros ([client Hc] & Hf & Hne & Ha & -> & Hg).
  unfold create_order. rewrite Hc, create_order_block_run, Hf.
  destruct (cart d) as [|i items] eqn:Hcart; [contradiction|].
  rewrite Ha. simpl. rewrite Hg. reflexivity.
Qed.

Lemma create_order_status cfg gw e body d :
  status_code (response_of (create_order cfg gw e body d)) = 200
  -> exists amount rq order_id, order_accepted cfg gw e body d amount rq order_id.
Proof.
  unfold create_order, order_accepted.
  destruct (razorpay_client cfg) as [client|] eqn:Hc; [|discriminate].
  rewrite create_order_block_run.
  destruct (fails_within 2 (storage_fault e)); [discriminate|].
  destruct (cart d) as [|i items]; [discriminate|].
  destruct (final_amount _) as [amount|x]; [|discriminate].
  destruct body as [rq|]; [|discriminate]. simpl.
  destruct (order_create gw _) as [order_id|x] eqn:Hg; [|discriminate].
  intros _. exists amount, rq, order_id. repeat split; eauto.
Qed.

Lemma create_order_statuses cfg gw e body d :
  status_code (response_of (create_order cfg gw e body d)) = 200
  \/ status_code (response_of (create_order cfg gw e body d)) = 400
  \/ status_code (response_of (create_order cfg gw e body d)) = 500.
Proof.
  unfold create_order.
  destruct (razorpay_client cfg) as [client|]; [|auto].
  rewrite create_order_block_run.
  destruct (fails_within 2 (storage_fault e)); [auto|].
  destruct (cart d) as [|i items]; [auto|].
  destruct (final_amount _) as [amount|x]; [|auto].
  destruct (request_json body) as [rq|x]; [|auto]. simpl.
  destruct (order_create gw _); auto.
Qed.

End CreateOrder.

(** X23. [create_order] answers 200 exactly when the gateway client is
    configured, the cart can be read and is not empty, the amount can be
    computed, the body is a JSON object and the gateway returns an order id.
    The answer then carries that id, the amount in paise (100 times
    [int(total * 1.05)]), "INR" and the key id; the one request sent carries
    the same amount, "INR", the receipt "order_" followed by an order number,
    the customer fields with their defaults and the number of cart lines; the
    stored state is unchanged. Every other call answers 400 or 500. *)
Theorem create_order_succeeds_iff cfg gw e body d :
  let o := create_order cfg gw e body d in
  (status_code (response_of o) = 200
   <-> exists amount rq order_id, order_accepted cfg gw e body d amount rq order_id)
  /\ (forall amount rq order_id,
        order_accepted cfg gw e body d amount rq order_id ->
        o = {| response_of :=
                 Jsonify 200 [("order_id", JStr order_id);
                              ("amount", JInt (amount * 100));
                              ("currency", JStr "INR");
                              ("key_id", JStr (RAZORPAY_KEY_ID cfg))];
               flashed := [];
               gateway_requests :=
                 [ {| od_amount := amount * 100;
                      od_currency := "INR";
                      od_receipt := "order_" +:+ generate_order_number e;
                      od_customer_name := default "Customer" (customer_name rq);
                      od_customer_phone := default "" (customer_phone rq);
                      od_order_notes := default "" (order_notes rq);
                      od_items := length (cart d) |} ];
               db_after := d |})
  /\ (status_code (response_of o) = 200 \/ status_code (response_of o) = 400
      \/ status_code (response_of o) = 500).
Proof.
  intros o. subst o. split; [split|split].
  - apply create_order_status.
  - intros (amount & rq & order_id & H).
    rewrite (create_order_accepted _ _ _ _ _ _ _ _ H). reflexivity.
  - intros amount rq order_id H. apply create_order_accepted, H.
  - apply create_order_statuses.
Qed.

(** ** From a scan to the amount of the order *)

Section ScanAndPay.

Implicit Types (cfg : config) (gw : gateway) (e : env) (d : db).

Lemma unit_price_nonneg b p d :
  0 <= Product.price p -> prices_nonneg (cart d) -> 0 <= unit_price b p d.
Proof.
  intros Hp Hd. unfold unit_price.
  destruct (head (filter _ (cart d))) as [r|] eqn:Hh; simpl; [|exact Hp].
  apply head_Some_elem_of, list_elem_of_filter in Hh as [_ Hin].
  unfold prices_nonneg in Hd. rewrite Forall_forall in Hd. apply Hd, Hin.
Qed.

End ScanAndPay.

(** X24. After a scan of a product of the catalogue (price storable,
    quantity at most 2^63 - 1, healthy storage) into a cart that satisfies its
    invariant and whose prices are not negative, when the new total (old total
    plus unit price times requested quantity) is below 2^48, every request
    [create_order] sends to the gateway carries 100 times the floor of 21/20
    of the new total as its amount, in paise. *)
Theorem scan_then_order_amount cfg gw e e' f body d p rq :
  load_products (products_file e) !! Py.strip (default "" (form_barcode f)) = Some p ->
  fits_sqlite_int (Product.price p) = true ->
  requested_qty f <= sqlite_int_max ->
  storage_fault e = None ->
  cart_inv (cart d) -> prices_nonneg (cart d) ->
  cart_sum (cart d)
  + unit_price (Py.strip (default "" (form_barcode f))) p d * requested_qty f < 2 ^ 48 ->
  gateway_requests (create_order cfg gw e' body (db_after (home e f d))) = [rq] ->
  od_amount rq
  = 21 * (cart_sum (cart d)
          + unit_price (Py.strip (default "" (form_barcode f))) p d * requested_qty f)
    / 20 * 100.
Proof.
  intros Hp Hfit Hq He Hinv Hpr Hlt Hrq.
  apply create_order_request in Hrq as (_ & amount & Ha & ->).
  rewrite (scan_total e f d p) in Ha by assumption.
  rewrite final_amount_exact in Ha; [congruence|].
  split; [|exact Hlt].
  pose proof (load_products_clean _ _ _ Hp) as (_ & _ & _ & _ & _ & Hp0).
  pose proof (unit_price_nonneg (Py.strip (default "" (form_barcode f))) p d Hp0 Hpr).
  pose proof (requested_qty_pos f).
  pose proof (cart_sum_nonneg (cart d) Hpr (proj2 Hinv)). nia.
Qed.

(** * The further properties at concrete inputs *)

Example shop_example :
  shop "key" {| products_file := mixed_catalog; time_time := 0; random_source := 0;
                storage_fault := None |} noon
  = ShopPage [ {| item_barcode := "B2"; item_name := "Williams pear"; item_price := 80 |};
               {| item_barcode := "A1"; item_name := "Apple"; item_price := 50 |} ]
      "key" "Wed, 04 Nov 2026" "12:00 PM".
Proof. vm_compute. reflexivity. Qed.

Example home_get_example :
  home_get calm_env two_apples
  = {| page_of := CartPage (cart two_apples) 100 "1100"; view_flashed := [];
       view_db := two_apples |}
  /\ home_get {| products_file := apple_catalog; time_time := 1700000001;
                 random_source := 0; storage_fault := Some 1%nat |} two_apples
     = {| page_of := CartPage [] 0 "1100";
          view_flashed := [("error", "Error loading cart. Please refresh.")];
          view_db := two_apples |}.
Proof. vm_compute. split; reflexivity. Qed.

Example payment_failure_examples :
  reply_status (payment_failure None) = 500
  /\ reply_status (payment_failure (Some (JArray []))) = 500
  /\ reply_status (payment_failure (Some (JObject {[ "error" := JString "declined" ]})))
     = 500
  /\ payment_failure (Some (JObject ∅))
     = {| reply_status := 200;
          reply_body := [("success", JBoolean false);
                         ("error", JString "Payment failed");
                         ("redirect", JString "/checkout")];
          reply_flashed := [("error", Formatted "Payment failed: " (JString "Payment failed"))] |}
  /\ reply_body (payment_failure (Some (JObject {[ "error" :=
       JObject {[ "description" := JNull ]} ]})))
     = [("success", JBoolean false); ("error", JNull);
        ("redirect", JString "/checkout")].
Proof. rewrite !payment_failure_run. vm_compute. repeat split; reflexivity. Qed.

Example product_image_examples :
  product_image "key" calm_env offline "A1"
  = (MakeResponse (_svg_placeholder "Apple") "image/svg+xml",
     [SearchRequest (search_url "key" "Apple")])
  /\ product_image "" calm_env offline "Z9"
     = (MakeResponse (_svg_placeholder "Product") "image/svg+xml", [])
  /\ product_image "key" calm_env online "A1"
     = (SendFile ["static"; "cache_images"; "A1.jpg"] "image/jpeg" [Byte.xff; Byte.xd8],
        [SearchRequest (search_url "key" "Apple");
         DownloadRequest (JString "https://images.example/apple");
         CacheWrite ["static"; "cache_images"; "A1.jpg"] [Byte.xff; Byte.xd8]]).
Proof. vm_compute. repeat split; reflexivity. Qed.


Lemma delete_removes_line_witness :
  storage_fault calm_env = None
  /\ cart (db_after (delete calm_env "A1" two_apples)) = []
  /\ quantity_of "A1" (db_after (delete calm_env "A1" two_apples)) = 0.
Proof.
  split; [reflexivity|].
  destruct (delete_removes_line calm_env calm_env "A1" two_apples eq_refl)
    as (Hc & Hq & _).
  split; [rewrite Hc; reflexivity | exact Hq].
Defined.

Lemma update_changes_one_line_witness :
  cart_inv (cart two_apples)
  /\ other_lines "B2" (cart (db_after (update calm_env "B2" "dec" two_apples)))
     = cart two_apples.
Proof.
  split; [apply two_apples_inv|].
  destruct (update_changes_one_line calm_env "B2" "dec" two_apples two_apples_inv)
    as [H _].
  rewrite H. reflexivity.
Defined.

Lemma add_to_cart_flashes_witness :
  (load_products (products_file commit_fails) !! "A1"
   = Some {| Product.name := "Apple"; Product.price := 50 |}
   /\ fits_sqlite_int 50 = true
   /\ storage_fault commit_fails = Some 3%nat)
  /\ db_after (add_to_cart commit_fails "A1" two_apples) = two_apples
  /\ flashed (add_to_cart commit_fails "A1" two_apples)
     = [("success", "Added another Apple to cart!");
        ("error", "Error adding to cart. Please try again.")].
Proof.
  split; [repeat split; reflexivity|].
  destruct (add_to_cart_flashes_before_commit commit_fails "A1"
              {| Product.name := "Apple"; Product.price := 50 |} two_apples
              eq_refl eq_refl eq_refl) as (Hd & _ & Hf).
  split; [exact Hd|]. rewrite Hf. reflexivity.
Defined.

Lemma catalogue_entries_clean_witness :
  load_products mixed_catalog !! "B2"
  = Some {| Product.name := "Williams pear"; Product.price := 80 |}
  /\ Py.strip "B2" = "B2" /\ 0 <= 80.
Proof.
  split; [vm_compute; reflexivity|].
  destruct (catalogue_entries_clean mixed_catalog "B2"
              {| Product.name := "Williams pear"; Product.price := 80 |})
    as (_ & Hs & _ & _ & _ & Hp); [vm_compute; reflexivity|].
  split; [exact Hs | exact Hp].
Defined.

Lemma add_to_cart_as_scan_witness :
  (Py.strip (default "" (form_barcode {| form_barcode := Some " A1 "; form_qty := None |}))
   = "A1"
   /\ requested_qty {| form_barcode := Some " A1 "; form_qty := None |} = 1)
  /\ db_after (add_to_cart calm_env "A1" two_apples)
     = db_after (home calm_env {| form_barcode := Some " A1 "; form_qty := None |}
                   two_apples).
Proof.
  split; [split; reflexivity|].
  apply (add_to_cart_as_scan calm_env
           {| form_barcode := Some " A1 "; form_qty := None |} "A1" two_apples
           eq_refl eq_refl).
Defined.

Lemma two_apples_prices : prices_nonneg (cart two_apples).
Proof. constructor; [simpl; lia | constructor]. Qed.

Lemma cart_total_witness :
  (cart_inv (cart two_apples) /\ prices_nonneg (cart two_apples))
  /\ 0 <= cart_total (cart two_apples)
  /\ prices_nonneg (cart (db_after (home calm_env (scan "A1" "3") two_apples))).
Proof.
  split; [split; [apply two_apples_inv | apply two_apples_prices]|].
  destruct (cart_total_never_negative two_apples two_apples_inv two_apples_prices)
    as (Ht & Hh & _).
  split; [exact Ht | apply Hh].
Defined.

Lemma two_apples_ledger : ledger_inv two_apples.
Proof. repeat split; constructor. Qed.

Lemma ledger_invariant_witness :
  ledger_inv two_apples
  /\ ledger_inv (db_after (payment_success keys_present accepting_gateway calm_env
                             (Some callback) two_apples))
  /\ length (orders (db_after (payment_success keys_present accepting_gateway calm_env
                                 (Some callback) two_apples))) = 1%nat.
Proof.
  split; [apply two_apples_ledger|].
  destruct (ledger_invariant_preserved two_apples two_apples_ledger) as [Hp _].
  destruct (Hp keys_present accepting_gateway calm_env (Some callback)) as (Hl & _ & _).
  split; [exact Hl | reflexivity].
Defined.


Lemma scan_then_order_witness :
  (load_products (products_file calm_env)
     !! Py.strip (default "" (form_barcode (scan "A1" "3")))
   = Some {| Product.name := "Apple"; Product.price := 50 |}
   /\ gateway_requests
        (create_order keys_present accepting_gateway calm_env (Some anonymous_order)
           (db_after (home calm_env (scan "A1" "3") two_apples)))
      = [make_order_data calm_env anonymous_order 26200
           [ {| Cart.barcode := "A1"; Cart.name := "Apple";
                Cart.price := 50; Cart.qty := 5 |} ]])
  /\ od_amount (make_order_data calm_env anonymous_order 26200
                  [ {| Cart.barcode := "A1"; Cart.name := "Apple";
                       Cart.price := 50; Cart.qty := 5 |} ])
     = 21 * (100 + 50 * 3) / 20 * 100.
Proof.
  assert (Hq : requested_qty (scan "A1" "3") <= sqlite_int_max)
    by (vm_compute; discriminate).
  assert (Hlt : cart_sum (cart two_apples)
                + unit_price (Py.strip (default "" (form_barcode (scan "A1" "3"))))
                    {| Product.name := "Apple"; Product.price := 50 |} two_apples
                  * requested_qty (scan "A1" "3") < 2 ^ 48)
    by (vm_compute; reflexivity).
  assert (Hg : gateway_requests
                 (create_order keys_present accepting_gateway calm_env
                    (Some anonymous_order)
                    (db_after (home calm_env (scan "A1" "3") two_apples)))
               = [make_order_data calm_env anonymous_order 26200
                    [ {| Cart.barcode := "A1"; Cart.name := "Apple";
                         Cart.price := 50; Cart.qty := 5 |} ]])
    by (vm_compute; reflexivity).
  split; [split; [reflexivity | exact Hg]|].
  rewrite (scan_then_order_amount keys_present accepting_gateway calm_env calm_env
             (scan "A1" "3") (Some anonymous_order) two_apples
             {| Product.name := "Apple"; Product.price := 50 |} _
             eq_refl eq_refl Hq eq_refl two_apples_inv two_apples_prices Hlt Hg).
  reflexivity.
Defined.
